(** * gpt-proxy-split: the request-proxy pipeline

    A shallow embedding of the metering reverse proxy (the chat-style
    and the prompt-style [proxyRequest], the two response relays
    [proxySSEResponse] and [proxyPlainResponse], and the storage
    functions of db.go), with the properties of its specification;
    then the rest of db.go ([setUserKey], [deleteUser], [listUsers],
    the fold of [getUsage]) and the commands of main.go, with
    properties of the code as a whole.

    Conventions of the embedding.
    - A Go [string] or [[]byte] is a Rocq [string] (a sequence of 8-bit
      characters); Go's [int] and [int64] are [Z].  A token total is a sum
      of slice lengths, far below 2^63, so no wrap-around is written.
    - The handler runs in a small state monad over a [World]: the
      database, the [http.ResponseWriter] and the ordered log of the
      effects performed so far.  An early [return] is the monad's [exit].
    - The network ([client.Do]), the tokenizer ([tokenizer.ForModel],
      [Codec.Encode]) and [json.Unmarshal] are collaborators: the pipeline
      is written over arbitrary ones (Section variables); a model of
      [encoding/json] for the decoded struct types is given in [GoJSON]
      and used wherever a concrete body is evaluated.
    - Storage fails only where the schema says so (foreign keys, unique
      keys); disk and lock errors, and the log output, are not modelled.
    - The commands of main.go run on the arguments that follow the flags
      and on the database; they end with an exit status and what they
      printed, or serve. *)

From Stdlib Require Import ZArith Ascii String List Lia Bool DecimalString.
From stdpp Require Import base strings gmap list fin_maps sorting.

Set Warnings "-register-all".
Local Open Scope string_scope.
Local Open Scope list_scope.

(** ** Byte strings: the functions of package [strings] the proxy calls *)

Module Str.

Definition byte (c : ascii) : N := N_of_ascii c.

Definition newline : ascii := ascii_of_N 10.

(** [s[n:]] for [n <= len(s)]. *)
Fixpoint skip (n : nat) (s : string) : string :=
  match n, s with
  | O, _ => s
  | S n', String _ s' => skip n' s'
  | S _, EmptyString => EmptyString
  end.

Definition HasPrefix (s prefix : string) : bool := String.prefix prefix s.

Definition TrimPrefix (s prefix : string) : string :=
  if HasPrefix s prefix then skip (String.length prefix) s else s.

(** [unicode.IsSpace], on the UTF-8 encoding of a rune: the one-byte
    runes U+0009..U+000D and U+0020, the two-byte U+0085 and U+00A0, and
    the three-byte U+1680, U+2000..U+200A, U+2028, U+2029, U+202F, U+205F
    and U+3000. *)
Definition space1 (a : ascii) : bool :=
  let x := byte a in ((9 <=? x) && (x <=? 13) || (x =? 32))%N.

Definition space2 (a b : ascii) : bool :=
  let x := byte a in let y := byte b in
  ((x =? 194) && ((y =? 133) || (y =? 160)))%N.

Definition space3 (a b c : ascii) : bool :=
  let x := byte a in let y := byte b in let z := byte c in
  (((x =? 225) && (y =? 154) && (z =? 128))
   || ((x =? 226) && (y =? 128)
       && (((128 <=? z) && (z <=? 138)) || (z =? 168) || (z =? 169) || (z =? 175)))
   || ((x =? 226) && (y =? 129) && (z =? 159))
   || ((x =? 227) && (y =? 128) && (z =? 128)))%N.

(** [strings.TrimLeftFunc(s, unicode.IsSpace)]: runes are decoded from
    the front; a byte that starts no valid space rune stops the scan. *)
Fixpoint TrimLeftSpace (s : string) : string :=
  match s with
  | EmptyString => EmptyString
  | String a r =>
      if space1 a then TrimLeftSpace r
      else match r with
           | EmptyString => s
           | String b r2 =>
               if space2 a b then TrimLeftSpace r2
               else match r2 with
                    | EmptyString => s
                    | String c r3 =>
                        if space3 a b c then TrimLeftSpace r3 else s
                    end
           end
  end.

(** [utf8.DecodeLastRuneInString] walks back to the nearest rune start,
    so the trailing scan is the leading scan of the reversed string with
    the byte patterns reversed. *)
Fixpoint trimRevSpace (s : string) : string :=
  match s with
  | EmptyString => EmptyString
  | String a r =>
      if space1 a then trimRevSpace r
      else match r with
           | EmptyString => s
           | String b r2 =>
               if space2 b a then trimRevSpace r2
               else match r2 with
                    | EmptyString => s
                    | String c r3 =>
                        if space3 c b a then trimRevSpace r3 else s
                    end
           end
  end.

Definition TrimRightSpace (s : string) : string :=
  String.rev (trimRevSpace (String.rev s)).

Definition TrimSpace (s : string) : string :=
  TrimRightSpace (TrimLeftSpace s).

(** [strings.Split(s, "\n")]: the pieces between newlines, one more than
    the number of newlines. *)
Fixpoint SplitLines (s : string) : list string :=
  match s with
  | EmptyString => [EmptyString]
  | String c s' =>
      if Ascii.eqb c newline then EmptyString :: SplitLines s'
      else match SplitLines s' with
           | l :: ls => String c l :: ls
           | [] => [String c EmptyString]
           end
  end.

End Str.

Definition nl : string := String Str.newline EmptyString.

(** ** A model of [encoding/json] for the struct types of the proxy

    [json.Unmarshal] first checks the whole input for syntax, then stores
    the value into the target: an object into a struct (member names are
    matched to field names up to case folding, unknown members are
    skipped, a member met twice is stored twice), an array into a slice,
    [null] into nothing (a slice becomes nil).  A value of the wrong kind
    is recorded as an error and decoding goes on; [Unmarshal] reports the
    error at the end. *)

Module GoJSON.

Import Str.

Inductive value : Type :=
| Null
| Bool (b : bool)
| Number (literal : string)
| String_ (s : string)
| Array (elements : list value)
| Object (members : list (string * value)).

Definition isChar (ch : string) (c : ascii) : bool :=
  match ch with
  | String d EmptyString => Ascii.eqb c d
  | _ => false
  end.

Definition among (chars : string) (c : ascii) : bool :=
  existsb (Ascii.eqb c) (list_ascii_of_string chars).

Definition quote : ascii := ascii_of_N 34.

Definition isQuote (c : ascii) : bool := Ascii.eqb c quote.

Definition isSpace (c : ascii) : bool :=
  let x := byte c in ((x =? 32) || (x =? 9) || (x =? 13) || (x =? 10))%N.

Definition isDigit (c : ascii) : bool :=
  let x := byte c in ((48 <=? x) && (x <=? 57))%N.

Definition hexVal (c : ascii) : option N :=
  let x := byte c in
  if ((48 <=? x) && (x <=? 57))%N then Some (x - 48)%N
  else if ((97 <=? x) && (x <=? 102))%N then Some (x - 87)%N
  else if ((65 <=? x) && (x <=? 70))%N then Some (x - 55)%N
  else None.

Fixpoint skipSpace (s : string) : string :=
  match s with
  | String c r => if isSpace c then skipSpace r else s
  | EmptyString => s
  end.

(** *** Scanning literals *)

Definition cons1 (c : ascii) (r : option (string * string)) :=
  match r with
  | Some (lit, rest) => Some (String c lit, rest)
  | None => None
  end.

(** The raw text of a string literal, from after the opening quote up to
    the closing one. *)
Fixpoint scanString (s : string) : option (string * string) :=
  match s with
  | EmptyString => None
  | String c r =>
      if isQuote c then Some (EmptyString, r)
      else if isChar "\" c then
        match r with
        | String e r2 =>
            if isQuote e || among "\/bfnrt" e then cons1 c (cons1 e (scanString r2))
            else if isChar "u" e then
              match r2 with
              | String h1 (String h2 (String h3 (String h4 r6))) =>
                  match hexVal h1, hexVal h2, hexVal h3, hexVal h4 with
                  | Some _, Some _, Some _, Some _ =>
                      cons1 c (cons1 e (cons1 h1 (cons1 h2 (cons1 h3
                        (cons1 h4 (scanString r6))))))
                  | _, _, _, _ => None
                  end
              | _ => None
              end
            else None
        | EmptyString => None
        end
      else if (byte c <? 32)%N then None
      else cons1 c (scanString r)
  end.

Fixpoint scanDigits (s : string) : string * string :=
  match s with
  | String c r =>
      if isDigit c then let '(ds, rest) := scanDigits r in (String c ds, rest)
      else (EmptyString, s)
  | EmptyString => (EmptyString, s)
  end.

(** A number literal: an optional minus sign; a zero, or a non-zero digit
    and more digits; optionally a point and digits; optionally an
    exponent mark, a sign and digits. *)
Definition scanNumber (s : string) : option (string * string) :=
  let '(sign, s1) :=
    match s with
    | String c r => if isChar "-" c then ("-", r) else (EmptyString, s)
    | EmptyString => (EmptyString, s)
    end in
  let intPart :=
    match s1 with
    | String c r =>
        if isChar "0" c then Some ("0", r)
        else if isDigit c then
          let '(ds, rest) := scanDigits r in Some (String c ds, rest)
        else None
    | EmptyString => None
    end in
  match intPart with
  | None => None
  | Some (ip, s2) =>
      let fracPart :=
        match s2 with
        | String c r =>
            if isChar "." c then
              match scanDigits r with
              | (EmptyString, _) => None
              | (ds, rest) => Some (String c ds, rest)
              end
            else Some (EmptyString, s2)
        | EmptyString => Some (EmptyString, s2)
        end in
      match fracPart with
      | None => None
      | Some (fp, s3) =>
          let expPart :=
            match s3 with
            | String c r =>
                if among "eE" c then
                  let '(sg, r') :=
                    match r with
                    | String d r1 =>
                        if among "+-" d then (String d EmptyString, r1)
                        else (EmptyString, r)
                    | EmptyString => (EmptyString, r)
                    end in
                  match scanDigits r' with
                  | (EmptyString, _) => None
                  | (ds, rest) => Some (String c (sg +:+ ds), rest)
                  end
                else Some (EmptyString, s3)
            | EmptyString => Some (EmptyString, s3)
            end in
          match expPart with
          | None => None
          | Some (ep, s4) => Some (sign +:+ ip +:+ fp +:+ ep, s4)
          end
      end
  end.

(** *** Unquoting a string literal *)

Definition chr (n : N) : string := String (ascii_of_N n) EmptyString.

(** [utf8.EncodeRune]. *)
Definition encodeRune (r : N) : string :=
  (if r <? 128 then chr r
   else if r <? 2048 then chr (192 + r / 64) +:+ chr (128 + r mod 64)
   else if r <? 65536 then
     chr (224 + r / 4096) +:+ chr (128 + (r / 64) mod 64) +:+ chr (128 + r mod 64)
   else
     chr (240 + r / 262144) +:+ chr (128 + (r / 4096) mod 64)
     +:+ chr (128 + (r / 64) mod 64) +:+ chr (128 + r mod 64))%N.

Definition replacementChar : N := 65533.

Definition isCont (c : ascii) : bool :=
  let x := byte c in ((128 <=? x) && (x <=? 191))%N.

(** The width of the well-formed UTF-8 sequence [s] starts with, 0 if it
    starts with none ([utf8.DecodeRune] then yields the replacement
    rune and width 1). *)
Definition runeLen (s : string) : nat :=
  match s with
  | EmptyString => 0
  | String a r =>
      let x := byte a in
      if (x <? 128)%N then 1
      else match r with
           | EmptyString => 0
           | String b r2 =>
               let y := byte b in
               if ((194 <=? x) && (x <=? 223))%N && isCont b then 2
               else match r2 with
                    | EmptyString => 0
                    | String c r3 =>
                        if ((((x =? 224) && (160 <=? y) && (y <=? 191))
                             || ((225 <=? x) && (x <=? 236) && isCont b)
                             || ((x =? 237) && (128 <=? y) && (y <=? 159))
                             || ((238 <=? x) && (x <=? 239) && isCont b))
                            && isCont c)%N then 3
                        else match r3 with
                             | EmptyString => 0
                             | String d _ =>
                                 if ((((x =? 240) && (144 <=? y) && (y <=? 191))
                                      || ((241 <=? x) && (x <=? 243) && isCont b)
                                      || ((x =? 244) && (128 <=? y) && (y <=? 143)))
                                     && isCont c && isCont d)%N then 4
                                 else 0
                             end
                    end
           end
  end.

(** [getu4]: the code unit of a [\uXXXX] escape at the head of [s]. *)
Definition getu4 (s : string) : option (N * string) :=
  match s with
  | String b (String u (String h1 (String h2 (String h3 (String h4 r))))) =>
      if isChar "\" b && isChar "u" u then
        match hexVal h1, hexVal h2, hexVal h3, hexVal h4 with
        | Some a, Some b', Some c, Some d =>
            Some ((a * 4096 + b' * 256 + c * 16 + d)%N, r)
        | _, _, _, _ => None
        end
      else None
  | _ => None
  end.

Definition isSurrogate (r : N) : bool := ((55296 <=? r) && (r <? 57344))%N.

(** [utf16.DecodeRune]: the rune of a surrogate pair, the replacement
    rune when the two units are not a high and a low surrogate. *)
Definition decodePair (r1 r2 : N) : N :=
  (if (55296 <=? r1) && (r1 <? 56320) && (56320 <=? r2) && (r2 <? 57344)
   then (r1 - 55296) * 1024 + (r2 - 56320) + 65536
   else replacementChar)%N.

Definition simpleEscape (e : ascii) : option N :=
  if isQuote e then Some 34%N
  else if isChar "\" e then Some 92%N
  else if isChar "/" e then Some 47%N
  else if isChar "b" e then Some 8%N
  else if isChar "f" e then Some 12%N
  else if isChar "n" e then Some 10%N
  else if isChar "r" e then Some 13%N
  else if isChar "t" e then Some 9%N
  else None.

(** [unquote] on the raw text of a scanned literal: escapes are replaced
    and the bytes coerced to well-formed UTF-8.  Every step consumes at
    least one byte, so [String.length s] steps are enough. *)
Fixpoint unquoteN (n : nat) (s : string) : string :=
  match n with
  | O => EmptyString
  | S n' =>
      match s with
      | EmptyString => EmptyString
      | String c r =>
          if isChar "\" c then
            match r with
            | EmptyString => EmptyString
            | String e r2 =>
                match simpleEscape e with
                | Some x => chr x +:+ unquoteN n' r2
                | None =>
                    match getu4 s with
                    | None => EmptyString
                    | Some (rr, r3) =>
                        if isSurrogate rr then
                          match getu4 r3 with
                          | Some (rr1, r4) =>
                              if (decodePair rr rr1 =? replacementChar)%N
                              then encodeRune replacementChar +:+ unquoteN n' r3
                              else encodeRune (decodePair rr rr1) +:+ unquoteN n' r4
                          | None => encodeRune replacementChar +:+ unquoteN n' r3
                          end
                        else encodeRune rr +:+ unquoteN n' r3
                    end
                end
            end
          else
            match runeLen s with
            | O => encodeRune replacementChar +:+ unquoteN n' r
            | k => substring 0 k s +:+ unquoteN n' (skip k s)
            end
      end
  end.

Definition unquote (s : string) : string := unquoteN (String.length s) s.

(** *** Values *)

Definition maxNestingDepth : N := 10000.

Definition expect (lit : string) (v : value) (s : string) : option (value * string) :=
  if HasPrefix s lit then Some (v, skip (String.length lit) s) else None.

(** One call per value, member or element; each consumes at least one
    byte before the next call, so [S (String.length s)] calls are enough
    for an input [s].  [pMembers] starts at the opening quote of a member
    name, [pElements] at the first byte of an element. *)
Fixpoint pValue (n : nat) (depth : N) (s : string) {struct n} : option (value * string) :=
  match n with
  | O => None
  | S n' =>
      match s with
      | EmptyString => None
      | String c r =>
          if isChar "{" c then
            if (maxNestingDepth <=? depth)%N then None
            else match skipSpace r with
                 | String d r' =>
                     if isChar "}" d then Some (Object [], r')
                     else match pMembers n' (depth + 1) (skipSpace r) with
                          | Some (ms, rest) => Some (Object ms, rest)
                          | None => None
                          end
                 | EmptyString => None
                 end
          else if isChar "[" c then
            if (maxNestingDepth <=? depth)%N then None
            else match skipSpace r with
                 | String d r' =>
                     if isChar "]" d then Some (Array [], r')
                     else match pElements n' (depth + 1) (skipSpace r) with
                          | Some (vs, rest) => Some (Array vs, rest)
                          | None => None
                          end
                 | EmptyString => None
                 end
          else if isQuote c then
            match scanString r with
            | Some (raw, rest) => Some (String_ (unquote raw), rest)
            | None => None
            end
          else if isChar "-" c || isDigit c then
            match scanNumber s with
            | Some (lit, rest) => Some (Number lit, rest)
            | None => None
            end
          else if isChar "t" c then expect "true" (Bool true) s
          else if isChar "f" c then expect "false" (Bool false) s
          else if isChar "n" c then expect "null" Null s
          else None
      end
  end
with pMembers (n : nat) (depth : N) (s : string) {struct n}
  : option (list (string * value) * string) :=
  match n with
  | O => None
  | S n' =>
      match s with
      | String c r =>
          if isQuote c then
            match scanString r with
            | None => None
            | Some (raw, r1) =>
                match skipSpace r1 with
                | String colon r2 =>
                    if isChar ":" colon then
                      match pValue n' depth (skipSpace r2) with
                      | None => None
                      | Some (v, r3) =>
                          match skipSpace r3 with
                          | String d r4 =>
                              if isChar "}" d then Some ([(unquote raw, v)], r4)
                              else if isChar "," d then
                                match pMembers n' depth (skipSpace r4) with
                                | Some (ms, rest) => Some ((unquote raw, v) :: ms, rest)
                                | None => None
                                end
                              else None
                          | EmptyString => None
                          end
                      end
                    else None
                | EmptyString => None
                end
            end
          else None
      | EmptyString => None
      end
  end
with pElements (n : nat) (depth : N) (s : string) {struct n}
  : option (list value * string) :=
  match n with
  | O => None
  | S n' =>
      match pValue n' depth s with
      | None => None
      | Some (v, r1) =>
          match skipSpace r1 with
          | String d r2 =>
              if isChar "]" d then Some ([v], r2)
              else if isChar "," d then
                match pElements n' depth (skipSpace r2) with
                | Some (vs, rest) => Some (v :: vs, rest)
                | None => None
                end
              else None
          | EmptyString => None
          end
      end
  end.

(** [checkValid] and the value it describes: one value between optional
    white space and nothing else. *)
Definition parse (data : string) : option value :=
  match pValue (S (String.length data)) 0 (skipSpace data) with
  | Some (v, rest) =>
      match skipSpace rest with
      | EmptyString => Some v
      | _ => None
      end
  | None => None
  end.

(** A body written with ['] where JSON has the double quote. *)
Definition q (s : string) : string :=
  string_of_list_ascii
    (map (fun c => if isChar "'" c then quote else c) (list_ascii_of_string s)).

(** *** Storing a value into a Go target

    A decoder takes the target's current content and the value and gives
    the new content and whether the value fitted. *)

Definition Dec (A : Type) : Type := A -> value -> A * bool.

Definition foldByte (c : ascii) : N := N.land (byte c) 223.

Definition isLetter (c : ascii) : bool :=
  ((65 <=? foldByte c) && (foldByte c <=? 90))%N.

(** The match of a member name [key] with a field name [name] (ASCII):
    equal up to the case of ASCII letters, where U+017F also matches an
    [s] and U+212A a [k]. *)
Fixpoint equalFold (name key : string) : bool :=
  match name with
  | EmptyString =>
      match key with
      | EmptyString => true
      | _ => false
      end
  | String sb name' =>
      match key with
      | EmptyString => false
      | String tb key1 =>
          if (byte tb <? 128)%N then
            (Ascii.eqb sb tb || (isLetter sb && (foldByte sb =? foldByte tb)%N))
            && equalFold name' key1
          else if among "sS" sb then
            match key1 with
            | String t2 key2 =>
                (byte tb =? 197)%N && (byte t2 =? 191)%N && equalFold name' key2
            | EmptyString => false
            end
          else if among "kK" sb then
            match key1 with
            | String t2 (String t3 key3) =>
                (byte tb =? 226)%N && (byte t2 =? 132)%N && (byte t3 =? 170)%N
                && equalFold name' key3
            | _ => false
            end
          else false
      end
  end.

Definition decString : Dec string := fun old v =>
  match v with
  | String_ s => (s, true)
  | Null => (old, true)
  | _ => (old, false)
  end.

Definition decBool : Dec bool := fun old v =>
  match v with
  | Bool b => (b, true)
  | Null => (old, true)
  | _ => (old, false)
  end.

Fixpoint digitsValue (acc : Z) (s : string) : option Z :=
  match s with
  | EmptyString => Some acc
  | String c r =>
      if isDigit c then digitsValue (10 * acc + Z.of_N (byte c - 48)) r
      else None
  end.

(** [strconv.ParseInt(lit, 10, 64)] on a number literal. *)
Definition parseInt64 (lit : string) : option Z :=
  let signed :=
    match lit with
    | String c r =>
        if isChar "-" c
        then match r with
             | EmptyString => None
             | _ => option_map Z.opp (digitsValue 0 r)
             end
        else digitsValue 0 lit
    | EmptyString => None
    end in
  match signed with
  | Some z =>
      if ((- 9223372036854775808 <=? z) && (z <=? 9223372036854775807))%Z
      then Some z else None
  | None => None
  end.

Definition decInt : Dec Z := fun old v =>
  match v with
  | Number lit =>
      match parseInt64 lit with
      | Some z => (z, true)
      | None => (old, false)
      end
  | Null => (old, true)
  | _ => (old, false)
  end.

(** A struct: [field] gives the decoder of the field a member name
    selects, applied to the whole struct. *)
Definition decMember {A : Type} (field : string -> option (Dec A))
    (acc : A * bool) (m : string * value) : A * bool :=
  match field (fst m) with
  | Some d => let '(a, ok) := d (fst acc) (snd m) in (a, snd acc && ok)
  | None => acc
  end.

Definition decStruct {A : Type} (field : string -> option (Dec A)) : Dec A :=
  fun old v =>
    match v with
    | Null => (old, true)
    | Object ms => fold_left (decMember field) ms (old, true)
    | _ => (old, false)
    end.

(** A slice with the part of its backing array beyond its length: an
    array is stored element by element onto what the backing array holds
    at that index (a fresh element beyond it), and the slice is cut back
    to the number of elements stored. *)
Record slice (A : Type) : Type := { elems : list A; spare : list A }.
Arguments elems {A} _.
Arguments spare {A} _.

Definition nilSlice {A : Type} : slice A := {| elems := []; spare := [] |}.

Fixpoint decElements {A : Type} (zero : A) (d : Dec A) (backing : list A)
    (vs : list value) : list A * bool :=
  match vs with
  | [] => ([], true)
  | v :: vs' =>
      let '(a, ok) := d (hd zero backing) v in
      let '(rest, ok') := decElements zero d (tl backing) vs' in
      (a :: rest, ok && ok')
  end.

Definition decSlice {A : Type} (zero : A) (d : Dec A) : Dec (slice A) :=
  fun old v =>
    match v with
    | Null => (nilSlice, true)
    | Array [] => (nilSlice, true)
    | Array vs =>
        let backing := elems old ++ spare old in
        let '(xs, ok) := decElements zero d backing vs in
        ({| elems := xs; spare := skipn (length vs) backing |}, ok)
    | _ => (old, false)
    end.

(** [json.Unmarshal(data, &target)] with [target] at its zero value:
    the stored target, or an error. *)
Definition Unmarshal {A : Type} (d : Dec A) (zero : A) (data : string) : option A :=
  match parse data with
  | None => None
  | Some v => let '(a, ok) := d zero v in if ok then Some a else None
  end.

End GoJSON.

Local Open Scope Z_scope.

(** ** Storage: the schema and the functions of db.go

    A table is the list of its rows in insertion order.  [usage.ts] is
    assigned by the storage engine and is not part of the row here. *)

Module DB.

Record userRow : Type := { user_id : Z; user_name : string; user_key : string }.
Record projectRow : Type := { project_id : Z; project_user : Z; project_name : string }.
Record modelRow : Type := { model_id : Z; model_name : string }.
Record usageRow : Type := { usage_model : Z; usage_project : Z; usage_tokens : Z }.

Record t : Type := {
  users : list userRow;
  projects : list projectRow;
  models : list modelRow;
  usage : list usageRow
}.

(** The rowid of a new row of an [INTEGER PRIMARY KEY] table: one more
    than the largest in use, 1 in an empty table. *)
Definition nextRowid (ids : list Z) : Z :=
  match ids with
  | [] => 1
  | i :: rest => 1 + fold_left Z.max rest i
  end.

(** A [ResultFunc] that assigns a variable per row: the last row wins,
    the variable keeps its zero value when there is no row. *)
Definition lastOf {A B : Type} (f : A -> B) (zero : B) (rows : list A) : B :=
  fold_left (fun _ r => f r) rows zero.

Definition userExists (d : t) (id : Z) : bool :=
  existsb (fun u => user_id u =? id) (users d).

Definition projectExists (d : t) (id : Z) : bool :=
  existsb (fun p => project_id p =? id) (projects d).

Definition modelExists (d : t) (id : Z) : bool :=
  existsb (fun m => model_id m =? id) (models d).

Definition isProject (userID : Z) (name : string) (p : projectRow) : bool :=
  (project_user p =? userID) && String.eqb (project_name p) name.

Definition isModel (name : string) (m : modelRow) : bool :=
  String.eqb (model_name m) name.

(** [SELECT id, name FROM users WHERE KEY = :apiKey]. *)
Definition findUserByKey (d : t) (apiKey : string) : Z * string * bool :=
  lastOf (fun u => (user_id u, user_name u, true)) (0, EmptyString, false)
    (List.filter (fun u => String.eqb (user_key u) apiKey) (users d)).

(** [INSERT OR IGNORE INTO projects (user_id, name)]: nothing happens on
    a row that is there; a new row needs its user (foreign key). *)
Definition insertProject (d : t) (userID : Z) (name : string) : option t :=
  if existsb (isProject userID name) (projects d) then Some d
  else if userExists d userID then
    Some {| users := users d;
            projects := projects d ++
              [{| project_id := nextRowid (map project_id (projects d));
                  project_user := userID; project_name := name |}];
            models := models d; usage := usage d |}
  else None.

Definition selectProjectID (d : t) (userID : Z) (name : string) : Z :=
  lastOf project_id 0 (List.filter (isProject userID name) (projects d)).

(** [getProjectID]: the database after the call and the ID, or the error. *)
Definition getProjectID (d : t) (userID : Z) (projectName : string) : t * option Z :=
  match insertProject d userID projectName with
  | None => (d, None)
  | Some d' => (d', Some (selectProjectID d' userID projectName))
  end.

Definition insertModel (d : t) (name : string) : t :=
  if existsb (isModel name) (models d) then d
  else {| users := users d; projects := projects d;
          models := models d ++
            [{| model_id := nextRowid (map model_id (models d)); model_name := name |}];
          usage := usage d |}.

Definition selectModelID (d : t) (name : string) : Z :=
  lastOf model_id 0 (List.filter (isModel name) (models d)).

Definition getModelID (d : t) (modelName : string) : t * option Z :=
  let d' := insertModel d modelName in (d', Some (selectModelID d' modelName)).

(** [saveUsage]: the insert, inside a savepoint that is rolled back when
    a foreign key fails. *)
Definition saveUsage (d : t) (modelID projectID tokensUsage : Z) : t * bool :=
  if modelExists d modelID && projectExists d projectID then
    ({| users := users d; projects := projects d; models := models d;
        usage := usage d ++
          [{| usage_model := modelID; usage_project := projectID;
              usage_tokens := tokensUsage |}] |}, true)
  else (d, false).

(** *** The functions behind the user commands *)

Definition hasName (userName : string) (u : userRow) : bool :=
  String.eqb (user_name u) userName.

Definition hasKey (apiKey : string) (u : userRow) : bool :=
  String.eqb (user_key u) apiKey.

Definition withKey (apiKey : string) (u : userRow) : userRow :=
  {| user_id := user_id u; user_name := user_name u; user_key := apiKey |}.

(** [DO UPDATE SET key = :apiKey], on the row of the name. *)
Definition rekey (userName apiKey : string) (u : userRow) : userRow :=
  if hasName userName u then withKey apiKey u else u.

(** [setUserKey]: [INSERT INTO users (name, key) ... ON CONFLICT (name) DO
    UPDATE SET key = :apiKey], inside a savepoint.  The row of that name
    gets the key; without such a row a new one is appended.  Either way a
    key that another user holds is refused ([UNIQUE]) and nothing
    changes.  The result tells whether the statement went through. *)
Definition setUserKey (d : t) (userName apiKey : string) : t * bool :=
  if existsb (hasName userName) (users d) then
    if existsb (fun u => hasKey apiKey u && negb (hasName userName u)) (users d)
    then (d, false)
    else ({| users := map (rekey userName apiKey) (users d);
             projects := projects d; models := models d; usage := usage d |}, true)
  else
    if existsb (hasKey apiKey) (users d) then (d, false)
    else ({| users := users d ++
               [{| user_id := nextRowid (map user_id (users d));
                   user_name := userName; user_key := apiKey |}];
             projects := projects d; models := models d; usage := usage d |}, true).

(** [deleteUser]: [DELETE FROM users WHERE name = :userName], inside a
    savepoint.  A row that a project refers to cannot go (foreign key):
    the statement fails and nothing changes ([None]).  Otherwise the
    result is [conn.Changes() != 0]: whether a row was deleted. *)
Definition deleteUser (d : t) (userName : string) : t * option bool :=
  let gone := List.filter (hasName userName) (users d) in
  if existsb (fun p => existsb (fun u => user_id u =? project_user p) gone) (projects d)
  then (d, None)
  else ({| users := List.filter (fun u => negb (hasName userName u)) (users d);
           projects := projects d; models := models d; usage := usage d |},
        Some (negb (Nat.eqb (length gone) 0))).

(** The struct [user] of [listUsers]. *)
Record user : Type := { name : string; key : string }.

(** [ORDER BY name] under the [BINARY] collation: rows ordered by the
    bytes of their name. *)
Fixpoint insertByName (u : userRow) (rows : list userRow) : list userRow :=
  match rows with
  | [] => [u]
  | v :: rest =>
      if String.leb (user_name u) (user_name v) then u :: rows
      else v :: insertByName u rest
  end.

Definition orderByName (rows : list userRow) : list userRow :=
  fold_right insertByName [] rows.

(** [listUsers]: [SELECT name, key FROM users ORDER BY name], each row
    appended to the result. *)
Definition listUsers (d : t) : list user :=
  map (fun u => {| name := user_name u; key := user_key u |})
    (orderByName (users d)).

End DB.

(** The constraints the schema declares: primary keys, [UNIQUE] columns
    and foreign keys. *)
Module Schema.

Record holds (d : DB.t) : Prop := {
  user_ids : NoDup (map DB.user_id (DB.users d));
  user_names : NoDup (map DB.user_name (DB.users d));
  user_keys : NoDup (map DB.user_key (DB.users d));
  project_ids : NoDup (map DB.project_id (DB.projects d));
  project_names :
    NoDup (map (fun p => (DB.project_user p, DB.project_name p)) (DB.projects d));
  model_ids : NoDup (map DB.model_id (DB.models d));
  model_names : NoDup (map DB.model_name (DB.models d));
  project_users :
    Forall (fun p => DB.userExists d (DB.project_user p) = true) (DB.projects d);
  usage_refs :
    Forall (fun u => DB.modelExists d (DB.usage_model u) = true /\
                     DB.projectExists d (DB.usage_project u) = true)
      (DB.usage d)
}.

End Schema.

(** [getUsage]: the rows of its statement (one per month, user and
    project, ordered by month first) are taken as they come; what is
    embedded is the [ResultFunc] that files them by month. *)
Module Report.

(** A row of the statement: [month], [userName], [projectName], [usage]. *)
Record row : Type := {
  row_month : string;
  row_userName : string;
  row_projectName : string;
  row_usage : Z
}.

Record projectUsage : Type := {
  userName : string;
  projectName : string;
  tokens : Z
}.

Record usage : Type := {
  month : string;
  projects : list projectUsage
}.

Definition projectUsageOf (r : row) : projectUsage :=
  {| userName := row_userName r; projectName := row_projectName r;
     tokens := row_usage r |}.

(** [u.projects = append(u.projects, ...)]. *)
Definition addProject (p : projectUsage) (u : usage) : usage :=
  {| month := month u; projects := projects u ++ [p] |}.

(** One call of the [ResultFunc]: a month other than that of the last
    element (or the first row) opens a new element; the row goes to the
    last element. *)
Definition resultFunc (usages : list usage) (r : row) : list usage :=
  let usages :=
    match last usages with
    | None => usages ++ [{| month := row_month r; projects := [] |}]
    | Some u =>
        if String.eqb (month u) (row_month r) then usages
        else usages ++ [{| month := row_month r; projects := [] |}]
    end in
  alter (addProject (projectUsageOf r)) (length usages - 1)%nat usages.

Definition getUsage (rows : list row) : list usage :=
  fold_left resultFunc rows [].

End Report.

(** ** Lines of a stream *)

(** A line as [ReadString] delivers it: bytes other than the newline,
    then the newline. *)
Fixpoint isLine (s : string) : bool :=
  match s with
  | EmptyString => false
  | String c EmptyString => Ascii.eqb c Str.newline
  | String c s' => negb (Ascii.eqb c Str.newline) && isLine s'
  end.

(** A line other than the blank line that ends a message. *)
Definition nonblank (l : string) : bool :=
  isLine l && negb (String.eqb l nl).

Fixpoint concatLines (ls : list string) : string :=
  match ls with
  | [] => EmptyString
  | l :: ls' => l +:+ concatLines ls'
  end.

(** The token count of a list of encodings. *)
Fixpoint tokenCount (idss : list (list N)) : Z :=
  match idss with
  | [] => 0
  | ids :: rest => Z.of_nat (length ids) + tokenCount rest
  end.

(** ** HTTP messages *)

(** [http.Header]: the values of each header name, names in canonical
    form (as net/http keeps them, so that [Get], [Set], [Add] and [Del]
    address the name they are given). *)
Abbreviation Header := (gmap string (list string)).

Module Hdr.

Definition Values (h : Header) (k : string) : list string := default [] (h !! k).

Definition Get (h : Header) (k : string) : string := hd EmptyString (Values h k).

Definition Set_ (k v : string) (h : Header) : Header := <[k := [v]]> h.

Definition Add (k v : string) (h : Header) : Header := <[k := Values h k ++ [v]]> h.

Definition Del (k : string) (h : Header) : Header := delete k h.

End Hdr.

(** The inbound request: [r.Method], [r.URL.RawQuery], [r.Header] and the
    body stream ([BodyFails]: reading it ends in an error, not in EOF). *)
Module Request.
Record t : Type := {
  Method : string;
  RawQuery : string;
  Header : Header;
  Body : string;
  BodyFails : bool
}.
End Request.

(** The outbound request built for the upstream. *)
Module OutRequest.
Record t : Type := {
  Method : string;
  URL : string;
  Header : Header;
  Body : string
}.
End OutRequest.

(** The upstream response: status, headers and the body stream, which
    delivers [Body] and then EOF, or a transport error if [BodyFails]. *)
Module Response.
Record t : Type := {
  StatusCode : Z;
  Header : Header;
  Body : string;
  BodyFails : bool
}.
End Response.

Definition StatusOK : Z := 200.
Definition StatusBadRequest : Z := 400.
Definition StatusUnauthorized : Z := 401.
Definition StatusInternalServerError : Z := 500.
Definition StatusBadGateway : Z := 502.

Definition openaiURL : string := "https://api.openai.com".

(** ** Effects *)

(** What a call does to its collaborators, in the order it does it.  The
    events of the client connection are those that reach the wire: the
    status line with the headers as they are at that moment ([EvStatus]),
    the chunks of the body ([EvBody]) and the flushes; a [WriteHeader]
    that comes after the status line is recorded apart and sends nothing. *)
Inductive Event : Type :=
| EvGetConn
| EvPutConn
| EvFindUserByKey (apiKey : string)
| EvGetProjectID (userID : Z) (projectName : string)
| EvGetModelID (modelName : string)
| EvSaveUsage (modelID projectID tokens : Z)
| EvReadRequestBody
| EvUnmarshalRequest (data : string)
| EvForModel (model : string)
| EvEncode (text : string)
| EvDo (req : OutRequest.t)
| EvReadAll
| EvCopy
| EvReadString (line : string)
| EvReadError
| EvUnmarshalResponse (data : string)
| EvUnmarshalChunk (msg : string)
| EvStatus (code : Z) (h : Header)
| EvSuperfluousWriteHeader (code : Z)
| EvBody (data : string)
| EvFlush.

(** [http.ResponseWriter] as net/http's server implements it: the header
    map the handler edits, and whether the status line went out.  The
    first [WriteHeader] sends the status with a snapshot of the map; later
    calls and later edits of the map change nothing sent; [Write] and
    [Flush] send the status 200 first if none was sent. *)
Record ResponseWriter : Type := {
  flusher : bool;
  header : Header;
  wroteHeader : bool
}.

Record World : Type := {
  db : DB.t;
  rw : ResponseWriter;
  trace : list Event
}.

Definition Handler (A : Type) : Type := World -> option A * World.

Definition ret {A : Type} (a : A) : Handler A := fun s => (Some a, s).

Definition bind {A B : Type} (m : Handler A) (k : A -> Handler B) : Handler B :=
  fun s =>
    match m s with
    | (Some a, s') => k a s'
    | (None, s') => (None, s')
    end.

(** [return] out of the handler. *)
Definition exit {A : Type} : Handler A := fun s => (None, s).

Declare Scope handler_scope.
Delimit Scope handler_scope with handler.
Notation "x <- m ;; k" := (bind m (fun x => k))
  (at level 100, m at next level, k at level 200, right associativity)
  : handler_scope.
Notation "m ;; k" := (bind m (fun _ => k))
  (at level 100, k at level 200, right associativity) : handler_scope.
Local Open Scope handler_scope.

Definition run {A : Type} (m : Handler A) (s : World) : World := snd (m s).

Definition emit (e : Event) : Handler unit :=
  fun s => (Some tt, {| db := db s; rw := rw s; trace := trace s ++ [e] |}).

Definition setHeader (f : Header -> Header) : Handler unit :=
  fun s => (Some tt,
            {| db := db s;
               rw := {| flusher := flusher (rw s); header := f (header (rw s));
                        wroteHeader := wroteHeader (rw s) |};
               trace := trace s |}).

Definition markWritten : Handler unit :=
  fun s => (Some tt,
            {| db := db s;
               rw := {| flusher := flusher (rw s); header := header (rw s);
                        wroteHeader := true |};
               trace := trace s |}).

Definition WriteHeader (code : Z) : Handler unit :=
  fun s =>
    if wroteHeader (rw s) then emit (EvSuperfluousWriteHeader code) s
    else (markWritten ;; emit (EvStatus code (header (rw s)))) s.

Definition ensureHeader : Handler unit :=
  fun s => if wroteHeader (rw s) then ret tt s else WriteHeader StatusOK s.

Definition Write (data : string) : Handler unit :=
  ensureHeader ;; emit (EvBody data).

Definition Flush : Handler unit :=
  ensureHeader ;; emit EvFlush.

(** [http.Error] (as of Go 1.19, the version of go.mod): two headers,
    the status, the text and a newline. *)
Definition http_Error (error : string) (code : Z) : Handler unit :=
  setHeader (Hdr.Set_ "Content-Type" "text/plain; charset=utf-8") ;;
  setHeader (Hdr.Set_ "X-Content-Type-Options" "nosniff") ;;
  WriteHeader code ;;
  Write (error +:+ nl).

(** [io.Copy(w, body)]: what the body delivers is written as it comes;
    nothing is written for an empty body. *)
Definition io_Copy (body : string) : Handler unit :=
  emit EvCopy ;;
  match body with
  | EmptyString => ret tt
  | _ => Write body
  end.

(** The storage functions, on the connection of the call.  They return
    an error where the schema refuses the statement; [findUserByKey] runs
    one [SELECT] and has no such case, so the branch of [proxyRequest] on
    its error is not reached. *)
Definition setDB (d : DB.t) : Handler unit :=
  fun s => (Some tt, {| db := d; rw := rw s; trace := trace s |}).

Definition findUserByKey (apiKey : string) : Handler (Z * string * bool) :=
  emit (EvFindUserByKey apiKey) ;;
  fun s => (Some (DB.findUserByKey (db s) apiKey), s).

Definition getProjectID (userID : Z) (projectName : string) : Handler (option Z) :=
  emit (EvGetProjectID userID projectName) ;;
  fun s => let '(d, res) := DB.getProjectID (db s) userID projectName in
           (setDB d ;; ret res) s.

Definition getModelID (modelName : string) : Handler (option Z) :=
  emit (EvGetModelID modelName) ;;
  fun s => let '(d, res) := DB.getModelID (db s) modelName in
           (setDB d ;; ret res) s.

Definition saveUsage (modelID projectID tokensUsage : Z) : Handler bool :=
  emit (EvSaveUsage modelID projectID tokensUsage) ;;
  fun s => let '(d, ok) := DB.saveUsage (db s) modelID projectID tokensUsage in
           (setDB d ;; ret ok) s.

(** [conn := mustGetDB(ctx, pool); defer pool.Put(conn)]. *)
Definition withConn {A : Type} (m : Handler A) : Handler A :=
  fun s =>
    match (emit EvGetConn ;; m) s with
    | (res, s') => (res, snd (emit EvPutConn s'))
    end.

(** [bufio.Reader.ReadString('\n')] on a body: it succeeds once per
    newline-terminated line, in order, and then fails (EOF or transport
    error), dropping an unterminated tail.  [readLines] gives the lines
    and the tail. *)
Fixpoint readLines (s : string) : list string * string :=
  match s with
  | EmptyString => ([], EmptyString)
  | String c s' =>
      let '(ls, tl) := readLines s' in
      if Ascii.eqb c Str.newline then (nl :: ls, tl)
      else match ls with
           | l :: ls' => (String c l :: ls', tl)
           | [] => ([], String c tl)
           end
  end.

(** ** The types both variants declare *)

(** [completionResponseBody]: [Usage.TotalTokens], tagged [total_tokens]. *)
Record completionResponseBody : Type := { TotalTokens : Z }.

(** [tokenizer.Codec]: [Encode] gives the token IDs of a text, or fails. *)
Definition Codec : Type := string -> option (list N).

(** [client.Do]: the upstream's response, or the text of a transport error. *)
Definition Client : Type := OutRequest.t -> Response.t + string.

Definition onField {A B : Type} (get : A -> B) (set : B -> A -> A)
    (d : GoJSON.Dec B) : GoJSON.Dec A :=
  fun old v => let '(b, ok) := d (get old) v in (set b old, ok).

Definition usageField (k : string) : option (GoJSON.Dec Z) :=
  if GoJSON.equalFold "total_tokens" k then Some GoJSON.decInt else None.

Definition responseField (k : string) : option (GoJSON.Dec completionResponseBody) :=
  if GoJSON.equalFold "Usage" k
  then Some (onField TotalTokens (fun n _ => {| TotalTokens := n |})
               (GoJSON.decStruct usageField))
  else None.

(** [json.Unmarshal(responseBody, &crespb)]. *)
Definition unmarshalResponseBody : string -> option completionResponseBody :=
  GoJSON.Unmarshal (GoJSON.decStruct responseField) {| TotalTokens := 0 |}.



(** The loop over [resp.Header] of both variants: the values of each
    upstream name replace those the writer's map has under that name. *)
Definition copyHeader (src : Header) (h : Header) : Header :=
  map_fold (fun k vs acc => fold_left (fun a v => Hdr.Add k v a) vs (Hdr.Del k acc))
    h src.

(** ** Reading a run *)

(** The bytes of the response body, in the order they were sent. *)
Fixpoint clientBody (t : list Event) : string :=
  match t with
  | [] => EmptyString
  | EvBody data :: t' => data +:+ clientBody t'
  | _ :: t' => clientBody t'
  end.

(** The status lines sent, with their headers. *)
Fixpoint statusLines (t : list Event) : list (Z * Header) :=
  match t with
  | [] => []
  | EvStatus code h :: t' => (code, h) :: statusLines t'
  | _ :: t' => statusLines t'
  end.

(** The texts handed to [Encode]. *)
Fixpoint encoded (t : list Event) : list string :=
  match t with
  | [] => []
  | EvEncode text :: t' => text :: encoded t'
  | _ :: t' => encoded t'
  end.

(** The usage records handed to [saveUsage]. *)
Fixpoint saved (t : list Event) : list DB.usageRow :=
  match t with
  | [] => []
  | EvSaveUsage m p n :: t' =>
      {| DB.usage_model := m; DB.usage_project := p; DB.usage_tokens := n |}
      :: saved t'
  | _ :: t' => saved t'
  end.





(** The events of relaying lines: each is read, written and flushed. *)
Definition relayTrace (lines : list string) : list Event :=
  flat_map (fun l => [EvReadString l; EvBody l; EvFlush]) lines.

(** Events of the storage connection. *)
Definition isStorage (e : Event) : bool :=
  match e with
  | EvGetConn | EvPutConn | EvFindUserByKey _ | EvGetProjectID _ _
  | EvGetModelID _ | EvSaveUsage _ _ _ => true
  | _ => false
  end.

(** Events of the stages that follow the decoding of the request:
    tokenizer and model resolution, the upstream call, tokenization and
    the usage record. *)
Definition followsDecoding (e : Event) : bool :=
  match e with
  | EvForModel _ | EvGetModelID _ | EvDo _ | EvEncode _ | EvSaveUsage _ _ _ => true
  | _ => false
  end.

(** Events of the client connection. *)
Definition isWire (e : Event) : bool :=
  match e with
  | EvStatus _ _ | EvSuperfluousWriteHeader _ | EvBody _ | EvFlush => true
  | _ => false
  end.

(** A call starts with nothing sent and nothing logged. *)
Definition fresh (s : World) : Prop :=
  wroteHeader (rw s) = false /\ trace s = [].

(** The header map after [http.Error] has set its two headers. *)
Definition errorHeader (h : Header) : Header :=
  Hdr.Set_ "X-Content-Type-Options" "nosniff"
    (Hdr.Set_ "Content-Type" "text/plain; charset=utf-8" h).

(** [reqKey] and [projectName] as [proxyRequest] computes them. *)
Definition reqKey (r : Request.t) : string :=
  Str.TrimPrefix (Hdr.Get (Request.Header r) "Authorization") "Bearer ".

Definition projectLabel (r : Request.t) : string :=
  if String.eqb (Hdr.Get (Request.Header r) "X-Project") EmptyString
  then "<default>" else Hdr.Get (Request.Header r) "X-Project".

(** The call obtained the response [resp] from the upstream. *)
Definition upstreamResponse (client : Client) (t : list Event) (resp : Response.t)
  : Prop :=
  exists out, In (EvDo out) t /\ client out = inl resp.

(** The events that follow the status line of a forwarded response. *)
Definition isQuiet (e : Event) : bool :=
  match e with
  | EvSuperfluousWriteHeader _ | EvBody _ | EvFlush | EvCopy | EvReadAll
  | EvUnmarshalResponse _ | EvSaveUsage _ _ _ | EvEncode _ | EvReadString _
  | EvReadError | EvUnmarshalChunk _ => true
  | _ => false
  end.

(** A computation that, run after the status line, sends no second one
    and performs only [isQuiet] events. *)
Definition quiet {A : Type} (m : Handler A) : Prop :=
  forall s, wroteHeader (rw s) = true ->
    wroteHeader (rw (snd (m s))) = true /\
    exists t, trace (snd (m s)) = trace s ++ t /\ forallb isQuiet t = true.

(** The events of a call up to the upstream's answer. *)
Definition gateTrace (r : Request.t) (out : OutRequest.t) (uid : Z) (model : string)
  : list Event :=
  [EvGetConn; EvFindUserByKey (reqKey r); EvGetProjectID uid (projectLabel r);
   EvReadRequestBody; EvUnmarshalRequest (Request.Body r); EvForModel model;
   EvGetModelID model; EvDo out].

(** The world when [proxyRequest] has sent the upstream's status. *)
Definition atStatus (r : Request.t) (out : OutRequest.t) (s : World)
    (resp : Response.t) (d : DB.t) (uid : Z) (model : string) : World :=
  let h := copyHeader (Response.Header resp) (header (rw s)) in
  {| db := d;
     rw := {| flusher := flusher (rw s); header := h; wroteHeader := true |};
     trace := gateTrace r out uid model ++ [EvStatus (Response.StatusCode resp) h] |}.

(** The world after more events. *)
Definition logged (t : list Event) (s : World) : World :=
  {| db := db s; rw := rw s; trace := trace s ++ t |}.

Definition emitted (e : Event) (s : World) : World := logged [e] s.

(** [defer pool.Put(conn)] at the end of a call. *)
Definition putConn (s : World) : World :=
  {| db := db s; rw := rw s; trace := trace s ++ [EvPutConn] |}.

Definition usageRow (modelID projectID tokens : Z) : DB.usageRow :=
  {| DB.usage_model := modelID; DB.usage_project := projectID;
     DB.usage_tokens := tokens |}.

(** The events of a relay loop: reads of the upstream body, decoding
    and tokenization of a message, and what goes to the client. *)
Definition isRelay (e : Event) : bool :=
  match e with
  | EvSuperfluousWriteHeader _ | EvBody _ | EvFlush | EvEncode _
  | EvReadString _ | EvReadError | EvUnmarshalChunk _ => true
  | _ => false
  end.

(** A computation that, run after the status line, leaves the database
    alone and performs only [isRelay] events. *)
Definition relays {A : Type} (m : Handler A) : Prop :=
  forall s, wroteHeader (rw s) = true ->
    wroteHeader (rw (snd (m s))) = true /\ db (snd (m s)) = db s /\
    exists t, trace (snd (m s)) = trace s ++ t /\ forallb isRelay t = true.

(** A computation that keeps a property of the database. *)
Definition keeps {A : Type} (P : DB.t -> Prop) (m : Handler A) : Prop :=
  forall s, P (db s) -> P (db (snd (m s))).

(** A property of the database that the three storage functions of the
    handler keep. *)
Definition keptByStorage (P : DB.t -> Prop) : Prop :=
  (forall d userID name, P d -> P (fst (DB.getProjectID d userID name))) /\
  (forall d name, P d -> P (fst (DB.getModelID d name))) /\
  (forall d m p n, P d -> P (fst (DB.saveUsage d m p n))).

(** The number of upstream calls in a run. *)
Fixpoint upstreamCalls (t : list Event) : nat :=
  match t with
  | [] => 0
  | EvDo _ :: t' => S (upstreamCalls t')
  | _ :: t' => upstreamCalls t'
  end.

(** The events between taking the connection and giving it back. *)
Definition isConn (e : Event) : bool :=
  match e with
  | EvGetConn | EvPutConn => true
  | _ => false
  end.

(** A database that holds the users of [d0], and the projects, models
    and usage of [d0] followed at most by new rows. *)
Definition grownFrom (d0 d : DB.t) : Prop :=
  DB.users d = DB.users d0 /\
  DB.projects d0 `prefix_of` DB.projects d /\
  DB.models d0 `prefix_of` DB.models d /\
  DB.usage d0 `prefix_of` DB.usage d.

(** A computation that, run after the status line, writes at most [n]
    usage records. *)
Definition savesAtMost {A : Type} (n : nat) (m : Handler A) : Prop :=
  forall s, wroteHeader (rw s) = true ->
    wroteHeader (rw (snd (m s))) = true /\
    exists t, trace (snd (m s)) = trace s ++ t /\ (length (saved t) <= n)%nat.

(** The three kinds of call, by the events [t] of a call made in the
    world [s] whose upstream request would be [out]: rejected by a guard,
    before the storage is touched; rejected at a gate, between taking the
    connection and giving it back; or answered by the upstream, whose
    status line is followed by the events [q] of the relay. *)
Definition callShape (client : Client) (r : Request.t) (out : OutRequest.t)
    (s : World) (t : list Event) : Prop :=
  let eh := errorHeader (header (rw s)) in
  (exists code error, t = [EvStatus code eh; EvBody (error +:+ nl)]) \/
  (exists uid model pre rest code error,
     gateTrace r out uid model = EvGetConn :: pre ++ rest /\
     t = EvGetConn :: pre ++ [EvStatus code eh; EvBody (error +:+ nl); EvPutConn]) \/
  (exists resp uid model q,
     client out = inl resp /\
     t = gateTrace r out uid model ++
         [EvStatus (Response.StatusCode resp)
            (copyHeader (Response.Header resp) (header (rw s)))] ++
         q ++ [EvPutConn] /\
     forallb isQuiet q = true /\
     (length (saved q) <= 1)%nat /\
     (saved q <> [] -> Response.StatusCode resp = StatusOK)).

(** The rows of a statement ordered by month, cut into the runs of
    consecutive rows of one month: [monthRunsFrom m cur rows] is what
    follows when the run of month [m] holds [cur] so far. *)
Fixpoint monthRunsFrom (m : string) (cur : list Report.row) (rows : list Report.row)
  : list (string * list Report.row) :=
  match rows with
  | [] => [(m, cur)]
  | r :: rest =>
      if String.eqb m (Report.row_month r) then monthRunsFrom m (cur ++ [r]) rest
      else (m, cur) :: monthRunsFrom (Report.row_month r) [r] rest
  end.

Definition monthRuns (rows : list Report.row) : list (string * list Report.row) :=
  match rows with
  | [] => []
  | r :: rest => monthRunsFrom (Report.row_month r) [r] rest
  end.

(** The element of [getUsage]'s result for a run. *)
Definition usageOfRun (run : string * list Report.row) : Report.usage :=
  {| Report.month := fst run;
     Report.projects := map Report.projectUsageOf (snd run) |}.

(** A run holds a row at least, and rows of its month only. *)
Definition goodRun (run : string * list Report.row) : Prop :=
  snd run <> [] /\ Forall (fun r => Report.row_month r = fst run) (snd run).

(** ** The chat-style variant *)

Module Chat.

Record message : Type := { Content : string }.

Record completionRequestBody : Type := {
  Model : string;
  Messages : list message;
  Suffix : string;
  Stream : bool
}.

(** An element of [Choices]: [Delta.Content]. *)
Record choice : Type := { Delta_Content : string }.

Record completionResponseStreamedBody : Type := { Choices : list choice }.

(** *** The targets as [json.Unmarshal] fills them *)

Record requestTarget : Type := {
  tModel : string;
  tMessages : GoJSON.slice message;
  tSuffix : string;
  tStream : bool
}.

Definition messageField (k : string) : option (GoJSON.Dec message) :=
  if GoJSON.equalFold "Content" k
  then Some (onField Content (fun c _ => {| Content := c |}) GoJSON.decString)
  else None.

Definition requestField (k : string) : option (GoJSON.Dec requestTarget) :=
  if GoJSON.equalFold "Model" k then
    Some (onField tModel
            (fun x t => {| tModel := x; tMessages := tMessages t;
                           tSuffix := tSuffix t; tStream := tStream t |})
            GoJSON.decString)
  else if GoJSON.equalFold "Messages" k then
    Some (onField tMessages
            (fun x t => {| tModel := tModel t; tMessages := x;
                           tSuffix := tSuffix t; tStream := tStream t |})
            (GoJSON.decSlice {| Content := EmptyString |} (GoJSON.decStruct messageField)))
  else if GoJSON.equalFold "Suffix" k then
    Some (onField tSuffix
            (fun x t => {| tModel := tModel t; tMessages := tMessages t;
                           tSuffix := x; tStream := tStream t |})
            GoJSON.decString)
  else if GoJSON.equalFold "Stream" k then
    Some (onField tStream
            (fun x t => {| tModel := tModel t; tMessages := tMessages t;
                           tSuffix := tSuffix t; tStream := x |})
            GoJSON.decBool)
  else None.

Definition requestOf (t : requestTarget) : completionRequestBody :=
  {| Model := tModel t; Messages := GoJSON.elems (tMessages t);
     Suffix := tSuffix t; Stream := tStream t |}.

(** [json.Unmarshal(requestBody, &crb)]. *)
Definition unmarshalRequestBody (data : string) : option completionRequestBody :=
  option_map requestOf
    (GoJSON.Unmarshal (GoJSON.decStruct requestField)
       {| tModel := EmptyString; tMessages := GoJSON.nilSlice;
          tSuffix := EmptyString; tStream := false |} data).

Definition deltaField (k : string) : option (GoJSON.Dec string) :=
  if GoJSON.equalFold "Content" k then Some GoJSON.decString else None.

Definition choiceField (k : string) : option (GoJSON.Dec choice) :=
  if GoJSON.equalFold "Delta" k
  then Some (onField Delta_Content (fun c _ => {| Delta_Content := c |})
               (GoJSON.decStruct deltaField))
  else None.

Definition streamedField (k : string) : option (GoJSON.Dec (GoJSON.slice choice)) :=
  if GoJSON.equalFold "Choices" k
  then Some (GoJSON.decSlice {| Delta_Content := EmptyString |}
               (GoJSON.decStruct choiceField))
  else None.

(** [json.Unmarshal([]byte(msg), &respBody)]. *)
Definition unmarshalStreamedBody (msg : string) : option completionResponseStreamedBody :=
  option_map (fun sl => {| Choices := GoJSON.elems sl |})
    (GoJSON.Unmarshal (GoJSON.decStruct streamedField) GoJSON.nilSlice msg).

(** *** The handler

    Arguments that only feed the log ([userName], [projectName], ...) are
    left out; [w], [r] and [conn] are the [World]. *)

Section Pipeline.

Variable json_Unmarshal_request : string -> option completionRequestBody.
Variable json_Unmarshal_response : string -> option completionResponseBody.
Variable json_Unmarshal_streamed : string -> option completionResponseStreamedBody.
Variable tokenizer_ForModel : string -> option Codec.
Variable client_Do : Client.

(** [getMessageFromSSE] (declared, not called): the payloads of the
    [data:] lines of a message, trimmed and joined. *)
Definition getMessageFromSSE (sseMsg : string) : string :=
  fold_left
    (fun msg line =>
       if Str.HasPrefix line "data:" then msg +:+ Str.TrimSpace (Str.skip 5 line)
       else msg)
    (Str.SplitLines sseMsg) EmptyString.

(** The loop over [crb.Messages] that counts the prompt. *)
Fixpoint tokenizePrompt (tk : Codec) (messages : list message) (nTokens : Z)
  : Handler Z :=
  match messages with
  | [] => ret nTokens
  | message :: rest =>
      emit (EvEncode (Content message)) ;;
      match tk (Content message) with
      | None => http_Error "failed to tokenize prompt" StatusBadGateway ;; exit
      | Some ids => tokenizePrompt tk rest (nTokens + Z.of_nat (length ids))
      end
  end.

(** What a line adds to the message being assembled. *)
Definition addLine (msg line : string) : string :=
  if Str.HasPrefix line "data:" then msg +:+ Str.TrimSpace (Str.skip 5 line)
  else msg.

(** The two nested [for] loops, as one recursion over the lines
    [ReadString] delivers: a line other than the blank one is an iteration
    of the inner loop (it keeps [msg]); the blank line leaves the inner
    loop and runs the rest of the outer body, which either leaves the
    outer loop ([DONE]), returns (an error), or starts the next message
    with an empty [msg].  The result is [nTokens] at the [break]. *)
Fixpoint relayLoop (tk : Codec) (lines : list string) (msg : string) (nTokens : Z)
  : Handler Z :=
  match lines with
  | [] =>
      emit EvReadError ;;
      http_Error "failed to read response" StatusBadGateway ;; exit
  | line :: rest =>
      emit (EvReadString line) ;;
      Write line ;;
      Flush ;;
      if String.eqb line nl then
        if String.eqb msg "[DONE]" then ret nTokens
        else
          emit (EvUnmarshalChunk msg) ;;
          match json_Unmarshal_streamed msg with
          | None => http_Error "failed to unmarshal response" StatusBadGateway ;; exit
          | Some respBody =>
              match Choices respBody with
              | [c] =>
                  emit (EvEncode (Delta_Content c)) ;;
                  match tk (Delta_Content c) with
                  | None =>
                      http_Error "failed to tokenize message" StatusBadGateway ;; exit
                  | Some ids =>
                      relayLoop tk rest EmptyString (nTokens + Z.of_nat (length ids))
                  end
              | _ =>
                  http_Error "0 or more than 1 choices in response" StatusBadGateway ;;
                  exit
              end
          end
      else relayLoop tk rest (addLine msg line) nTokens
  end.

Definition getFlusher : Handler bool := fun s => (Some (flusher (rw s)), s).

Definition proxySSEResponse (resp : Response.t) (projectID modelID : Z)
    (crb : completionRequestBody) (tk : Codec) : Handler unit :=
  ok <- getFlusher ;;
  if negb ok then
    http_Error "Streaming setup failed" StatusInternalServerError ;; exit
  else
    setHeader (Hdr.Set_ "Content-Type" "text/event-stream") ;;
    setHeader (Hdr.Set_ "Cache-Control" "no-cache") ;;
    setHeader (Hdr.Set_ "Connection" "keep-alive") ;;
    WriteHeader StatusOK ;;
    Flush ;;
    nTokens <- tokenizePrompt tk (Messages crb) 0 ;;
    nTokens <- relayLoop tk (fst (readLines (Response.Body resp))) EmptyString nTokens ;;
    saveUsage modelID projectID nTokens ;;
    ret tt.

Definition proxyPlainResponse (resp : Response.t) (projectID modelID : Z)
  : Handler unit :=
  emit EvReadAll ;;
  if Response.BodyFails resp then
    http_Error "failed to read response" StatusBadGateway ;; exit
  else
    let responseBody := Response.Body resp in
    emit (EvUnmarshalResponse responseBody) ;;
    match json_Unmarshal_response responseBody with
    | None => http_Error "failed to parse response" StatusBadGateway ;; exit
    | Some crespb =>
        saveUsage modelID projectID (TotalTokens crespb) ;;
        Write responseBody
    end.

Definition outboundRequest (r : Request.t) (key : string) : OutRequest.t :=
  {| OutRequest.Method := "POST";
     OutRequest.URL := openaiURL +:+ "/v1/chat/completions";
     OutRequest.Header :=
       Hdr.Set_ "Authorization" ("Bearer " +:+ key) (Request.Header r);
     OutRequest.Body := Request.Body r |}.

Definition proxyRequest (r : Request.t) (key : string) : Handler unit :=
  if negb (String.eqb (Request.Method r) "POST") then
    http_Error "Only POST requests are supported" StatusBadRequest ;; exit
  else if negb (String.eqb (Request.RawQuery r) EmptyString) then
    http_Error "Query parameters are not supported" StatusBadRequest ;; exit
  else
    withConn (
      let reqKey := Str.TrimPrefix (Hdr.Get (Request.Header r) "Authorization") "Bearer " in
      user <- findUserByKey reqKey ;;
      let '(userID, userName, userFound) := user in
      if negb userFound then
        http_Error "Invalid API key" StatusUnauthorized ;; exit
      else
        let projectName :=
          if String.eqb (Hdr.Get (Request.Header r) "X-Project") EmptyString
          then "<default>" else Hdr.Get (Request.Header r) "X-Project" in
        project <- getProjectID userID projectName ;;
        match project with
        | None => http_Error "failed to find project" StatusInternalServerError ;; exit
        | Some projectID =>
            emit EvReadRequestBody ;;
            if Request.BodyFails r then
              http_Error "failed to read request body" StatusInternalServerError ;; exit
            else
              let requestBody := Request.Body r in
              emit (EvUnmarshalRequest requestBody) ;;
              match json_Unmarshal_request requestBody with
              | None => http_Error "failed to parse request body" StatusBadRequest ;; exit
              | Some crb =>
                  emit (EvForModel (Model crb)) ;;
                  match tokenizer_ForModel (Model crb) with
                  | None =>
                      http_Error ("failed to find model " +:+ Model crb) StatusBadRequest ;;
                      exit
                  | Some tk =>
                      model <- getModelID (Model crb) ;;
                      match model with
                      | None =>
                          http_Error ("failed to get model " +:+ Model crb)
                            StatusInternalServerError ;;
                          exit
                      | Some modelID =>
                          emit (EvDo (outboundRequest r key)) ;;
                          match client_Do (outboundRequest r key) with
                          | inr err =>
                              http_Error ("Failed to read response from OpenAI: " +:+ err)
                                StatusBadGateway ;;
                              exit
                          | inl resp =>
                              setHeader (copyHeader (Response.Header resp)) ;;
                              WriteHeader (Response.StatusCode resp) ;;
                              if negb (Response.StatusCode resp =? StatusOK) then
                                io_Copy (Response.Body resp) ;; exit
                              else if Stream crb then
                                proxySSEResponse resp projectID modelID crb tk
                              else
                                proxyPlainResponse resp projectID modelID
                          end
                      end
                  end
              end
        end).

(** The part of [proxyRequest] that follows
    [w.WriteHeader(resp.StatusCode)], named for the statements below. *)
Definition afterStatus (resp : Response.t) (projectID modelID : Z)
    (crb : completionRequestBody) (tk : Codec) : Handler unit :=
  if negb (Response.StatusCode resp =? StatusOK) then
    io_Copy (Response.Body resp) ;; exit
  else if Stream crb then
    proxySSEResponse resp projectID modelID crb tk
  else
    proxyPlainResponse resp projectID modelID.

(** A well-formed message of the stream, with what the relay makes of
    it: its lines before the blank one, the delta content its payload
    decodes to, and the token IDs of that content. *)
Record chunk : Type := {
  chunk_lines : list string;
  chunk_content : string;
  chunk_ids : list N
}.

(** The message the inner loop assembles from the lines of a block. *)
Definition assembled (lines : list string) : string :=
  fold_left addLine lines EmptyString.

Definition goodChunk (tk : Codec) (c : chunk) : Prop :=
  Forall (fun l => nonblank l = true) (chunk_lines c) /\
  assembled (chunk_lines c) <> "[DONE]" /\
  json_Unmarshal_streamed (assembled (chunk_lines c))
    = Some {| Choices := [{| Delta_Content := chunk_content c |}] |} /\
  tk (chunk_content c) = Some (chunk_ids c).

(** The bytes of a block: its lines and the blank line. *)
Definition chunkText (c : chunk) : string :=
  concatLines (chunk_lines c) +:+ nl.

Fixpoint streamText (cs : list chunk) : string :=
  match cs with
  | [] => EmptyString
  | c :: cs' => chunkText c +:+ streamText cs'
  end.

(** The lines of these blocks, as [ReadString] delivers them. *)
Fixpoint streamLines (cs : list chunk) : list string :=
  match cs with
  | [] => []
  | c :: cs' => chunk_lines c ++ nl :: streamLines cs'
  end.

(** What the relay does on a block that is not the sentinel. *)
Definition chunkTrace (c : chunk) : list Event :=
  relayTrace (chunk_lines c ++ [nl]) ++
  [EvUnmarshalChunk (assembled (chunk_lines c)); EvEncode (chunk_content c)].

End Pipeline.

End Chat.

(** ** The prompt-style variant *)

Module Prompt.

Record completionRequestBody : Type := {
  Model : string;
  Prompt : string;
  Suffix : string;
  Stream : bool
}.

Definition requestField (k : string) : option (GoJSON.Dec completionRequestBody) :=
  if GoJSON.equalFold "Model" k then
    Some (onField Model
            (fun x t => {| Model := x; Prompt := Prompt t;
                           Suffix := Suffix t; Stream := Stream t |})
            GoJSON.decString)
  else if GoJSON.equalFold "Prompt" k then
    Some (onField Prompt
            (fun x t => {| Model := Model t; Prompt := x;
                           Suffix := Suffix t; Stream := Stream t |})
            GoJSON.decString)
  else if GoJSON.equalFold "Suffix" k then
    Some (onField Suffix
            (fun x t => {| Model := Model t; Prompt := Prompt t;
                           Suffix := x; Stream := Stream t |})
            GoJSON.decString)
  else if GoJSON.equalFold "Stream" k then
    Some (onField Stream
            (fun x t => {| Model := Model t; Prompt := Prompt t;
                           Suffix := Suffix t; Stream := x |})
            GoJSON.decBool)
  else None.

(** [json.Unmarshal(requestBody, &crb)]. *)
Definition unmarshalRequestBody : string -> option completionRequestBody :=
  GoJSON.Unmarshal (GoJSON.decStruct requestField)
    {| Model := EmptyString; Prompt := EmptyString;
       Suffix := EmptyString; Stream := false |}.

Section Pipeline.

Variable json_Unmarshal_request : string -> option completionRequestBody.
Variable json_Unmarshal_response : string -> option completionResponseBody.
Variable tokenizer_ForModel : string -> option Codec.
Variable client_Do : Client.

Definition outboundRequest (r : Request.t) (key : string) : OutRequest.t :=
  {| OutRequest.Method := "POST";
     OutRequest.URL := openaiURL +:+ "/v1/chat/completions";
     OutRequest.Header :=
       Hdr.Set_ "Authorization" ("Bearer " +:+ key) (Request.Header r);
     OutRequest.Body := Request.Body r |}.

Definition proxyRequest (r : Request.t) (key : string) : Handler unit :=
  if negb (String.eqb (Request.Method r) "POST") then
    http_Error "Only POST requests are supported" StatusBadRequest ;; exit
  else if negb (String.eqb (Request.RawQuery r) EmptyString) then
    http_Error "Query parameters are not supported" StatusBadRequest ;; exit
  else
    withConn (
      let reqKey := Str.TrimPrefix (Hdr.Get (Request.Header r) "Authorization") "Bearer " in
      user <- findUserByKey reqKey ;;
      let '(userID, userName, userFound) := user in
      if negb userFound then
        http_Error "Invalid API key" StatusUnauthorized ;; exit
      else
        let projectName :=
          if String.eqb (Hdr.Get (Request.Header r) "X-Project") EmptyString
          then "<default>" else Hdr.Get (Request.Header r) "X-Project" in
        project <- getProjectID userID projectName ;;
        match project with
        | None => http_Error "failed to find project" StatusInternalServerError ;; exit
        | Some projectID =>
            emit EvReadRequestBody ;;
            if Request.BodyFails r then
              http_Error "failed to read request body" StatusInternalServerError ;; exit
            else
              let requestBody := Request.Body r in
              emit (EvUnmarshalRequest requestBody) ;;
              match json_Unmarshal_request requestBody with
              | None => http_Error "failed to parse request body" StatusBadRequest ;; exit
              | Some crb =>
                  if Stream crb then
                    http_Error "streaming responses are not yet supported"
                      StatusBadRequest ;;
                    exit
                  else
                    emit (EvForModel (Model crb)) ;;
                    match tokenizer_ForModel (Model crb) with
                    | None =>
                        http_Error ("failed to find model " +:+ Model crb)
                          StatusBadRequest ;;
                        exit
                    | Some _ =>
                        model <- getModelID (Model crb) ;;
                        match model with
                        | None =>
                            http_Error ("failed to get model " +:+ Model crb)
                              StatusInternalServerError ;;
                            exit
                        | Some modelID =>
                            emit (EvDo (outboundRequest r key)) ;;
                            match client_Do (outboundRequest r key) with
                            | inr err =>
                                http_Error
                                  ("Failed to read response from OpenAI: " +:+ err)
                                  StatusBadGateway ;;
                                exit
                            | inl resp =>
                                setHeader (copyHeader (Response.Header resp)) ;;
                                WriteHeader (Response.StatusCode resp) ;;
                                if Response.StatusCode resp =? StatusOK then
                                  emit EvReadAll ;;
                                  if Response.BodyFails resp then
                                    http_Error "failed to read response" StatusBadGateway ;;
                                    exit
                                  else
                                    let responseBody := Response.Body resp in
                                    emit (EvUnmarshalResponse responseBody) ;;
                                    match json_Unmarshal_response responseBody with
                                    | None =>
                                        http_Error "failed to parse response"
                                          StatusBadGateway ;;
                                        exit
                                    | Some crespb =>
                                        saveUsage modelID projectID (TotalTokens crespb) ;;
                                        Write responseBody ;;
                                        exit
                                    end
                                else
                                  io_Copy (Response.Body resp)
                            end
                        end
                    end
              end
        end).

End Pipeline.

End Prompt.

(** ** The command line (main.go)

    The functions of package [fmt] the commands print with. *)
Module Fmt.

(** [utf8.RuneCountInString]: a byte that starts no well-formed sequence
    counts as one rune. *)
Fixpoint runeCountN (fuel : nat) (s : string) : nat :=
  match fuel with
  | O => O
  | S fuel' =>
      match s with
      | EmptyString => O
      | String _ _ =>
          S (runeCountN fuel' (Str.skip (Nat.max 1 (GoJSON.runeLen s)) s))
      end
  end.

Definition RuneCountInString (s : string) : nat := runeCountN (String.length s) s.

Fixpoint spaces (n : nat) : string :=
  match n with
  | O => EmptyString
  | S n' => String " " (spaces n')
  end.

(** The verb [%-16s]: padded on the right to the width, in runes; a
    longer string is printed whole. *)
Definition padRight (width : nat) (s : string) : string :=
  s +:+ spaces (width - RuneCountInString s).

(** The verb [%d]. *)
Definition Itoa (n : Z) : string := NilZero.string_of_int (Z.to_int n).

(** The verb [%8d]: padded on the left to the width. *)
Definition padLeft (width : nat) (s : string) : string :=
  spaces (width - RuneCountInString s) +:+ s.

End Fmt.

Module CLI.

Definition usageText : string :=
  "Usage: gpt-proxy-split (serve|list-users|set-user-key|delete-user) <args>

gpt-proxy-split serve <listenURL>

gpt-proxy-split list-users

gpt-proxy-split set-user-key <user-name> <key>

gpt-proxy-split delete-user <user-name>

gpt-proxy-split get-usage
".

Definition tab : string := String (ascii_of_N 9) EmptyString.

Definition rule : string := "----------------------------------------".

(** How the program ends: with a status, what it printed and the
    database as it left it; or serving on a listen address. *)
Inductive Outcome : Type :=
| Exited (status : Z) (stdout stderr : string) (d : DB.t)
| Serving (listenURL : string) (d : DB.t).

Section Commands.

(** The text of the storage driver's error for a refused statement, and
    the rows the statement of [getUsage] delivers. *)
Variable errorText : string.
Variable getUsageStmt : DB.t -> list Report.row.

(** [cliUsage]: the usage text on the standard error, status 2. *)
Definition cliUsage (d : DB.t) : Outcome := Exited 2 EmptyString usageText d.

Definition serveCmd (args : list string) (d : DB.t) : Outcome :=
  match args with
  | [listenURL] => Serving listenURL d
  | _ => cliUsage d
  end.

Definition userLine (u : DB.user) : string :=
  DB.name u +:+ tab +:+ DB.key u +:+ nl.

Definition listUsersCmd (args : list string) (d : DB.t) : Outcome :=
  match args with
  | [] => Exited 0 (String.concat EmptyString (map userLine (DB.listUsers d)))
            EmptyString d
  | _ => cliUsage d
  end.

Definition setUserKeyCmd (args : list string) (d : DB.t) : Outcome :=
  match args with
  | [userName; apiKey] =>
      let '(d', ok) := DB.setUserKey d userName apiKey in
      if ok then Exited 0 ("User " +:+ userName +:+ " is created/updated" +:+ nl)
                   EmptyString d'
      else Exited 1 EmptyString
             ("Failed to set user key: failed to save user/key: " +:+ errorText +:+ nl)
             d'
  | _ => cliUsage d
  end.

Definition deleteUserCmd (args : list string) (d : DB.t) : Outcome :=
  match args with
  | [userName] =>
      match DB.deleteUser d userName with
      | (d', None) =>
          Exited 1 EmptyString
            ("Failed to delete user: failed to delete user: " +:+ errorText +:+ nl) d'
      | (d', Some true) =>
          Exited 0 EmptyString ("User " +:+ userName +:+ " is deleted" +:+ nl) d'
      | (d', Some false) =>
          Exited 0 EmptyString ("User " +:+ userName +:+ " is not found" +:+ nl) d'
      end
  | _ => cliUsage d
  end.

Definition projectLine (p : Report.projectUsage) : string :=
  Fmt.padRight 16 (Report.userName p) +:+ Fmt.padRight 16 (Report.projectName p) +:+
  Fmt.padLeft 8 (Fmt.Itoa (Report.tokens p)) +:+ nl.

Definition monthBlock (u : Report.usage) : string :=
  Report.month u +:+ nl +:+ rule +:+ nl +:+
  String.concat EmptyString (map projectLine (Report.projects u)).

Definition getUsageCmd (args : list string) (d : DB.t) : Outcome :=
  match args with
  | [] =>
      Exited 0
        ("User            Project           Tokens" +:+ nl +:+ rule +:+ nl +:+
         String.concat EmptyString
           (map monthBlock (Report.getUsage (getUsageStmt d))))
        EmptyString d
  | _ => cliUsage d
  end.

(** [main], on the arguments [pflag.Args()] that follow the flags. *)
Definition main (args : list string) (d : DB.t) : Outcome :=
  match args with
  | [] => cliUsage d
  | cmd :: rest =>
      if String.eqb cmd "serve" then serveCmd rest d
      else if String.eqb cmd "list-users" then listUsersCmd rest d
      else if String.eqb cmd "set-user-key" then setUserKeyCmd rest d
      else if String.eqb cmd "delete-user" then deleteUserCmd rest d
      else if String.eqb cmd "get-usage" then getUsageCmd rest d
      else cliUsage d
  end.

End Commands.

End CLI.


(** ** Sample collaborators and data, for evaluation *)

Module Sample.

(** A codec with one token per byte, known for the model [gpt-x] only. *)
Definition bytesCodec : Codec :=
  fun text => Some (map Str.byte (list_ascii_of_string text)).

Definition ForModel (model : string) : option Codec :=
  if String.eqb model "gpt-x" then Some bytesCodec else None.

Definition alice : DB.userRow :=
  {| DB.user_id := 1; DB.user_name := "alice"; DB.user_key := "abc" |}.

Definition db0 : DB.t :=
  {| DB.users := [alice]; DB.projects := []; DB.models := []; DB.usage := [] |}.

Definition writer (h : Header) : ResponseWriter :=
  {| flusher := true; header := h; wroteHeader := false |}.

Definition world (d : DB.t) (h : Header) : World :=
  {| db := d; rw := writer h; trace := [] |}.

Definition request (method query body : string) : Request.t :=
  {| Request.Method := method; Request.RawQuery := query;
     Request.Header := {[ "Authorization" := ["Bearer abc"] ]};
     Request.Body := body; Request.BodyFails := false |}.

Definition jsonHeader : Header := {[ "Content-Type" := ["application/json"] ]}.

Definition response (code : Z) (body : string) : Response.t :=
  {| Response.StatusCode := code; Response.Header := jsonHeader;
     Response.Body := body; Response.BodyFails := false |}.

Definition respond (code : Z) (body : string) : Client :=
  fun _ => inl (response code body).

Definition chatBody (stream : string) : string :=
  GoJSON.q "{'model':'gpt-x','messages':[{'content':'hi'}],'stream':" +:+ stream +:+ "}".

Definition sseBody : string :=
  GoJSON.q "data: {'choices':[{'delta':{'content':'Hel'}}]}" +:+ nl +:+ nl
  +:+ GoJSON.q "data: {'choices':[{'delta':{'content':'lo'}}]}" +:+ nl +:+ nl
  +:+ "data: [DONE]" +:+ nl +:+ nl.

Definition usage7 : string := GoJSON.q "{'usage':{'total_tokens':7}}".

Definition s0 : World := world db0 ∅.

(** A world whose writer already holds a header of its own. *)
Definition s1 : World := world db0 {[ "X-Request-Id" := ["42"] ]}.

Definition plainRequest : Request.t := request "POST" "" (chatBody "false").

Definition streamRequest : Request.t := request "POST" "" (chatBody "true").

(** A valid credential, a query string and a body that is not JSON. *)
Definition queryRequest : Request.t := request "POST" "x=1" "{".

Definition badBodyRequest : Request.t := request "POST" "" "{".

Definition promptRequest : Request.t :=
  request "POST" "" (GoJSON.q "{'model':'gpt-x','prompt':'hi','stream':true}").

Definition helChunk : Chat.chunk :=
  {| Chat.chunk_lines :=
       [GoJSON.q "data: {'choices':[{'delta':{'content':'Hel'}}]}" +:+ nl];
     Chat.chunk_content := "Hel";
     Chat.chunk_ids := [72; 101; 108]%N |}.

Definition loChunk : Chat.chunk :=
  {| Chat.chunk_lines :=
       [GoJSON.q "data: {'choices':[{'delta':{'content':'lo'}}]}" +:+ nl];
     Chat.chunk_content := "lo";
     Chat.chunk_ids := [108; 111]%N |}.

Definition chat (client : Client) (r : Request.t) (s : World) : World :=
  run (Chat.proxyRequest Chat.unmarshalRequestBody unmarshalResponseBody
         Chat.unmarshalStreamedBody ForModel client r "sk-upstream") s.

Definition prompt (client : Client) (r : Request.t) (s : World) : World :=
  run (Prompt.proxyRequest Prompt.unmarshalRequestBody unmarshalResponseBody
         ForModel client r "sk-upstream") s.

(** An upstream that cannot be reached. *)
Definition unreachable : Client := fun _ => inr "connection refused".



(** A request whose credential is that of no user. *)
Definition strangerRequest : Request.t :=
  {| Request.Method := "POST"; Request.RawQuery := EmptyString;
     Request.Header := {[ "Authorization" := ["Bearer nobody"] ]};
     Request.Body := chatBody "false"; Request.BodyFails := false |}.

(** A request for a model the tokenizer does not know. *)
Definition otherModelRequest : Request.t :=
  request "POST" "" (GoJSON.q "{'model':'gpt-y','messages':[]}").

(** The plain request with another value of [Authorization]. *)
Definition withCredential (v : string) : Request.t :=
  {| Request.Method := Request.Method plainRequest;
     Request.RawQuery := Request.RawQuery plainRequest;
     Request.Header := Hdr.Set_ "Authorization" v (Request.Header plainRequest);
     Request.Body := Request.Body plainRequest;
     Request.BodyFails := Request.BodyFails plainRequest |}.

(** Rows as the statement of [getUsage] delivers them. *)
Definition rows : list Report.row :=
  [ {| Report.row_month := "2024-01"; Report.row_userName := "alice";
       Report.row_projectName := "<default>"; Report.row_usage := 7 |};
    {| Report.row_month := "2024-01"; Report.row_userName := "alice";
       Report.row_projectName := "web"; Report.row_usage := 12 |};
    {| Report.row_month := "2024-02"; Report.row_userName := "alice";
       Report.row_projectName := "<default>"; Report.row_usage := 5 |} ].

(** The command line, with the text of a refused statement and the rows
    of the usage statement. *)
Definition main (args : list string) (d : DB.t) : CLI.Outcome :=
  CLI.main "constraint failed" (fun _ => rows) args d.

End Sample.

(** * Properties *)

(** ** The library models at work *)

Example TrimSpace_payload : Str.TrimSpace (" [DONE]" +:+ nl) = "[DONE]".
Proof. reflexivity. Qed.

Example TrimSpace_nbsp :
  Str.TrimSpace (String (ascii_of_N 194) (String (ascii_of_N 160) "x ")) = "x".
Proof. reflexivity. Qed.

Example TrimPrefix_bearer : Str.TrimPrefix "Bearer abc" "Bearer " = "abc".
Proof. reflexivity. Qed.

Example parse_usage :
  GoJSON.parse
    (GoJSON.q "{'usage': {'total_tokens': 7}, 'id': 'xA', 'a': [1, -2.5e3, true, null]}")
  = Some (GoJSON.Object
            [("usage", GoJSON.Object [("total_tokens", GoJSON.Number "7")]);
             ("id", GoJSON.String_ "xA");
             ("a", GoJSON.Array [GoJSON.Number "1"; GoJSON.Number "-2.5e3";
                                 GoJSON.Bool true; GoJSON.Null])]).
Proof. vm_compute. reflexivity. Qed.

Example parse_escape :
  GoJSON.parse (GoJSON.q "'A\n\/'")
  = Some (GoJSON.String_ ("A" +:+ nl +:+ "/")).
Proof. vm_compute. reflexivity. Qed.

Example parse_trailing_comma : GoJSON.parse "[1,]" = None.
Proof. vm_compute. reflexivity. Qed.

Example parse_leading_zero : GoJSON.parse "01" = None.
Proof. vm_compute. reflexivity. Qed.

Example parse_empty : GoJSON.parse " " = None.
Proof. vm_compute. reflexivity. Qed.

Example unmarshal_request :
  Chat.unmarshalRequestBody
    (GoJSON.q "{'model':'gpt-x','messages':[{'role':'user','content':'hi'}],'stream':false}")
  = Some {| Chat.Model := "gpt-x"; Chat.Messages := [{| Chat.Content := "hi" |}];
            Chat.Suffix := EmptyString; Chat.Stream := false |}.
Proof. vm_compute. reflexivity. Qed.

Example unmarshal_chunk :
  Chat.unmarshalStreamedBody
    (GoJSON.q "{'choices':[{'index':0,'delta':{'content':'HeA'}}]}")
  = Some {| Chat.Choices := [{| Chat.Delta_Content := "HeA" |}] |}.
Proof. vm_compute. reflexivity. Qed.

Example unmarshal_usage :
  unmarshalResponseBody (GoJSON.q "{'usage':{'total_tokens':7}}")
  = Some {| TotalTokens := 7 |}.
Proof. vm_compute. reflexivity. Qed.

Example unmarshal_usage_folded :
  unmarshalResponseBody (GoJSON.q "{'USAGE':{'Total_Tokens':-12},'usage':{}}")
  = Some {| TotalTokens := -12 |}.
Proof. vm_compute. reflexivity. Qed.

Example unmarshal_usage_fraction :
  unmarshalResponseBody (GoJSON.q "{'usage':{'total_tokens':1.5}}") = None.
Proof. vm_compute. reflexivity. Qed.

Example unmarshal_usage_overflow :
  unmarshalResponseBody (GoJSON.q "{'usage':{'total_tokens':9223372036854775808}}")
  = None.
Proof. vm_compute. reflexivity. Qed.

Example unmarshal_stream_as_text :
  Chat.unmarshalRequestBody (GoJSON.q "{'model':'gpt-x','stream':'yes'}") = None.
Proof. vm_compute. reflexivity. Qed.

Example readLines_tail :
  readLines ("a" +:+ nl +:+ nl +:+ "bc") = (["a" +:+ nl; nl], "bc").
Proof. vm_compute. reflexivity. Qed.

(** ** Strings and lines *)

Lemma append_cons c (s t : string) : String c s +:+ t = String c (s +:+ t).
Proof. reflexivity. Qed.

Lemma append_nil_l (s : string) : EmptyString +:+ s = s.
Proof. reflexivity. Qed.

Lemma append_nil_r (s : string) : s +:+ EmptyString = s.
Proof.
  induction s as [|c s IH]; [reflexivity | now rewrite append_cons, IH].
Qed.

Lemma append_assoc (a b c : string) : (a +:+ b) +:+ c = a +:+ (b +:+ c).
Proof.
  induction a as [|x a IH]; [reflexivity | now rewrite !append_cons, IH].
Qed.

Lemma readLines_cons c s :
  readLines (String c s) =
  let '(ls, tl) := readLines s in
  if Ascii.eqb c Str.newline then (nl :: ls, tl)
  else match ls with
       | l :: ls' => (String c l :: ls', tl)
       | [] => ([], String c tl)
       end.
Proof. reflexivity. Qed.

Lemma readLines_line l rest :
  isLine l = true ->
  readLines (l +:+ rest) = (l :: fst (readLines rest), snd (readLines rest)).
Proof.
  induction l as [|c l IH]; [discriminate|].
  destruct l as [|c' l'].
  - simpl. intros Hc. rewrite append_nil_l, Hc.
    apply Ascii.eqb_eq in Hc. subst c.
    destruct (readLines rest) as [ls tl]. reflexivity.
  - intros H. change (isLine (String c (String c' l')))
      with (negb (Ascii.eqb c Str.newline) && isLine (String c' l')) in H.
    apply andb_true_iff in H as [Hc Hl]. apply negb_true_iff in Hc.
    rewrite append_cons, readLines_cons, (IH Hl), Hc. reflexivity.
Qed.

Lemma readLines_lines ls rest :
  Forall (fun l => isLine l = true) ls ->
  fst (readLines (concatLines ls +:+ rest)) = ls ++ fst (readLines rest).
Proof.
  induction 1 as [|l ls Hl _ IH]; simpl; [reflexivity|].
  rewrite append_assoc, readLines_line by exact Hl. simpl. now rewrite IH.
Qed.

Lemma nonblank_isLine l : nonblank l = true -> isLine l = true.
Proof. unfold nonblank. intros H. now apply andb_true_iff in H as [H _]. Qed.

Lemma nonblank_eqb l : nonblank l = true -> String.eqb l nl = false.
Proof.
  unfold nonblank. intros H. apply andb_true_iff in H as [_ H].
  now apply negb_true_iff in H.
Qed.

(** ** Reading a run *)

Lemma clientBody_app a b : clientBody (a ++ b) = clientBody a +:+ clientBody b.
Proof.
  induction a as [|e a IH]; simpl; [reflexivity|].
  destruct e; simpl; rewrite ?IH, ?append_assoc; reflexivity.
Qed.

Lemma statusLines_app a b : statusLines (a ++ b) = statusLines a ++ statusLines b.
Proof.
  induction a as [|e a IH]; simpl; [reflexivity|].
  destruct e; simpl; rewrite ?IH; reflexivity.
Qed.

Lemma encoded_app a b : encoded (a ++ b) = encoded a ++ encoded b.
Proof.
  induction a as [|e a IH]; simpl; [reflexivity|].
  destruct e; simpl; rewrite ?IH; reflexivity.
Qed.

Lemma saved_app a b : saved (a ++ b) = saved a ++ saved b.
Proof.
  induction a as [|e a IH]; simpl; [reflexivity|].
  destruct e; simpl; rewrite ?IH; reflexivity.
Qed.

Lemma quiet_statusLines t : forallb isQuiet t = true -> statusLines t = [].
Proof.
  induction t as [|e t IH]; simpl; [reflexivity|].
  intros H. apply andb_true_iff in H as [He Ht].
  destruct e; try discriminate; auto.
Qed.

(** ** Storage *)

Lemma lastOf_filter {A B : Type} (f : A -> B) (zero : B) (P : A -> bool) (l : list A) :
  existsb P l = true ->
  exists x, In x l /\ P x = true /\ DB.lastOf f zero (List.filter P l) = f x.
Proof.
  unfold DB.lastOf. revert zero.
  induction l as [|a l IH]; intros zero; simpl; [discriminate|].
  destruct (P a) eqn:Pa; simpl.
  - intros _. destruct (existsb P l) eqn:El.
    + destruct (IH (f a) eq_refl) as (x & Hx & Px & E). exists x. repeat split; auto.
    + exists a. repeat split; auto.
      assert (List.filter P l = []) as ->; [|reflexivity].
      clear -El. induction l as [|b l IH]; simpl in *; [reflexivity|].
      apply orb_false_iff in El as [Pb El]. rewrite Pb. auto.
  - intros El. destruct (IH zero El) as (x & Hx & Px & E). exists x. repeat split; auto.
Qed.

Lemma findUserByKey_found d k uid uname :
  DB.findUserByKey d k = (uid, uname, true) -> DB.userExists d uid = true.
Proof.
  unfold DB.findUserByKey, DB.userExists. intros H.
  destruct (existsb (fun u => String.eqb (DB.user_key u) k) (DB.users d)) eqn:E.
  - destruct (lastOf_filter (fun u => (DB.user_id u, DB.user_name u, true))
                (0, EmptyString, false) _ _ E) as (x & Hx & _ & Ex).
    rewrite Ex in H. injection H as <- _. apply existsb_exists.
    exists x. split; [exact Hx | apply Z.eqb_refl].
  - assert (List.filter (fun u => String.eqb (DB.user_key u) k) (DB.users d) = []) as Hn.
    { clear -E. induction (DB.users d) as [|b l IH]; simpl in *; [reflexivity|].
      apply orb_false_iff in E as [Pb E]. rewrite Pb. auto. }
    rewrite Hn in H. discriminate.
Qed.

Lemma getProjectID_spec d uid name d' pid :
  DB.getProjectID d uid name = (d', Some pid) ->
  DB.projectExists d' pid = true /\
  existsb (DB.isProject uid name) (DB.projects d') = true /\
  DB.users d' = DB.users d /\ DB.models d' = DB.models d /\
  DB.usage d' = DB.usage d /\
  (existsb (DB.isProject uid name) (DB.projects d) = false ->
   DB.projects d' = DB.projects d ++
     [{| DB.project_id := DB.nextRowid (map DB.project_id (DB.projects d));
         DB.project_user := uid; DB.project_name := name |}]) /\
  (existsb (DB.isProject uid name) (DB.projects d) = true -> d' = d).
Proof.
  unfold DB.getProjectID, DB.insertProject, DB.selectProjectID.
  destruct (existsb (DB.isProject uid name) (DB.projects d)) eqn:E.
  - intros H. injection H as <- <-.
    destruct (lastOf_filter DB.project_id 0 _ _ E) as (x & Hx & Px & Ex).
    rewrite Ex. repeat split; auto; try discriminate.
    apply existsb_exists. exists x. split; [exact Hx | apply Z.eqb_refl].
  - destruct (DB.userExists d uid); [|discriminate].
    intros H. injection H as <- <-. simpl.
    set (row := {| DB.project_id := DB.nextRowid (map DB.project_id (DB.projects d));
                   DB.project_user := uid; DB.project_name := name |}).
    assert (Hrow : DB.isProject uid name row = true).
    { unfold DB.isProject. simpl. now rewrite Z.eqb_refl, String.eqb_refl. }
    assert (E' : existsb (DB.isProject uid name) (DB.projects d ++ [row]) = true).
    { rewrite existsb_app. simpl. rewrite Hrow. apply orb_true_iff. right. reflexivity. }
    destruct (lastOf_filter DB.project_id 0 _ _ E') as (x & Hx & Px & Ex).
    rewrite Ex. repeat split; auto; try discriminate.
    apply existsb_exists. exists x. split; [exact Hx | apply Z.eqb_refl].
Qed.

Lemma getProjectID_user d uid name :
  DB.userExists d uid = true ->
  exists d' pid, DB.getProjectID d uid name = (d', Some pid).
Proof.
  intros Hu. unfold DB.getProjectID, DB.insertProject. rewrite Hu.
  destruct (existsb (DB.isProject uid name) (DB.projects d)); eauto.
Qed.

Lemma getModelID_spec d name d' mid :
  DB.getModelID d name = (d', Some mid) ->
  DB.modelExists d' mid = true /\
  DB.users d' = DB.users d /\ DB.projects d' = DB.projects d /\
  DB.usage d' = DB.usage d.
Proof.
  unfold DB.getModelID, DB.insertModel, DB.selectModelID.
  destruct (existsb (DB.isModel name) (DB.models d)) eqn:E.
  - intros H. injection H as <- <-.
    destruct (lastOf_filter DB.model_id 0 _ _ E) as (x & Hx & Px & Ex).
    rewrite Ex. repeat split; auto.
    apply existsb_exists. exists x. split; [exact Hx | apply Z.eqb_refl].
  - intros H. injection H as <- <-. simpl.
    set (row := {| DB.model_id := DB.nextRowid (map DB.model_id (DB.models d));
                   DB.model_name := name |}).
    assert (Hrow : DB.isModel name row = true).
    { unfold DB.isModel. simpl. apply String.eqb_refl. }
    assert (E' : existsb (DB.isModel name) (DB.models d ++ [row]) = true).
    { rewrite existsb_app. simpl. rewrite Hrow. apply orb_true_iff. right. reflexivity. }
    destruct (lastOf_filter DB.model_id 0 _ _ E') as (x & Hx & Px & Ex).
    rewrite Ex. repeat split; auto.
    apply existsb_exists. exists x. split; [exact Hx | apply Z.eqb_refl].
Qed.

Lemma saveUsage_ok d m p n :
  DB.modelExists d m = true -> DB.projectExists d p = true ->
  DB.saveUsage d m p n =
  ({| DB.users := DB.users d; DB.projects := DB.projects d;
      DB.models := DB.models d; DB.usage := DB.usage d ++ [usageRow m p n] |}, true).
Proof. intros Hm Hp. unfold DB.saveUsage. now rewrite Hm, Hp. Qed.

(** ** The header loop *)

Lemma Values_fold_Add k vs (h : Header) k' :
  Hdr.Values (fold_left (fun a v => Hdr.Add k v a) vs h) k' =
  if decide (k = k') then Hdr.Values h k ++ vs else Hdr.Values h k'.
Proof.
  revert h. induction vs as [|v vs IH]; intros h; simpl.
  - case_decide; [subst; now rewrite app_nil_r | reflexivity].
  - rewrite IH. unfold Hdr.Add, Hdr.Values.
    case_decide.
    + subst. rewrite lookup_insert_eq. simpl. now rewrite <- app_assoc.
    + now rewrite lookup_insert_ne.
Qed.

(** The values the writer's map holds under each name after the loop:
    the upstream's for a name the upstream sent, the former ones for any
    other name. *)
Lemma copyHeader_Values (src h : Header) k :
  Hdr.Values (copyHeader src h) k =
  match src !! k with
  | Some vs => vs
  | None => Hdr.Values h k
  end.
Proof.
  unfold copyHeader. revert k.
  apply (map_fold_weak_ind
           (fun (r : Header) (m : Header) =>
              forall k, Hdr.Values r k =
                        match m !! k with Some vs => vs | None => Hdr.Values h k end)).
  - intros k. now rewrite lookup_empty.
  - intros i x m r Hi IH k. rewrite Values_fold_Add.
    unfold Hdr.Del. case_decide.
    + subst. rewrite lookup_insert_eq. unfold Hdr.Values at 1.
      now rewrite lookup_delete_eq.
    + rewrite lookup_insert_ne by assumption. unfold Hdr.Values at 1.
      rewrite lookup_delete_ne by assumption. apply IH.
Qed.

Lemma copyHeader_empty (src : Header) k :
  Hdr.Values (copyHeader src ∅) k = Hdr.Values src k.
Proof.
  rewrite copyHeader_Values. unfold Hdr.Values. rewrite lookup_empty.
  destruct (src !! k); reflexivity.
Qed.

(** ** Relayed lines *)












Opaque DB.findUserByKey DB.getProjectID DB.getModelID DB.saveUsage copyHeader
  Str.TrimPrefix Str.TrimSpace Hdr.Get String.eqb append.

(** ** The response writer *)

Lemma WriteHeader_fresh code s :
  wroteHeader (rw s) = false ->
  WriteHeader code s =
  (Some tt,
   {| db := db s;
      rw := {| flusher := flusher (rw s); header := header (rw s);
               wroteHeader := true |};
      trace := trace s ++ [EvStatus code (header (rw s))] |}).
Proof.
  intros H. unfold WriteHeader, bind, markWritten, emit. rewrite H. reflexivity.
Qed.

Lemma WriteHeader_late code s :
  wroteHeader (rw s) = true ->
  WriteHeader code s =
  (Some tt,
   {| db := db s; rw := rw s;
      trace := trace s ++ [EvSuperfluousWriteHeader code] |}).
Proof.
  intros H. unfold WriteHeader, emit. rewrite H. reflexivity.
Qed.

Lemma Write_late data s :
  wroteHeader (rw s) = true ->
  Write data s =
  (Some tt, {| db := db s; rw := rw s; trace := trace s ++ [EvBody data] |}).
Proof.
  intros H. unfold Write, ensureHeader, bind, emit, ret. rewrite H. reflexivity.
Qed.

Lemma Flush_late s :
  wroteHeader (rw s) = true ->
  Flush s =
  (Some tt, {| db := db s; rw := rw s; trace := trace s ++ [EvFlush] |}).
Proof.
  intros H. unfold Flush, ensureHeader, bind, emit, ret. rewrite H. reflexivity.
Qed.

Lemma http_Error_fresh error code s :
  wroteHeader (rw s) = false ->
  http_Error error code s =
  (Some tt,
   {| db := db s;
      rw := {| flusher := flusher (rw s); header := errorHeader (header (rw s));
               wroteHeader := true |};
      trace := trace s ++ [EvStatus code (errorHeader (header (rw s)));
                           EvBody (error +:+ nl)] |}).
Proof.
  intros H.
  unfold http_Error, bind, setHeader, WriteHeader, Write, ensureHeader,
    markWritten, emit, bind, ret.
  simpl. rewrite H. simpl. rewrite <- app_assoc. reflexivity.
Qed.

Lemma http_Error_late error code s :
  wroteHeader (rw s) = true ->
  http_Error error code s =
  (Some tt,
   {| db := db s;
      rw := {| flusher := flusher (rw s); header := errorHeader (header (rw s));
               wroteHeader := true |};
      trace := trace s ++ [EvSuperfluousWriteHeader code; EvBody (error +:+ nl)] |}).
Proof.
  intros H.
  unfold http_Error, bind, setHeader, WriteHeader, Write, ensureHeader,
    markWritten, emit, bind, ret.
  simpl. rewrite H. simpl. rewrite <- app_assoc. reflexivity.
Qed.

(** Stepping through a handler. *)

Lemma bind_emit {B : Type} e (k : unit -> Handler B) s :
  bind (emit e) k s = k tt (emitted e s).
Proof. reflexivity. Qed.

Lemma bind_setHeader {B : Type} f (k : unit -> Handler B) s :
  bind (setHeader f) k s =
  k tt {| db := db s;
          rw := {| flusher := flusher (rw s); header := f (header (rw s));
                   wroteHeader := wroteHeader (rw s) |};
          trace := trace s |}.
Proof. reflexivity. Qed.

Lemma bind_Write_late {B : Type} data (k : unit -> Handler B) s :
  wroteHeader (rw s) = true ->
  bind (Write data) k s = k tt (emitted (EvBody data) s).
Proof. intros H. unfold bind. now rewrite Write_late. Qed.

Lemma bind_Flush_late {B : Type} (k : unit -> Handler B) s :
  wroteHeader (rw s) = true ->
  bind Flush k s = k tt (emitted EvFlush s).
Proof. intros H. unfold bind. now rewrite Flush_late. Qed.



(** ** Computations that follow the status line *)

Lemma quiet_ret {A : Type} (a : A) : quiet (ret a).
Proof.
  intros s H. split; [exact H|]. exists []. simpl. rewrite app_nil_r. auto.
Qed.

Lemma quiet_exit {A : Type} : quiet (@exit A).
Proof.
  intros s H. split; [exact H|]. exists []. simpl. rewrite app_nil_r. auto.
Qed.

Lemma quiet_bind {A B : Type} (m : Handler A) (k : A -> Handler B) :
  quiet m -> (forall a, quiet (k a)) -> quiet (bind m k).
Proof.
  intros Hm Hk s H. unfold bind.
  destruct (Hm s H) as (H1 & t1 & E1 & Q1).
  destruct (m s) as [[a|] s1]; simpl in *.
  - destruct (Hk a s1 H1) as (H2 & t2 & E2 & Q2).
    split; [exact H2|]. exists (t1 ++ t2).
    rewrite E2, E1, app_assoc, forallb_app, Q1, Q2. auto.
  - split; [exact H1|]. exists t1. auto.
Qed.

Lemma quiet_emit e : isQuiet e = true -> quiet (emit e).
Proof.
  intros He s H. split; [exact H|]. exists [e]. simpl. rewrite He. auto.
Qed.

Lemma quiet_setHeader f : quiet (setHeader f).
Proof.
  intros s H. split; [exact H|]. exists []. simpl. rewrite app_nil_r. auto.
Qed.

Lemma quiet_WriteHeader code : quiet (WriteHeader code).
Proof.
  intros s H. rewrite WriteHeader_late by exact H. split; [exact H|].
  exists [EvSuperfluousWriteHeader code]. auto.
Qed.

Lemma quiet_Write data : quiet (Write data).
Proof.
  intros s H. rewrite Write_late by exact H. split; [exact H|].
  exists [EvBody data]. auto.
Qed.

Lemma quiet_Flush : quiet Flush.
Proof.
  intros s H. rewrite Flush_late by exact H. split; [exact H|].
  exists [EvFlush]. auto.
Qed.

Lemma quiet_http_Error error code : quiet (http_Error error code).
Proof.
  intros s H. rewrite http_Error_late by exact H. split; [reflexivity|].
  exists [EvSuperfluousWriteHeader code; EvBody (error +:+ nl)]. auto.
Qed.

Lemma quiet_io_Copy body : quiet (io_Copy body).
Proof.
  unfold io_Copy. apply quiet_bind; [apply quiet_emit; reflexivity|].
  intros _. destruct body; [apply quiet_ret | apply quiet_Write].
Qed.

Lemma quiet_saveUsage m p n : quiet (saveUsage m p n).
Proof.
  unfold saveUsage. apply quiet_bind; [apply quiet_emit; reflexivity|].
  intros _ s H. unfold bind, setDB, ret.
  destruct (DB.saveUsage (db s) m p n) as [d ok]. simpl.
  split; [exact H|]. exists []. rewrite app_nil_r. auto.
Qed.

Create HintDb quiet.

#[local] Hint Resolve quiet_ret quiet_exit quiet_setHeader quiet_WriteHeader
  quiet_Write quiet_Flush quiet_http_Error quiet_io_Copy quiet_saveUsage : quiet.

Ltac quiet_step :=
  match goal with
  | |- quiet (bind _ _) => apply quiet_bind; [| intros ?]
  | |- quiet (emit _) => apply quiet_emit; reflexivity
  | |- quiet (if ?c then _ else _) => destruct c
  | |- quiet (match ?x with _ => _ end) => destruct x
  | |- quiet _ => solve [auto with quiet]
  end.

(** A gate that fails on a fresh writer: the status and the text. *)
Ltac fail_gate Hw Ht :=
  rewrite http_Error_fresh by exact Hw; simpl; rewrite Ht; simpl.

Section ChatProperties.

Variable json_Unmarshal_request : string -> option Chat.completionRequestBody.
Variable json_Unmarshal_response : string -> option completionResponseBody.
Variable json_Unmarshal_streamed : string -> option Chat.completionResponseStreamedBody.
Variable tokenizer_ForModel : string -> option Codec.
Variable client_Do : Client.

Let proxyRequest :=
  Chat.proxyRequest json_Unmarshal_request json_Unmarshal_response
    json_Unmarshal_streamed tokenizer_ForModel client_Do.
Let proxySSEResponse := Chat.proxySSEResponse json_Unmarshal_streamed.
Let proxyPlainResponse := Chat.proxyPlainResponse json_Unmarshal_response.
Let relayLoop := Chat.relayLoop json_Unmarshal_streamed.
Let afterStatus :=
  Chat.afterStatus json_Unmarshal_response json_Unmarshal_streamed.

Lemma quiet_tokenizePrompt tk messages n : quiet (Chat.tokenizePrompt tk messages n).
Proof.
  revert n. induction messages as [|m rest IH]; intros n; simpl.
  - apply quiet_ret.
  - repeat quiet_step.
Qed.

Lemma quiet_relayLoop tk lines msg n : quiet (relayLoop tk lines msg n).
Proof.
  unfold relayLoop. revert msg n.
  induction lines as [|line rest IH]; intros msg n; simpl.
  - repeat quiet_step.
  - repeat quiet_step.
Qed.

Lemma quiet_proxySSEResponse resp pid mid crb tk :
  quiet (proxySSEResponse resp pid mid crb tk).
Proof.
  unfold proxySSEResponse, Chat.proxySSEResponse.
  apply quiet_bind.
  { intros s H. split; [exact H|]. exists []. simpl. rewrite app_nil_r. auto. }
  intros ok. repeat quiet_step.
  - apply quiet_tokenizePrompt.
  - apply quiet_relayLoop.
Qed.

Lemma quiet_proxyPlainResponse resp pid mid :
  quiet (proxyPlainResponse resp pid mid).
Proof.
  unfold proxyPlainResponse, Chat.proxyPlainResponse. repeat quiet_step.
Qed.

Lemma quiet_afterStatus resp pid mid crb tk :
  quiet (afterStatus resp pid mid crb tk).
Proof.
  unfold afterStatus, Chat.afterStatus. repeat quiet_step.
  - apply quiet_proxySSEResponse.
  - apply quiet_proxyPlainResponse.
Qed.

(** ** The gates of [proxyRequest] *)

Lemma quiet_no_Do out t : forallb isQuiet t = true -> ~ In (EvDo out) t.
Proof.
  intros Hq Hin. rewrite forallb_forall in Hq. apply Hq in Hin. discriminate.
Qed.

(** A call that obtained a response from the upstream passed every gate,
    and is the relay run from the world [atStatus]. *)
Lemma proxyRequest_reach r key s resp :
  fresh s ->
  upstreamResponse client_Do (trace (run (proxyRequest r key) s)) resp ->
  exists uid uname pid crb tk mid d1 d2,
    Request.Method r = "POST" /\ Request.RawQuery r = EmptyString /\
    DB.findUserByKey (db s) (reqKey r) = (uid, uname, true) /\
    DB.getProjectID (db s) uid (projectLabel r) = (d1, Some pid) /\
    Request.BodyFails r = false /\
    json_Unmarshal_request (Request.Body r) = Some crb /\
    tokenizer_ForModel (Chat.Model crb) = Some tk /\
    DB.getModelID d1 (Chat.Model crb) = (d2, Some mid) /\
    client_Do (Chat.outboundRequest r key) = inl resp /\
    run (proxyRequest r key) s =
      putConn (run (afterStatus resp pid mid crb tk)
                 (atStatus r (Chat.outboundRequest r key) s resp d2 uid (Chat.Model crb))).
Proof.
  intros [Hw Ht] (out & Hin & Hout). revert Hin.
  unfold proxyRequest, Chat.proxyRequest, run.
  destruct (String.eqb_spec (Request.Method r) "POST") as [Hm|Hm]; simpl.
  2:{ unfold bind at 1. fail_gate Hw Ht. intuition discriminate. }
  destruct (String.eqb_spec (Request.RawQuery r) EmptyString) as [Hq|Hq]; simpl.
  2:{ unfold bind at 1. fail_gate Hw Ht. intuition discriminate. }
  unfold withConn, bind, findUserByKey, emit, bind. simpl.
  fold (reqKey r). fold (projectLabel r).
  destruct (DB.findUserByKey (db s) (reqKey r)) as [[uid uname] found] eqn:Hu.
  destruct found; simpl.
  2:{ fail_gate Hw Ht. intuition discriminate. }
  unfold getProjectID, bind, emit, setDB, ret. simpl.
  destruct (DB.getProjectID (db s) uid (projectLabel r)) as [d1 [pid|]] eqn:Hp; simpl.
  2:{ fail_gate Hw Ht. intuition discriminate. }
  destruct (Request.BodyFails r) eqn:Hb; simpl.
  { fail_gate Hw Ht. intuition discriminate. }
  destruct (json_Unmarshal_request (Request.Body r)) as [crb|] eqn:Hj; simpl.
  2:{ fail_gate Hw Ht. intuition discriminate. }
  destruct (tokenizer_ForModel (Chat.Model crb)) as [tk|] eqn:Htk; simpl.
  2:{ fail_gate Hw Ht. intuition discriminate. }
  unfold getModelID, bind, emit, setDB, ret. simpl.
  destruct (DB.getModelID d1 (Chat.Model crb)) as [d2 [mid|]] eqn:Hmid; simpl.
  2:{ fail_gate Hw Ht. intuition discriminate. }
  destruct (client_Do (Chat.outboundRequest r key)) as [resp'|err] eqn:Hc; simpl.
  2:{ fail_gate Hw Ht.
      intros H. repeat (destruct H as [H|H]; try discriminate).
      - injection H as <-. congruence.
      - destruct H. }
  rewrite WriteHeader_fresh by exact Hw. simpl. rewrite Ht. simpl.
  match goal with
  | |- context [ (let (_, _) := ?f ?st in _) ] =>
      change f with (afterStatus resp' pid mid crb tk);
      change st with
        (atStatus r (Chat.outboundRequest r key) s resp' d2 uid (Chat.Model crb))
  end.
  remember (atStatus r (Chat.outboundRequest r key) s resp' d2 uid (Chat.Model crb))
    as s3 eqn:Es3.
  assert (Hw3 : wroteHeader (rw s3) = true) by (subst s3; reflexivity).
  destruct (quiet_afterStatus resp' pid mid crb tk s3 Hw3) as (_ & t & Et & Qt).
  unfold putConn.
  destruct (afterStatus resp' pid mid crb tk s3) as [res s4] eqn:Erun. simpl in *.
  rewrite Et. intros Hin.
  assert (out = Chat.outboundRequest r key) as ->.
  { rewrite !in_app_iff in Hin. destruct Hin as [[Hin|Hin]|Hin].
    - subst s3. unfold atStatus, gateTrace in Hin. simpl in Hin.
      intuition (try discriminate); congruence.
    - exfalso. exact (quiet_no_Do _ _ Qt Hin).
    - simpl in Hin. intuition discriminate. }
  assert (resp' = resp) as -> by congruence.
  exists uid, uname, pid, crb, tk, mid, d1, d2.
  repeat split; auto.
  unfold run. rewrite <- Es3, Erun. simpl. now rewrite Et.
Qed.

(** ** Rejections before the upstream call *)

(** C7. A request whose URL carries a query string is answered 400, and
    that is all the call does: the status line and the error text are
    its only effects, so storage is not touched and no project or model
    row is created. *)
Theorem C7_query_rejected_before_storage r key s :
  Request.RawQuery r <> EmptyString ->
  fresh s ->
  let s' := run (proxyRequest r key) s in
  (exists error,
     trace s' = [EvStatus StatusBadRequest (errorHeader (header (rw s)));
                 EvBody (error +:+ nl)]) /\
  forallb (fun e => negb (isStorage e)) (trace s') = true /\
  db s' = db s.
Proof.
  intros Hq [Hw Ht]. unfold proxyRequest, Chat.proxyRequest, run.
  destruct (String.eqb (Request.Method r) "POST"); simpl.
  - destruct (String.eqb_spec (Request.RawQuery r) EmptyString) as [E|E];
      [contradiction|].
    simpl. unfold bind. fail_gate Hw Ht. repeat split; eauto.
  - unfold bind. fail_gate Hw Ht. repeat split; eauto.
Qed.

(** C8 (as amended). A POST without query string, with a valid
    credential and a body that is read but is not the JSON of a request,
    is answered 400 after [getProjectID] has run: the project row of the
    user and label is in the database when the call ends, and was
    appended by this call if it was not there before. *)
Theorem C8_project_row_outlives_bad_body r key s uid uname :
  Request.Method r = "POST" ->
  Request.RawQuery r = EmptyString ->
  fresh s ->
  DB.findUserByKey (db s) (reqKey r) = (uid, uname, true) ->
  Request.BodyFails r = false ->
  json_Unmarshal_request (Request.Body r) = None ->
  let s' := run (proxyRequest r key) s in
  trace s' =
    [EvGetConn; EvFindUserByKey (reqKey r); EvGetProjectID uid (projectLabel r);
     EvReadRequestBody; EvUnmarshalRequest (Request.Body r);
     EvStatus StatusBadRequest (errorHeader (header (rw s)));
     EvBody ("failed to parse request body" +:+ nl); EvPutConn] /\
  existsb (DB.isProject uid (projectLabel r)) (DB.projects (db s')) = true /\
  (existsb (DB.isProject uid (projectLabel r)) (DB.projects (db s)) = false ->
   DB.projects (db s') = DB.projects (db s) ++
     [{| DB.project_id := DB.nextRowid (map DB.project_id (DB.projects (db s)));
         DB.project_user := uid; DB.project_name := projectLabel r |}]).
Proof.
  intros Hm Hq [Hw Ht] Hu Hb Hj.
  destruct (getProjectID_user (db s) uid (projectLabel r)
              (findUserByKey_found _ _ _ _ Hu)) as (d1 & pid & Hp).
  destruct (getProjectID_spec _ _ _ _ _ Hp) as (_ & Hex & _ & _ & _ & Hnew & _).
  unfold proxyRequest, Chat.proxyRequest, run.
  rewrite Hm, Hq. rewrite !String.eqb_refl. simpl.
  unfold withConn, bind, findUserByKey, emit, bind. simpl.
  fold (reqKey r). fold (projectLabel r). rewrite Hu. simpl.
  unfold getProjectID, bind, emit, setDB, ret. simpl. rewrite Hp. simpl.
  rewrite Hb. simpl. rewrite Hj. simpl.
  fail_gate Hw Ht. auto.
Qed.

(** ** Forwarded responses *)

(** C5. When the upstream answers with a status other than 200, the
    bytes the body delivers are what the client receives as body, no text
    is handed to the tokenizer and no usage record is written, whatever
    the request's [stream] flag. *)
Theorem C5_non_200_passthrough r key s resp :
  fresh s ->
  upstreamResponse client_Do (trace (run (proxyRequest r key) s)) resp ->
  Response.StatusCode resp <> StatusOK ->
  let s' := run (proxyRequest r key) s in
  clientBody (trace s') = Response.Body resp /\
  encoded (trace s') = [] /\
  saved (trace s') = [] /\
  DB.usage (db s') = DB.usage (db s).
Proof.
  intros Hf Hup Hcode.
  destruct (proxyRequest_reach r key s resp Hf Hup)
    as (uid & uname & pid & crb & tk & mid & d1 & d2 & _ & _ & _ & Hp & _ & _ & _
        & Hmid & _ & ->).
  destruct (getProjectID_spec _ _ _ _ _ Hp) as (_ & _ & _ & _ & Hu1 & _).
  destruct (getModelID_spec _ _ _ _ Hmid) as (_ & _ & _ & Hu2).
  unfold afterStatus, Chat.afterStatus.
  destruct (Z.eqb_spec (Response.StatusCode resp) StatusOK) as [E|_];
    [contradiction|]. simpl.
  unfold run, bind, io_Copy, bind, emit. simpl.
  destruct (Response.Body resp) as [|c body] eqn:Hbody; simpl.
  - repeat split; auto. congruence.
  - repeat split; auto; [|congruence].
    now rewrite append_nil_r.
Qed.

(** C4 (as amended). When the upstream answers, exactly one status line
    is sent to the client; it carries the upstream's status code and
    precedes every byte of the body; a later [WriteHeader] (the relay's
    own 200, or the 502 of a late failure) sends nothing.  The headers
    sent hold, for every name the upstream sent, the upstream's values
    in place of the writer's, and for every other name the values the
    writer's map already had: they are the upstream's headers when that
    map was empty. *)
Theorem C4_status_once_headers_per_name r key s resp :
  fresh s ->
  upstreamResponse client_Do (trace (run (proxyRequest r key) s)) resp ->
  let s' := run (proxyRequest r key) s in
  let sent := copyHeader (Response.Header resp) (header (rw s)) in
  statusLines (trace s') = [(Response.StatusCode resp, sent)] /\
  (exists pre post,
     trace s' = pre ++ EvStatus (Response.StatusCode resp) sent :: post /\
     forallb (fun e => negb (isWire e)) pre = true) /\
  (forall k, Hdr.Values sent k =
             match Response.Header resp !! k with
             | Some vs => vs
             | None => Hdr.Values (header (rw s)) k
             end) /\
  (header (rw s) = ∅ ->
   forall k, Hdr.Values sent k = Hdr.Values (Response.Header resp) k).
Proof.
  intros Hf Hup.
  destruct (proxyRequest_reach r key s resp Hf Hup)
    as (uid & uname & pid & crb & tk & mid & d1 & d2 & _ & _ & _ & _ & _ & _ & _
        & _ & _ & ->).
  set (s3 := atStatus r (Chat.outboundRequest r key) s resp d2 uid (Chat.Model crb)).
  destruct (quiet_afterStatus resp pid mid crb tk s3 eq_refl) as (_ & t & Et & Qt).
  unfold run, putConn. simpl. rewrite Et. unfold s3, atStatus. simpl.
  repeat split.
  - rewrite statusLines_app, (quiet_statusLines _ Qt). reflexivity.
  - exists (gateTrace r (Chat.outboundRequest r key) uid (Chat.Model crb)),
      (t ++ [EvPutConn]).
    split; reflexivity.
  - intros k. apply copyHeader_Values.
  - intros He k. rewrite He. apply copyHeader_empty.
Qed.

(** ** The non-streaming relay *)

(** The whole run of a call whose upstream answered 200 to a request
    without [stream], with a body that was read and decoded. *)
Lemma plain_run r key s resp crb crespb :
  fresh s ->
  upstreamResponse client_Do (trace (run (proxyRequest r key) s)) resp ->
  Response.StatusCode resp = StatusOK ->
  json_Unmarshal_request (Request.Body r) = Some crb ->
  Chat.Stream crb = false ->
  Response.BodyFails resp = false ->
  json_Unmarshal_response (Response.Body resp) = Some crespb ->
  exists uid mid pid,
    trace (run (proxyRequest r key) s) =
      gateTrace r (Chat.outboundRequest r key) uid (Chat.Model crb) ++
      [EvStatus StatusOK (copyHeader (Response.Header resp) (header (rw s)));
       EvReadAll; EvUnmarshalResponse (Response.Body resp);
       EvSaveUsage mid pid (TotalTokens crespb);
       EvBody (Response.Body resp); EvPutConn] /\
    DB.usage (db (run (proxyRequest r key) s)) =
      DB.usage (db s) ++ [usageRow mid pid (TotalTokens crespb)] /\
    DB.modelExists (db (run (proxyRequest r key) s)) mid = true /\
    DB.projectExists (db (run (proxyRequest r key) s)) pid = true.
Proof.
  intros Hf Hup Hcode Hj Hstream Hfail Hresp.
  destruct (proxyRequest_reach r key s resp Hf Hup)
    as (uid & uname & pid & crb' & tk & mid & d1 & d2 & _ & _ & _ & Hp & _ & Hj'
        & _ & Hmid & _ & ->).
  assert (crb' = crb) as -> by congruence.
  destruct (getProjectID_spec _ _ _ _ _ Hp) as (Hpe & _ & _ & _ & Hu1 & _).
  destruct (getModelID_spec _ _ _ _ Hmid) as (Hme & _ & Hp2 & Hu2).
  assert (Hpe2 : DB.projectExists d2 pid = true).
  { unfold DB.projectExists in *. now rewrite Hp2. }
  exists uid, mid, pid.
  unfold afterStatus, Chat.afterStatus. rewrite Hcode, Hstream. simpl.
  unfold Chat.proxyPlainResponse, run, bind, emit, saveUsage, bind, emit, setDB, ret.
  simpl. rewrite Hfail, Hresp. simpl.
  rewrite (saveUsage_ok d2 mid pid _ Hme Hpe2). simpl.
  repeat split; auto; [now rewrite Hcode | congruence].
Qed.

(** C3. A 200 answer to a request without [stream] whose body decodes
    with total-token field N: exactly one usage record is written, with N
    tokens and for a model and a project that exist, and the body the
    client receives is the upstream's body, byte for byte. *)
Theorem C3_plain_usage_and_body r key s resp crb crespb :
  fresh s ->
  upstreamResponse client_Do (trace (run (proxyRequest r key) s)) resp ->
  Response.StatusCode resp = StatusOK ->
  json_Unmarshal_request (Request.Body r) = Some crb ->
  Chat.Stream crb = false ->
  Response.BodyFails resp = false ->
  json_Unmarshal_response (Response.Body resp) = Some crespb ->
  let s' := run (proxyRequest r key) s in
  exists mid pid,
    saved (trace s') = [usageRow mid pid (TotalTokens crespb)] /\
    DB.usage (db s') = DB.usage (db s) ++ [usageRow mid pid (TotalTokens crespb)] /\
    DB.modelExists (db s') mid = true /\ DB.projectExists (db s') pid = true /\
    clientBody (trace s') = Response.Body resp.
Proof.
  intros Hf Hup Hcode Hj Hstream Hfail Hresp.
  destruct (plain_run r key s resp crb crespb Hf Hup Hcode Hj Hstream Hfail Hresp)
    as (uid & mid & pid & Et & Hu & Hm & Hp).
  exists mid, pid. simpl. rewrite Et, Hu. simpl.
  repeat split; auto. now rewrite append_nil_r.
Qed.

(** ** The streaming relay *)




(** *** A stream that ends with the sentinel *)

Lemma logged_logged t1 t2 s : logged t2 (logged t1 s) = logged (t1 ++ t2) s.
Proof. unfold logged. simpl. now rewrite app_assoc. Qed.

Lemma emitted_logged e s : emitted e s = logged [e] s.
Proof. reflexivity. Qed.

Lemma logged_nil s : logged [] s = s.
Proof. destruct s. unfold logged. simpl. now rewrite app_nil_r. Qed.

Lemma tokenizePrompt_ok tk messages idss n s :
  Forall2 (fun m ids => tk (Chat.Content m) = Some ids) messages idss ->
  Chat.tokenizePrompt tk messages n s =
  (Some (n + tokenCount idss),
   logged (map (fun m => EvEncode (Chat.Content m)) messages) s).
Proof.
  intros H. revert n s.
  induction H as [|m ids messages idss Hm _ IH]; intros n s; simpl.
  - now rewrite Z.add_0_r, logged_nil.
  - rewrite bind_emit, Hm, IH, emitted_logged, logged_logged.
    simpl. now rewrite Z.add_assoc.
Qed.

Lemma relayLoop_lines tk lines tail msg n s :
  wroteHeader (rw s) = true ->
  Forall (fun l => nonblank l = true) lines ->
  relayLoop tk (lines ++ tail) msg n s =
  relayLoop tk tail (fold_left Chat.addLine lines msg) n (logged (relayTrace lines) s).
Proof.
  unfold relayLoop. intros Hw H. revert msg s Hw.
  induction H as [|line lines Hl _ IH]; intros msg s Hw; simpl.
  - now rewrite logged_nil.
  - rewrite bind_emit, bind_Write_late, bind_Flush_late by exact Hw.
    rewrite (nonblank_eqb _ Hl), IH by exact Hw.
    rewrite !emitted_logged, !logged_logged. reflexivity.
Qed.

Lemma relayLoop_chunk tk c tail n s :
  wroteHeader (rw s) = true ->
  Chat.goodChunk json_Unmarshal_streamed tk c ->
  relayLoop tk (Chat.chunk_lines c ++ nl :: tail) EmptyString n s =
  relayLoop tk tail EmptyString (n + Z.of_nat (length (Chat.chunk_ids c)))
    (logged (Chat.chunkTrace c) s).
Proof.
  intros Hw (Hlines & Hmsg & Hjson & Htk).
  rewrite relayLoop_lines by assumption.
  fold (Chat.assembled (Chat.chunk_lines c)).
  unfold relayLoop. simpl.
  rewrite bind_emit, bind_Write_late, bind_Flush_late by exact Hw.
  rewrite String.eqb_refl.
  destruct (String.eqb_spec (Chat.assembled (Chat.chunk_lines c)) "[DONE]") as [E|_];
    [contradiction|].
  rewrite bind_emit, Hjson. simpl. rewrite bind_emit, Htk.
  rewrite !emitted_logged, !logged_logged. unfold Chat.chunkTrace, relayTrace.
  rewrite flat_map_app. simpl. rewrite <- ?app_assoc. reflexivity.
Qed.

Lemma relayLoop_stream tk cs doneLines tail n s :
  wroteHeader (rw s) = true ->
  Forall (Chat.goodChunk json_Unmarshal_streamed tk) cs ->
  Forall (fun l => nonblank l = true) doneLines ->
  Chat.assembled doneLines = "[DONE]" ->
  relayLoop tk (Chat.streamLines cs ++ doneLines ++ nl :: tail) EmptyString n s =
  (Some (n + tokenCount (map Chat.chunk_ids cs)),
   logged (flat_map Chat.chunkTrace cs ++ relayTrace (doneLines ++ [nl])) s).
Proof.
  intros Hw Hcs Hdone Hmsg. revert n s Hw.
  induction Hcs as [|c cs Hc _ IH]; intros n s Hw; simpl.
  - rewrite Z.add_0_r, relayLoop_lines by assumption.
    fold (Chat.assembled doneLines). rewrite Hmsg.
    unfold relayLoop. simpl.
    rewrite bind_emit, bind_Write_late, bind_Flush_late by exact Hw.
    rewrite !String.eqb_refl. unfold ret.
    rewrite !emitted_logged, !logged_logged. unfold relayTrace.
    rewrite flat_map_app. simpl. rewrite <- ?app_assoc. reflexivity.
  - rewrite <- app_assoc. simpl.
    rewrite relayLoop_chunk, IH by assumption.
    rewrite logged_logged, Z.add_assoc, <- app_assoc. reflexivity.
Qed.

Lemma isLine_nl : isLine nl = true.
Proof. reflexivity. Qed.

Lemma readLines_stream cs doneLines rest :
  Forall (fun c => Forall (fun l => nonblank l = true) (Chat.chunk_lines c)) cs ->
  Forall (fun l => nonblank l = true) doneLines ->
  fst (readLines (Chat.streamText cs +:+ concatLines doneLines +:+ nl +:+ rest)) =
  Chat.streamLines cs ++ doneLines ++ nl :: fst (readLines rest).
Proof.
  intros Hcs Hdone. induction Hcs as [|c cs Hc _ IH]; simpl.
  - rewrite append_nil_l, readLines_lines.
    + now rewrite readLines_line by apply isLine_nl.
    + eapply Forall_impl; [exact Hdone|]. intros l. apply nonblank_isLine.
  - unfold Chat.chunkText. rewrite !append_assoc, readLines_lines.
    + rewrite readLines_line by apply isLine_nl. simpl.
      rewrite IH, <- app_assoc. reflexivity.
    + eapply Forall_impl; [exact Hc|]. intros l. apply nonblank_isLine.
Qed.

Lemma bind_WriteHeader_late {B : Type} code (k : unit -> Handler B) s :
  wroteHeader (rw s) = true ->
  bind (WriteHeader code) k s = k tt (emitted (EvSuperfluousWriteHeader code) s).
Proof. intros H. unfold bind. now rewrite WriteHeader_late. Qed.

Lemma saved_encodes (A : Type) (f : A -> string) l :
  saved (map (fun m => EvEncode (f m)) l) = [].
Proof. induction l; simpl; auto. Qed.

Lemma saved_relayTrace lines : saved (relayTrace lines) = [].
Proof. induction lines; simpl; auto. Qed.

Lemma saved_chunkTraces cs : saved (flat_map Chat.chunkTrace cs) = [].
Proof.
  induction cs as [|c cs IH]; [reflexivity|].
  change (flat_map Chat.chunkTrace (c :: cs))
    with (Chat.chunkTrace c ++ flat_map Chat.chunkTrace cs).
  rewrite saved_app, IH, app_nil_r. unfold Chat.chunkTrace.
  rewrite saved_app, saved_relayTrace. reflexivity.
Qed.

(** The streaming relay on a stream that ends with the sentinel, run
    after the status line for a model and a project that exist. *)
Lemma sse_run resp pid mid crb tk promptIDs cs doneLines rest s :
  wroteHeader (rw s) = true ->
  flusher (rw s) = true ->
  Forall2 (fun m ids => tk (Chat.Content m) = Some ids) (Chat.Messages crb) promptIDs ->
  Forall (Chat.goodChunk json_Unmarshal_streamed tk) cs ->
  Forall (fun l => nonblank l = true) doneLines ->
  Chat.assembled doneLines = "[DONE]" ->
  Response.Body resp =
    Chat.streamText cs +:+ concatLines doneLines +:+ nl +:+ rest ->
  DB.modelExists (db s) mid = true ->
  DB.projectExists (db s) pid = true ->
  let total := tokenCount promptIDs + tokenCount (map Chat.chunk_ids cs) in
  exists d w,
    proxySSEResponse resp pid mid crb tk s =
      (Some tt,
       {| db := d; rw := w;
          trace := trace s ++
            [EvSuperfluousWriteHeader StatusOK; EvFlush] ++
            map (fun m => EvEncode (Chat.Content m)) (Chat.Messages crb) ++
            flat_map Chat.chunkTrace cs ++ relayTrace (doneLines ++ [nl]) ++
            [EvSaveUsage mid pid total] |}) /\
    DB.usage d = DB.usage (db s) ++ [usageRow mid pid total].
Proof.
  intros Hw Hfl Hprompt Hcs Hdone Hmsg Hbody Hme Hpe total.
  unfold proxySSEResponse, Chat.proxySSEResponse.
  unfold bind at 1. unfold Chat.getFlusher. rewrite Hfl. cbv beta iota.
  change (negb true) with false. cbv iota.
  rewrite !bind_setHeader.
  rewrite bind_WriteHeader_late by exact Hw.
  rewrite bind_Flush_late by exact Hw.
  unfold bind at 1. rewrite (tokenizePrompt_ok _ _ _ _ _ Hprompt).
  unfold bind at 1. rewrite Hbody, readLines_stream.
  2:{ eapply Forall_impl; [exact Hcs|]. intros c Hc. apply Hc. }
  2:{ exact Hdone. }
  fold relayLoop. rewrite relayLoop_stream by assumption.
  unfold bind, saveUsage, bind, emit, setDB, ret. simpl.
  rewrite (saveUsage_ok _ mid pid _ Hme Hpe). simpl.
  fold total. rewrite <- !app_assoc. simpl.
  eexists _, _. split; reflexivity.
Qed.

(** C1. A 200 answer to a request with [stream] set, whose prompt
    messages encode to P tokens and whose body is a sequence of blocks with
    delta contents that encode to D tokens, followed by the block of the
    sentinel [[DONE]]: the prompt is tokenized, message by message, before
    the first line of the body is read; exactly one usage record is
    written, with P+D tokens, and it is written after the blank line that
    ends the sentinel's block has been read and relayed. *)
Theorem C1_stream_usage_is_prompt_plus_deltas
    r key s resp crb tk promptIDs cs doneLines rest :
  fresh s ->
  flusher (rw s) = true ->
  upstreamResponse client_Do (trace (run (proxyRequest r key) s)) resp ->
  Response.StatusCode resp = StatusOK ->
  json_Unmarshal_request (Request.Body r) = Some crb ->
  Chat.Stream crb = true ->
  tokenizer_ForModel (Chat.Model crb) = Some tk ->
  Forall2 (fun m ids => tk (Chat.Content m) = Some ids) (Chat.Messages crb) promptIDs ->
  Forall (Chat.goodChunk json_Unmarshal_streamed tk) cs ->
  Forall (fun l => nonblank l = true) doneLines ->
  Chat.assembled doneLines = "[DONE]" ->
  Response.Body resp =
    Chat.streamText cs +:+ concatLines doneLines +:+ nl +:+ rest ->
  let s' := run (proxyRequest r key) s in
  let total := tokenCount promptIDs + tokenCount (map Chat.chunk_ids cs) in
  exists uid mid pid,
    trace s' =
      gateTrace r (Chat.outboundRequest r key) uid (Chat.Model crb) ++
      [EvStatus StatusOK (copyHeader (Response.Header resp) (header (rw s)));
       EvSuperfluousWriteHeader StatusOK; EvFlush] ++
      map (fun m => EvEncode (Chat.Content m)) (Chat.Messages crb) ++
      flat_map Chat.chunkTrace cs ++ relayTrace (doneLines ++ [nl]) ++
      [EvSaveUsage mid pid total; EvPutConn] /\
    saved (trace s') = [usageRow mid pid total] /\
    DB.usage (db s') = DB.usage (db s) ++ [usageRow mid pid total].
Proof.
  intros Hf Hfl Hup Hcode Hj Hstream Htk Hprompt Hcs Hdone Hmsg Hbody s' total.
  subst s'.
  destruct (proxyRequest_reach r key s resp Hf Hup)
    as (uid & uname & pid & crb' & tk' & mid & d1 & d2 & _ & _ & _ & Hp & _ & Hj'
        & Htk' & Hmid & _ & ->).
  assert (crb' = crb) as -> by congruence.
  assert (tk' = tk) as -> by congruence.
  destruct (getProjectID_spec _ _ _ _ _ Hp) as (Hpe & _ & _ & _ & Hu1 & _).
  destruct (getModelID_spec _ _ _ _ Hmid) as (Hme & _ & Hp2 & Hu2).
  assert (Hpe2 : DB.projectExists d2 pid = true).
  { unfold DB.projectExists in *. now rewrite Hp2. }
  exists uid, mid, pid.
  unfold afterStatus, Chat.afterStatus. rewrite Hcode, Hstream. simpl negb. cbv iota.
  set (s3 := atStatus r (Chat.outboundRequest r key) s resp d2 uid (Chat.Model crb)).
  destruct (sse_run resp pid mid crb tk promptIDs cs doneLines rest s3
              eq_refl Hfl Hprompt Hcs Hdone Hmsg Hbody Hme Hpe2)
    as (d & w & Erun & Eu).
  fold proxySSEResponse. unfold run. rewrite Erun. unfold putConn. simpl.
  rewrite Eu. fold total. unfold s3, atStatus. simpl trace. simpl db.
  rewrite Hcode, <- !app_assoc. simpl.
  split; [reflexivity|]. split; [|congruence].
  rewrite !saved_app, saved_encodes, saved_chunkTraces, saved_relayTrace.
  reflexivity.
Qed.


End ChatProperties.

(** ** A 200 answer without a total-token field *)






(** ** The prompt-style variant *)

Section PromptProperties.

Variable json_Unmarshal_request : string -> option Prompt.completionRequestBody.
Variable json_Unmarshal_response : string -> option completionResponseBody.
Variable tokenizer_ForModel : string -> option Codec.
Variable client_Do : Client.

(** C10. In the prompt-style variant a request whose body was decoded
    and has [stream] set is answered 400 at once: the call ends there,
    without tokenizer or model resolution, without upstream call, and
    without usage record. *)
Theorem C10_prompt_stream_rejected r key s crb :
  let s' := run (Prompt.proxyRequest json_Unmarshal_request json_Unmarshal_response
                   tokenizer_ForModel client_Do r key) s in
  fresh s ->
  In (EvUnmarshalRequest (Request.Body r)) (trace s') ->
  json_Unmarshal_request (Request.Body r) = Some crb ->
  Prompt.Stream crb = true ->
  (exists uid,
     trace s' =
       [EvGetConn; EvFindUserByKey (reqKey r); EvGetProjectID uid (projectLabel r);
        EvReadRequestBody; EvUnmarshalRequest (Request.Body r);
        EvStatus StatusBadRequest (errorHeader (header (rw s)));
        EvBody ("streaming responses are not yet supported" +:+ nl); EvPutConn]) /\
  forallb (fun e => negb (followsDecoding e)) (trace s') = true /\
  DB.models (db s') = DB.models (db s) /\
  DB.usage (db s') = DB.usage (db s).
Proof.
  intros s' [Hw Ht] Hin Hj Hstream. subst s'. revert Hin.
  unfold Prompt.proxyRequest, run.
  destruct (String.eqb_spec (Request.Method r) "POST") as [Hm|Hm]; simpl.
  2:{ unfold bind at 1. fail_gate Hw Ht. intuition discriminate. }
  destruct (String.eqb_spec (Request.RawQuery r) EmptyString) as [Hq|Hq]; simpl.
  2:{ unfold bind at 1. fail_gate Hw Ht. intuition discriminate. }
  unfold withConn, bind, findUserByKey, emit, bind. simpl.
  fold (reqKey r). fold (projectLabel r).
  destruct (DB.findUserByKey (db s) (reqKey r)) as [[uid uname] found] eqn:Hu.
  destruct found; simpl.
  2:{ fail_gate Hw Ht. intuition discriminate. }
  unfold getProjectID, bind, emit, setDB, ret. simpl.
  destruct (DB.getProjectID (db s) uid (projectLabel r)) as [d1 [pid|]] eqn:Hp; simpl.
  2:{ fail_gate Hw Ht. intuition discriminate. }
  destruct (Request.BodyFails r) eqn:Hb; simpl.
  { fail_gate Hw Ht. intuition discriminate. }
  rewrite Hj. simpl. rewrite Hstream. simpl.
  fail_gate Hw Ht. intros _.
  destruct (getProjectID_spec _ _ _ _ _ Hp) as (_ & _ & _ & Hmo & Hus & _).
  repeat split; eauto.
Qed.

End PromptProperties.

(** ** The properties at sample inputs *)

Lemma sample_upstream client r s resp :
  In (EvDo (Chat.outboundRequest r "sk-upstream")) (trace (Sample.chat client r s)) ->
  client (Chat.outboundRequest r "sk-upstream") = inl resp ->
  upstreamResponse client (trace (Sample.chat client r s)) resp.
Proof. intros H1 H2. eexists. split; [exact H1 | exact H2]. Defined.

Lemma C7_witness :
  Request.RawQuery Sample.queryRequest <> EmptyString /\
  fresh Sample.s0 /\
  db (Sample.chat (Sample.respond 200 Sample.usage7) Sample.queryRequest Sample.s0)
  = Sample.db0.
Proof.
  assert (H1 : Request.RawQuery Sample.queryRequest <> EmptyString) by discriminate.
  assert (H2 : fresh Sample.s0) by (split; reflexivity).
  split; [exact H1|]. split; [exact H2|].
  exact (proj2 (proj2 (C7_query_rejected_before_storage
                         Chat.unmarshalRequestBody unmarshalResponseBody
                         Chat.unmarshalStreamedBody Sample.ForModel
                         (Sample.respond 200 Sample.usage7)
                         Sample.queryRequest "sk-upstream" Sample.s0 H1 H2))).
Defined.

Lemma C8_witness :
  DB.findUserByKey (db Sample.s0) (reqKey Sample.badBodyRequest) = (1, "alice", true) /\
  Chat.unmarshalRequestBody (Request.Body Sample.badBodyRequest) = None /\
  existsb (DB.isProject 1 (projectLabel Sample.badBodyRequest))
    (DB.projects (db (Sample.chat (Sample.respond 200 Sample.usage7)
                        Sample.badBodyRequest Sample.s0))) = true.
Proof.
  assert (H1 : DB.findUserByKey (db Sample.s0) (reqKey Sample.badBodyRequest)
               = (1, "alice", true)) by (vm_compute; reflexivity).
  assert (H2 : Chat.unmarshalRequestBody (Request.Body Sample.badBodyRequest) = None)
    by (vm_compute; reflexivity).
  split; [exact H1|]. split; [exact H2|].
  exact (proj1 (proj2 (C8_project_row_outlives_bad_body
                         Chat.unmarshalRequestBody unmarshalResponseBody
                         Chat.unmarshalStreamedBody Sample.ForModel
                         (Sample.respond 200 Sample.usage7)
                         Sample.badBodyRequest "sk-upstream" Sample.s0 1 "alice"
                         eq_refl eq_refl (conj eq_refl eq_refl) H1 eq_refl H2))).
Defined.

(** C8, as stated, fails: a request with a valid credential and a body
    that is not JSON, but with a query string, is answered 400 and
    leaves no project row. *)
Lemma C8_counterexample :
  let s' := Sample.chat (Sample.respond 200 Sample.usage7)
              Sample.queryRequest Sample.s0 in
  DB.findUserByKey (db Sample.s0) (reqKey Sample.queryRequest) = (1, "alice", true) /\
  Chat.unmarshalRequestBody (Request.Body Sample.queryRequest) = None /\
  map fst (statusLines (trace s')) = [StatusBadRequest] /\
  DB.projects (db s') = [].
Proof. vm_compute. repeat split; reflexivity. Qed.

Lemma plain_upstream :
  upstreamResponse (Sample.respond 200 Sample.usage7)
    (trace (Sample.chat (Sample.respond 200 Sample.usage7)
              Sample.plainRequest Sample.s0))
    (Sample.response 200 Sample.usage7).
Proof.
  apply sample_upstream; [|reflexivity].
  vm_compute. do 7 right. left. reflexivity.
Defined.

Lemma C3_witness :
  Chat.unmarshalRequestBody (Request.Body Sample.plainRequest)
  = Some {| Chat.Model := "gpt-x"; Chat.Messages := [{| Chat.Content := "hi" |}];
            Chat.Suffix := EmptyString; Chat.Stream := false |} /\
  unmarshalResponseBody Sample.usage7 = Some {| TotalTokens := 7 |} /\
  exists mid pid,
    DB.usage (db (Sample.chat (Sample.respond 200 Sample.usage7)
                    Sample.plainRequest Sample.s0))
    = DB.usage (db Sample.s0) ++ [usageRow mid pid 7].
Proof.
  assert (H1 : Chat.unmarshalRequestBody (Request.Body Sample.plainRequest)
               = Some {| Chat.Model := "gpt-x";
                         Chat.Messages := [{| Chat.Content := "hi" |}];
                         Chat.Suffix := EmptyString; Chat.Stream := false |})
    by (vm_compute; reflexivity).
  assert (H2 : unmarshalResponseBody Sample.usage7 = Some {| TotalTokens := 7 |})
    by (vm_compute; reflexivity).
  split; [exact H1|]. split; [exact H2|].
  destruct (C3_plain_usage_and_body
              Chat.unmarshalRequestBody unmarshalResponseBody
              Chat.unmarshalStreamedBody Sample.ForModel
              (Sample.respond 200 Sample.usage7)
              Sample.plainRequest "sk-upstream" Sample.s0
              (Sample.response 200 Sample.usage7) _ _
              (conj eq_refl eq_refl) plain_upstream eq_refl H1 eq_refl eq_refl H2)
    as (mid & pid & _ & Hu & _).
  exists mid, pid. exact Hu.
Defined.

Lemma C4_witness :
  fresh Sample.s0 /\
  statusLines (trace (Sample.chat (Sample.respond 200 Sample.usage7)
                        Sample.plainRequest Sample.s0))
  = [(200, copyHeader Sample.jsonHeader ∅)] /\
  forall k, Hdr.Values (copyHeader Sample.jsonHeader ∅) k
            = Hdr.Values Sample.jsonHeader k.
Proof.
  assert (H : fresh Sample.s0) by (split; reflexivity).
  split; [exact H|].
  destruct (C4_status_once_headers_per_name
              Chat.unmarshalRequestBody unmarshalResponseBody
              Chat.unmarshalStreamedBody Sample.ForModel
              (Sample.respond 200 Sample.usage7)
              Sample.plainRequest "sk-upstream" Sample.s0
              (Sample.response 200 Sample.usage7) H plain_upstream)
    as (H1 & _ & _ & H4).
  split; [exact H1 | exact (H4 eq_refl)].
Defined.

(** C4, as stated, fails: a writer that holds a header under a name the
    upstream does not send keeps it, so the headers sent are not the
    upstream's. *)
Lemma C4_counterexample :
  let client := Sample.respond 200 Sample.usage7 in
  let s' := Sample.chat client Sample.plainRequest Sample.s1 in
  fresh Sample.s1 /\
  client (Chat.outboundRequest Sample.plainRequest "sk-upstream")
    = inl (Sample.response 200 Sample.usage7) /\
  In (EvDo (Chat.outboundRequest Sample.plainRequest "sk-upstream")) (trace s') /\
  exists sent,
    statusLines (trace s') = [(200, sent)] /\
    Hdr.Values sent "X-Request-Id" = ["42"] /\
    Hdr.Values (Response.Header (Sample.response 200 Sample.usage7)) "X-Request-Id" = [] /\
    sent <> Response.Header (Sample.response 200 Sample.usage7).
Proof.
  split; [split; reflexivity|]. split; [reflexivity|].
  split; [vm_compute; do 7 right; left; reflexivity|].
  eexists. split; [vm_compute; reflexivity|].
  split; [vm_compute; reflexivity|]. split; [vm_compute; reflexivity|].
  intros E. apply (f_equal (fun h => Hdr.Values h "X-Request-Id")) in E.
  vm_compute in E. discriminate.
Qed.

Lemma error_upstream :
  upstreamResponse (Sample.respond 429 "slow down")
    (trace (Sample.chat (Sample.respond 429 "slow down")
              Sample.streamRequest Sample.s0))
    (Sample.response 429 "slow down").
Proof.
  apply sample_upstream; [|reflexivity].
  vm_compute. do 7 right. left. reflexivity.
Defined.

Lemma C5_witness :
  fresh Sample.s0 /\
  Response.StatusCode (Sample.response 429 "slow down") <> StatusOK /\
  clientBody (trace (Sample.chat (Sample.respond 429 "slow down")
                       Sample.streamRequest Sample.s0)) = "slow down" /\
  encoded (trace (Sample.chat (Sample.respond 429 "slow down")
                    Sample.streamRequest Sample.s0)) = [] /\
  saved (trace (Sample.chat (Sample.respond 429 "slow down")
                  Sample.streamRequest Sample.s0)) = [].
Proof.
  assert (H1 : fresh Sample.s0) by (split; reflexivity).
  assert (H2 : Response.StatusCode (Sample.response 429 "slow down") <> StatusOK)
    by discriminate.
  split; [exact H1|]. split; [exact H2|].
  destruct (C5_non_200_passthrough
              Chat.unmarshalRequestBody unmarshalResponseBody
              Chat.unmarshalStreamedBody Sample.ForModel
              (Sample.respond 429 "slow down")
              Sample.streamRequest "sk-upstream" Sample.s0
              (Sample.response 429 "slow down") H1 error_upstream H2)
    as (Hb & He & Hs & _).
  split; [exact Hb|]. split; [exact He | exact Hs].
Defined.






Lemma C10_witness :
  Prompt.unmarshalRequestBody (Request.Body Sample.promptRequest)
  = Some {| Prompt.Model := "gpt-x"; Prompt.Prompt := "hi";
            Prompt.Suffix := EmptyString; Prompt.Stream := true |} /\
  forallb (fun e => negb (followsDecoding e))
    (trace (Sample.prompt (Sample.respond 200 Sample.usage7)
              Sample.promptRequest Sample.s0)) = true /\
  DB.usage (db (Sample.prompt (Sample.respond 200 Sample.usage7)
                  Sample.promptRequest Sample.s0)) = [].
Proof.
  assert (H1 : Prompt.unmarshalRequestBody (Request.Body Sample.promptRequest)
               = Some {| Prompt.Model := "gpt-x"; Prompt.Prompt := "hi";
                         Prompt.Suffix := EmptyString; Prompt.Stream := true |})
    by (vm_compute; reflexivity).
  assert (H2 : In (EvUnmarshalRequest (Request.Body Sample.promptRequest))
                 (trace (Sample.prompt (Sample.respond 200 Sample.usage7)
                           Sample.promptRequest Sample.s0)))
    by (vm_compute; do 4 right; left; reflexivity).
  split; [exact H1|].
  destruct (C10_prompt_stream_rejected
              Prompt.unmarshalRequestBody unmarshalResponseBody Sample.ForModel
              (Sample.respond 200 Sample.usage7)
              Sample.promptRequest "sk-upstream" Sample.s0 _
              (conj eq_refl eq_refl) H2 H1 eq_refl)
    as (_ & Hf & _ & Hu).
  split; [exact Hf | exact Hu].
Defined.

Lemma stream_upstream :
  upstreamResponse (Sample.respond 200 Sample.sseBody)
    (trace (Sample.chat (Sample.respond 200 Sample.sseBody)
              Sample.streamRequest Sample.s0))
    (Sample.response 200 Sample.sseBody).
Proof.
  apply sample_upstream; [|reflexivity].
  vm_compute. do 7 right. left. reflexivity.
Defined.

Lemma C1_witness :
  Forall (Chat.goodChunk Chat.unmarshalStreamedBody Sample.bytesCodec)
    [Sample.helChunk; Sample.loChunk] /\
  Response.Body (Sample.response 200 Sample.sseBody)
  = Chat.streamText [Sample.helChunk; Sample.loChunk]
    +:+ concatLines ["data: [DONE]" +:+ nl] +:+ nl +:+ EmptyString /\
  exists mid pid,
    saved (trace (Sample.chat (Sample.respond 200 Sample.sseBody)
                    Sample.streamRequest Sample.s0))
    = [usageRow mid pid (2 + 5)].
Proof.
  assert (H1 : Chat.unmarshalRequestBody (Request.Body Sample.streamRequest)
               = Some {| Chat.Model := "gpt-x";
                         Chat.Messages := [{| Chat.Content := "hi" |}];
                         Chat.Suffix := EmptyString; Chat.Stream := true |})
    by (vm_compute; reflexivity).
  assert (H2 : Forall (Chat.goodChunk Chat.unmarshalStreamedBody Sample.bytesCodec)
                 [Sample.helChunk; Sample.loChunk]).
  { repeat constructor; try (vm_compute; reflexivity); vm_compute; discriminate. }
  assert (H3 : Response.Body (Sample.response 200 Sample.sseBody)
               = Chat.streamText [Sample.helChunk; Sample.loChunk]
                 +:+ concatLines ["data: [DONE]" +:+ nl] +:+ nl +:+ EmptyString)
    by (vm_compute; reflexivity).
  assert (H4 : Forall2 (fun m ids => Sample.bytesCodec (Chat.Content m) = Some ids)
                 [{| Chat.Content := "hi" |}] [[104; 105]%N])
    by (repeat constructor).
  assert (H5 : Forall (fun l => nonblank l = true) ["data: [DONE]" +:+ nl])
    by (repeat constructor).
  split; [exact H2|]. split; [exact H3|].
  destruct (C1_stream_usage_is_prompt_plus_deltas
              Chat.unmarshalRequestBody unmarshalResponseBody
              Chat.unmarshalStreamedBody Sample.ForModel
              (Sample.respond 200 Sample.sseBody)
              Sample.streamRequest "sk-upstream" Sample.s0
              (Sample.response 200 Sample.sseBody) _ Sample.bytesCodec
              [[104; 105]%N] [Sample.helChunk; Sample.loChunk]
              ["data: [DONE]" +:+ nl] EmptyString
              (conj eq_refl eq_refl) eq_refl stream_upstream eq_refl H1 eq_refl
              eq_refl H4 H2 H5 eq_refl H3)
    as (uid & mid & pid & _ & Hs & _).
  exists mid, pid. exact Hs.
Defined.

(** The scenario of the specification: credential [abc] is alice's, no
    project label, a chat request for [gpt-x] without [stream], and an
    upstream answer with 7 total tokens. *)
Example scenario_alice :
  let s' := Sample.chat (Sample.respond 200 Sample.usage7)
              Sample.plainRequest Sample.s0 in
  DB.projects (db s') =
    [{| DB.project_id := 1; DB.project_user := 1; DB.project_name := "<default>" |}] /\
  DB.models (db s') = [{| DB.model_id := 1; DB.model_name := "gpt-x" |}] /\
  DB.usage (db s') = [usageRow 1 1 7] /\
  map fst (statusLines (trace s')) = [200] /\
  clientBody (trace s') = Sample.usage7.
Proof. vm_compute. repeat split; reflexivity. Qed.

(** The scenario, streamed: 2 prompt tokens and 3 + 2 delta tokens. *)
Example scenario_stream :
  let s' := Sample.chat (Sample.respond 200 Sample.sseBody)
              Sample.streamRequest Sample.s0 in
  DB.usage (db s') = [usageRow 1 1 7] /\
  clientBody (trace s') = Sample.sseBody /\
  map fst (statusLines (trace s')) = [200].
Proof. vm_compute. repeat split; reflexivity. Qed.

(** * More of the program *)

(** ** The tables under the schema's constraints *)

Transparent DB.findUserByKey DB.getProjectID DB.getModelID DB.saveUsage.

Lemma fold_max_ge (l : list Z) (a : Z) :
  a <= fold_left Z.max l a /\ forall x, In x l -> x <= fold_left Z.max l a.
Proof.
  revert a. induction l as [|b l IH]; intros a; simpl.
  - split; [lia | intros x []].
  - destruct (IH (Z.max a b)) as [H1 H2]. split; [lia|].
    intros x [<-|Hx]; [lia | auto].
Qed.

Lemma nextRowid_fresh (ids : list Z) : ~ In (DB.nextRowid ids) ids.
Proof.
  destruct ids as [|i rest]; simpl; [tauto|].
  destruct (fold_max_ge rest i) as [H1 H2].
  intros [H|H]; [lia | apply H2 in H; lia].
Qed.

Lemma NoDup_snoc {A B : Type} (f : A -> B) (l : list A) (x : A) :
  NoDup (map f l) -> ~ In (f x) (map f l) -> NoDup (map f (l ++ [x])).
Proof.
  intros Hl Hx. rewrite map_app. simpl.
  apply NoDup_ListNoDup, List.NoDup_app.
  repeat split.
  - now apply NoDup_ListNoDup.
  - repeat constructor. intros [].
  - intros y Hy [<-|[]]. contradiction.
Qed.

Lemma existsb_false_In {A : Type} (P : A -> bool) (l : list A) (x : A) :
  existsb P l = false -> In x l -> P x = false.
Proof.
  intros H Hx. destruct (P x) eqn:E; [|reflexivity].
  assert (existsb P l = true) by (apply existsb_exists; eauto). congruence.
Qed.

Lemma userExists_users d d' x :
  DB.users d' = DB.users d -> DB.userExists d' x = DB.userExists d x.
Proof. unfold DB.userExists. now intros ->. Qed.

Lemma modelExists_models d d' x :
  DB.models d' = DB.models d -> DB.modelExists d' x = DB.modelExists d x.
Proof. unfold DB.modelExists. now intros ->. Qed.

Lemma projectExists_projects d d' x :
  DB.projects d' = DB.projects d -> DB.projectExists d' x = DB.projectExists d x.
Proof. unfold DB.projectExists. now intros ->. Qed.

Lemma existsb_snoc {A : Type} (P : A -> bool) (l : list A) (x : A) :
  existsb P l = true -> existsb P (l ++ [x]) = true.
Proof. intros H. rewrite existsb_app, H. reflexivity. Qed.

Lemma holds_getProjectID d uid name :
  Schema.holds d -> Schema.holds (fst (DB.getProjectID d uid name)).
Proof.
  intros H. unfold DB.getProjectID, DB.insertProject.
  destruct (existsb (DB.isProject uid name) (DB.projects d)) eqn:E; [exact H|].
  destruct (DB.userExists d uid) eqn:Hu; [|exact H].
  destruct H. constructor; simpl; auto.
  - apply NoDup_snoc; [assumption | apply nextRowid_fresh].
  - apply NoDup_snoc; [assumption|]. simpl. intros Hin.
    apply in_map_iff in Hin as (p & Ep & Hp). injection Ep as E1 E2.
    apply (existsb_false_In _ _ p E) in Hp. unfold DB.isProject in Hp.
    rewrite E1, E2, Z.eqb_refl, String.eqb_refl in Hp. discriminate.
  - apply Forall_app. split; [assumption|]. repeat constructor. exact Hu.
  - eapply Forall_impl; [eassumption|]. intros u [Hm Hp]. split; [exact Hm|].
    unfold DB.projectExists in *. simpl. now apply existsb_snoc.
Qed.

Lemma holds_getModelID d name :
  Schema.holds d -> Schema.holds (fst (DB.getModelID d name)).
Proof.
  intros H. unfold DB.getModelID, DB.insertModel. simpl.
  destruct (existsb (DB.isModel name) (DB.models d)) eqn:E; [exact H|].
  destruct H. constructor; simpl; auto.
  - apply NoDup_snoc; [assumption | apply nextRowid_fresh].
  - apply NoDup_snoc; [assumption|]. simpl. intros Hin.
    apply in_map_iff in Hin as (m & Em & Hm).
    apply (existsb_false_In _ _ m E) in Hm. unfold DB.isModel in Hm.
    rewrite Em, String.eqb_refl in Hm. discriminate.
  - eapply Forall_impl; [eassumption|]. intros u [Hm Hp]. split; [|exact Hp].
    unfold DB.modelExists in *. simpl. now apply existsb_snoc.
Qed.

Lemma holds_saveUsage d m p n :
  Schema.holds d -> Schema.holds (fst (DB.saveUsage d m p n)).
Proof.
  intros H. unfold DB.saveUsage.
  destruct (DB.modelExists d m) eqn:Hm; simpl; [|exact H].
  destruct (DB.projectExists d p) eqn:Hp; simpl; [|exact H].
  destruct H. constructor; simpl; auto.
  apply Forall_app. split; [assumption|]. repeat constructor; assumption.
Qed.

Lemma rekey_id n k (l : list DB.userRow) :
  map DB.user_id (map (DB.rekey n k) l) = map DB.user_id l.
Proof.
  rewrite map_map. apply map_ext. intros u. unfold DB.rekey.
  destruct (DB.hasName n u); reflexivity.
Qed.

Lemma rekey_name n k (l : list DB.userRow) :
  map DB.user_name (map (DB.rekey n k) l) = map DB.user_name l.
Proof.
  rewrite map_map. apply map_ext. intros u. unfold DB.rekey.
  destruct (DB.hasName n u); reflexivity.
Qed.

Lemma hasName_spec n u : DB.hasName n u = true <-> DB.user_name u = n.
Proof. unfold DB.hasName. apply String.eqb_eq. Qed.

Lemma hasKey_spec k u : DB.hasKey k u = true <-> DB.user_key u = k.
Proof. unfold DB.hasKey. apply String.eqb_eq. Qed.

Lemma rekey_keys n k (l : list DB.userRow) :
  NoDup (map DB.user_name l) -> NoDup (map DB.user_key l) ->
  (forall u, In u l -> DB.user_key u = k -> DB.user_name u = n) ->
  NoDup (map DB.user_key (map (DB.rekey n k) l)).
Proof.
  induction l as [|u l IH]; simpl; intros Hn Hk Hother; [constructor|].
  apply NoDup_cons in Hn as [Hn1 Hn2]. apply NoDup_cons in Hk as [Hk1 Hk2].
  apply NoDup_cons. split.
  - rewrite map_map. intros Hin. apply list_elem_of_In, in_map_iff in Hin
      as (v & Ev & Hv).
    unfold DB.rekey in Ev.
    destruct (DB.hasName n u) eqn:Eu, (DB.hasName n v) eqn:Evn; simpl in Ev.
    + apply hasName_spec in Eu, Evn. apply Hn1, list_elem_of_In, in_map_iff.
      exists v. split; [congruence | assumption].
    + apply hasName_spec in Eu.
      assert (DB.user_name v = n) by (apply Hother; auto).
      apply hasName_spec in H. congruence.
    + assert (DB.user_name u = n) by (apply Hother; auto).
      apply hasName_spec in H. congruence.
    + apply Hk1, list_elem_of_In, in_map_iff. exists v. split; assumption.
  - apply IH; auto.
Qed.

Lemma existsb_id_map (f : DB.userRow -> DB.userRow) (l : list DB.userRow) x :
  (forall u, DB.user_id (f u) = DB.user_id u) ->
  existsb (fun u => DB.user_id u =? x) (map f l) =
  existsb (fun u => DB.user_id u =? x) l.
Proof.
  intros Hf. induction l as [|u l IH]; simpl; [reflexivity|].
  now rewrite Hf, IH.
Qed.

Lemma holds_setUserKey d n k :
  Schema.holds d -> Schema.holds (fst (DB.setUserKey d n k)).
Proof.
  intros H. unfold DB.setUserKey.
  destruct (existsb (DB.hasName n) (DB.users d)) eqn:En.
  - destruct (existsb (fun u => DB.hasKey k u && negb (DB.hasName n u)) (DB.users d))
      eqn:Ek; [exact H|].
    simpl. destruct H. constructor; simpl; auto.
    + now rewrite (rekey_id n k).
    + now rewrite (rekey_name n k).
    + apply (rekey_keys n k); auto. intros u Hu Hku.
      apply (existsb_false_In _ _ u Ek) in Hu.
      apply andb_false_iff in Hu as [Hu|Hu].
      * apply hasKey_spec in Hku. congruence.
      * apply negb_false_iff, hasName_spec in Hu. exact Hu.
    + eapply Forall_impl; [eassumption|]. intros p Hp.
      unfold DB.userExists in *. simpl.
      rewrite (existsb_id_map (DB.rekey n k)); [exact Hp|].
      intros u. unfold DB.rekey. destruct (DB.hasName n u); reflexivity.
  - destruct (existsb (DB.hasKey k) (DB.users d)) eqn:Ek; [exact H|].
    simpl. destruct H. constructor; simpl; auto.
    + apply NoDup_snoc; [assumption | apply nextRowid_fresh].
    + apply NoDup_snoc; [assumption|]. simpl. intros Hin.
      apply in_map_iff in Hin as (u & Eu & Hu).
      apply (existsb_false_In _ _ u En) in Hu.
      apply hasName_spec in Eu. congruence.
    + apply NoDup_snoc; [assumption|]. simpl. intros Hin.
      apply in_map_iff in Hin as (u & Eu & Hu).
      apply (existsb_false_In _ _ u Ek) in Hu.
      apply hasKey_spec in Eu. congruence.
    + eapply Forall_impl; [eassumption|]. intros p Hp.
      unfold DB.userExists in *. simpl. now apply existsb_snoc.
Qed.

Lemma NoDup_map_filter {A B : Type} (f : A -> B) (P : A -> bool) (l : list A) :
  NoDup (map f l) -> NoDup (map f (List.filter P l)).
Proof.
  induction l as [|a l IH]; simpl; intros H; [constructor|].
  apply NoDup_cons in H as [H1 H2].
  destruct (P a); simpl; auto.
  apply NoDup_cons. split; auto.
  intros Hin. apply H1. apply list_elem_of_In, in_map_iff in Hin as (b & Eb & Hb).
  apply list_elem_of_In, in_map_iff. exists b. split; [assumption|].
  apply filter_In in Hb. tauto.
Qed.

Lemma holds_deleteUser d n :
  Schema.holds d -> Schema.holds (fst (DB.deleteUser d n)).
Proof.
  intros H. unfold DB.deleteUser.
  destruct (existsb _ (DB.projects d)) eqn:Efk; [exact H|].
  simpl. destruct H. constructor; simpl; auto using NoDup_map_filter.
  apply Forall_forall. intros p Hp.
  assert (Hu : DB.userExists d (DB.project_user p) = true).
  { rewrite Forall_forall in project_users. now apply project_users. }
  unfold DB.userExists in Hu |- *. simpl.
  apply existsb_exists in Hu as (u & Hu & Eu).
  apply existsb_exists. exists u. split; [|exact Eu].
  apply filter_In. split; [exact Hu|].
  destruct (DB.hasName n u) eqn:Hn; [|reflexivity]. exfalso.
  apply list_elem_of_In in Hp.
  apply (existsb_false_In _ _ p Efk) in Hp.
  assert (Hin : In u (List.filter (DB.hasName n) (DB.users d)))
    by (apply filter_In; split; assumption).
  pose proof (existsb_false_In _ _ u Hp Hin) as Hf. simpl in Hf. congruence.
Qed.

(** Lookups by a unique column *)

Lemma filter_none {A : Type} (P : A -> bool) (l : list A) :
  existsb P l = false -> List.filter P l = [].
Proof.
  induction l as [|a l IH]; simpl; [reflexivity|].
  intros H. apply orb_false_iff in H as [Ha Hl]. rewrite Ha. auto.
Qed.

Lemma unique_row {A K : Type} (col : A -> K) (l : list A) (x y : A) :
  NoDup (map col l) -> In x l -> In y l -> col x = col y -> x = y.
Proof.
  induction l as [|a l IH]; simpl; intros Hn Hx Hy E; [contradiction|].
  apply NoDup_cons in Hn as [Hn1 Hn2].
  destruct Hx as [<-|Hx], Hy as [<-|Hy]; auto.
  - exfalso. apply Hn1, list_elem_of_In, in_map_iff. exists y. auto.
  - exfalso. apply Hn1, list_elem_of_In, in_map_iff. exists x. auto.
Qed.

Lemma filter_unique {A K : Type} (col : A -> K) (P : A -> bool) (l : list A) (x : A) :
  NoDup (map col l) -> In x l -> (forall y, P y = true <-> col y = col x) ->
  List.filter P l = [x].
Proof.
  intros Hn Hx HP. induction l as [|a l IH]; simpl in *; [contradiction|].
  apply NoDup_cons in Hn as [Hn1 Hn2].
  destruct (P a) eqn:Pa.
  - apply HP in Pa.
    assert (a = x) as ->.
    { destruct Hx as [Hx|Hx]; [exact Hx|]. exfalso.
      apply Hn1, list_elem_of_In, in_map_iff. exists x. auto. }
    f_equal. apply filter_none.
    destruct (existsb P l) eqn:E; [|reflexivity]. exfalso.
    apply existsb_exists in E as (y & Hy & Py). apply HP in Py.
    apply Hn1, list_elem_of_In, in_map_iff. exists y. auto.
  - destruct Hx as [Hx|Hx].
    + subst a. assert (P x = true) by now apply HP. congruence.
    + auto.
Qed.

Lemma findUserByKey_row d u :
  NoDup (map DB.user_key (DB.users d)) -> In u (DB.users d) ->
  DB.findUserByKey d (DB.user_key u) = (DB.user_id u, DB.user_name u, true).
Proof.
  intros Hn Hu. unfold DB.findUserByKey.
  rewrite (filter_unique DB.user_key _ _ u Hn Hu); [reflexivity|].
  intros y. apply String.eqb_eq.
Qed.

Lemma findUserByKey_none d k :
  existsb (DB.hasKey k) (DB.users d) = false ->
  DB.findUserByKey d k = (0, EmptyString, false).
Proof.
  intros H. unfold DB.findUserByKey.
  change (fun u => String.eqb (DB.user_key u) k) with (DB.hasKey k).
  now rewrite filter_none.
Qed.

Lemma findUserByKey_inv d k uid uname :
  DB.findUserByKey d k = (uid, uname, true) ->
  exists u, In u (DB.users d) /\ DB.user_key u = k /\
            DB.user_id u = uid /\ DB.user_name u = uname.
Proof.
  unfold DB.findUserByKey. intros H.
  destruct (existsb (fun u => String.eqb (DB.user_key u) k) (DB.users d)) eqn:E.
  - destruct (lastOf_filter (fun u => (DB.user_id u, DB.user_name u, true))
                (0, EmptyString, false) _ _ E) as (x & Hx & Px & Ex).
    rewrite Ex in H. injection H as <- <-. exists x.
    apply String.eqb_eq in Px. auto.
  - rewrite filter_none in H by exact E. discriminate.
Qed.

Lemma getProjectID_of_row d pid uid name :
  NoDup (map (fun p => (DB.project_user p, DB.project_name p)) (DB.projects d)) ->
  In {| DB.project_id := pid; DB.project_user := uid; DB.project_name := name |}
     (DB.projects d) ->
  DB.getProjectID d uid name = (d, Some pid).
Proof.
  intros Hn Hin. unfold DB.getProjectID, DB.insertProject, DB.selectProjectID.
  assert (E : existsb (DB.isProject uid name) (DB.projects d) = true).
  { apply existsb_exists. eexists. split; [exact Hin|].
    unfold DB.isProject. simpl. now rewrite Z.eqb_refl, String.eqb_refl. }
  rewrite E.
  rewrite (filter_unique (fun p => (DB.project_user p, DB.project_name p))
             _ _ _ Hn Hin); [reflexivity|].
  intros y. unfold DB.isProject. simpl. rewrite andb_true_iff, Z.eqb_eq, String.eqb_eq.
  split; [intros [-> ->]; reflexivity | intros E1; injection E1; auto].
Qed.

Lemma getProjectID_row d uid name d1 pid :
  DB.getProjectID d uid name = (d1, Some pid) ->
  NoDup (map (fun p => (DB.project_user p, DB.project_name p)) (DB.projects d)) ->
  In {| DB.project_id := pid; DB.project_user := uid; DB.project_name := name |}
     (DB.projects d1).
Proof.
  unfold DB.getProjectID, DB.insertProject, DB.selectProjectID.
  destruct (existsb (DB.isProject uid name) (DB.projects d)) eqn:E.
  - intros H Hn. injection H as <- <-.
    apply existsb_exists in E as (x & Hx & Px).
    unfold DB.isProject in Px. apply andb_true_iff in Px as [P1 P2].
    apply Z.eqb_eq in P1. apply String.eqb_eq in P2.
    rewrite (filter_unique (fun p => (DB.project_user p, DB.project_name p))
               _ _ x Hn Hx).
    + simpl. destruct x; simpl in *. now subst.
    + intros y. unfold DB.isProject. rewrite andb_true_iff, Z.eqb_eq, String.eqb_eq.
      rewrite P1, P2. split; [intros [-> ->]; reflexivity | intros E1; injection E1; auto].
  - destruct (DB.userExists d uid); [|discriminate].
    intros H Hn. injection H as <- <-. simpl.
    rewrite List.filter_app. simpl.
    unfold DB.isProject at 2. simpl. rewrite Z.eqb_refl, String.eqb_refl. simpl.
    rewrite filter_none by exact E. simpl.
    apply in_app_iff. right. left. reflexivity.
Qed.

Lemma getProjectID_grows d uid name :
  DB.projects d `prefix_of` DB.projects (fst (DB.getProjectID d uid name)).
Proof.
  unfold DB.getProjectID, DB.insertProject.
  destruct (existsb (DB.isProject uid name) (DB.projects d)); [reflexivity|].
  destruct (DB.userExists d uid); [|reflexivity].
  simpl. now exists [{| DB.project_id := DB.nextRowid (map DB.project_id (DB.projects d));
                       DB.project_user := uid; DB.project_name := name |}].
Qed.

Lemma prefix_In {A : Type} (l1 l2 : list A) x : l1 `prefix_of` l2 -> In x l1 -> In x l2.
Proof. intros [k ->] H. apply in_app_iff. auto. Qed.

(** X1. [getProjectID] is a lookup that inserts on a miss: the ID it gives
    for a user and a label is that of their one row; asking again gives
    the same ID and changes nothing; another user or label gets another
    ID, and leaves the first where it was. *)
Theorem getProjectID_round_trip d uid name d1 pid :
  Schema.holds d ->
  DB.getProjectID d uid name = (d1, Some pid) ->
  In {| DB.project_id := pid; DB.project_user := uid; DB.project_name := name |}
     (DB.projects d1) /\
  DB.getProjectID d1 uid name = (d1, Some pid) /\
  forall uid2 name2 d2 pid2,
    DB.getProjectID d1 uid2 name2 = (d2, Some pid2) ->
    (pid2 = pid <-> uid2 = uid /\ name2 = name) /\
    DB.getProjectID d2 uid name = (d2, Some pid).
Proof.
  intros H Hp.
  assert (H1 : Schema.holds d1).
  { pose proof (holds_getProjectID d uid name H) as H1. now rewrite Hp in H1. }
  assert (Hrow := getProjectID_row _ _ _ _ _ Hp (Schema.project_names d H)).
  split; [exact Hrow|]. split.
  { apply getProjectID_of_row; [apply (Schema.project_names d1 H1) | exact Hrow]. }
  intros uid2 name2 d2 pid2 Hp2.
  assert (H2 : Schema.holds d2).
  { pose proof (holds_getProjectID d1 uid2 name2 H1) as H2. now rewrite Hp2 in H2. }
  assert (Hrow2 := getProjectID_row _ _ _ _ _ Hp2 (Schema.project_names d1 H1)).
  assert (Hrow' : In {| DB.project_id := pid; DB.project_user := uid;
                        DB.project_name := name |} (DB.projects d2)).
  { pose proof (getProjectID_grows d1 uid2 name2) as Hg. rewrite Hp2 in Hg.
    exact (prefix_In _ _ _ Hg Hrow). }
  split.
  - split.
    + intros ->.
      pose proof (unique_row DB.project_id _ _ _ (Schema.project_ids d2 H2)
                    Hrow2 Hrow' eq_refl) as E.
      injection E; auto.
    + intros [-> ->].
      pose proof (unique_row (fun p => (DB.project_user p, DB.project_name p))
                    _ _ _ (Schema.project_names d2 H2) Hrow2 Hrow' eq_refl) as E.
      injection E; auto.
  - apply getProjectID_of_row; [apply (Schema.project_names d2 H2) | exact Hrow'].
Qed.

Lemma getModelID_of_row d mid name :
  NoDup (map DB.model_name (DB.models d)) ->
  In {| DB.model_id := mid; DB.model_name := name |} (DB.models d) ->
  DB.getModelID d name = (d, Some mid).
Proof.
  intros Hn Hin. unfold DB.getModelID, DB.insertModel, DB.selectModelID.
  assert (E : existsb (DB.isModel name) (DB.models d) = true).
  { apply existsb_exists. eexists. split; [exact Hin|].
    unfold DB.isModel. simpl. apply String.eqb_refl. }
  rewrite E.
  rewrite (filter_unique DB.model_name _ _ _ Hn Hin); [reflexivity|].
  intros y. unfold DB.isModel. simpl. apply String.eqb_eq.
Qed.

Lemma getModelID_row d name d1 mid :
  DB.getModelID d name = (d1, Some mid) ->
  NoDup (map DB.model_name (DB.models d)) ->
  In {| DB.model_id := mid; DB.model_name := name |} (DB.models d1).
Proof.
  unfold DB.getModelID, DB.insertModel, DB.selectModelID.
  destruct (existsb (DB.isModel name) (DB.models d)) eqn:E.
  - intros H Hn. injection H as <- <-.
    apply existsb_exists in E as (x & Hx & Px).
    unfold DB.isModel in Px. apply String.eqb_eq in Px.
    rewrite (filter_unique DB.model_name _ _ x Hn Hx).
    + simpl. destruct x; simpl in *. now subst.
    + intros y. unfold DB.isModel. rewrite String.eqb_eq. now rewrite Px.
  - intros H Hn. injection H as <- <-. simpl.
    rewrite List.filter_app. simpl.
    unfold DB.isModel at 2. simpl. rewrite String.eqb_refl. simpl.
    rewrite filter_none by exact E. simpl.
    apply in_app_iff. right. left. reflexivity.
Qed.

Lemma getModelID_grows d name :
  DB.models d `prefix_of` DB.models (fst (DB.getModelID d name)).
Proof.
  unfold DB.getModelID, DB.insertModel. simpl.
  destruct (existsb (DB.isModel name) (DB.models d)); [reflexivity|].
  simpl. now exists [{| DB.model_id := DB.nextRowid (map DB.model_id (DB.models d));
                       DB.model_name := name |}].
Qed.

(** X2. [getModelID] never fails, and is a lookup that inserts on a miss:
    one ID per model name, the same at every later call, and different
    names have different IDs. *)
Theorem getModelID_round_trip d name :
  Schema.holds d ->
  exists d1 mid,
    DB.getModelID d name = (d1, Some mid) /\
    In {| DB.model_id := mid; DB.model_name := name |} (DB.models d1) /\
    DB.getModelID d1 name = (d1, Some mid) /\
    forall name2 d2 mid2,
      DB.getModelID d1 name2 = (d2, Some mid2) ->
      (mid2 = mid <-> name2 = name) /\
      DB.getModelID d2 name = (d2, Some mid).
Proof.
  intros H.
  destruct (DB.getModelID d name) as [d1 [mid|]] eqn:Hm;
    [|unfold DB.getModelID in Hm; discriminate].
  exists d1, mid. split; [reflexivity|].
  assert (H1 : Schema.holds d1).
  { pose proof (holds_getModelID d name H) as H1. now rewrite Hm in H1. }
  assert (Hrow := getModelID_row _ _ _ _ Hm (Schema.model_names d H)).
  split; [exact Hrow|]. split.
  { apply getModelID_of_row; [apply (Schema.model_names d1 H1) | exact Hrow]. }
  intros name2 d2 mid2 Hm2.
  assert (H2 : Schema.holds d2).
  { pose proof (holds_getModelID d1 name2 H1) as H2. now rewrite Hm2 in H2. }
  assert (Hrow2 := getModelID_row _ _ _ _ Hm2 (Schema.model_names d1 H1)).
  assert (Hrow' : In {| DB.model_id := mid; DB.model_name := name |} (DB.models d2)).
  { pose proof (getModelID_grows d1 name2) as Hg. rewrite Hm2 in Hg.
    exact (prefix_In _ _ _ Hg Hrow). }
  split.
  - split.
    + intros ->.
      pose proof (unique_row DB.model_id _ _ _ (Schema.model_ids d2 H2)
                    Hrow2 Hrow' eq_refl) as E.
      injection E; auto.
    + intros ->.
      pose proof (unique_row DB.model_name _ _ _ (Schema.model_names d2 H2)
                    Hrow2 Hrow' eq_refl) as E.
      injection E; auto.
  - apply getModelID_of_row; [apply (Schema.model_names d2 H2) | exact Hrow'].
Qed.

Lemma setUserKey_row d n k d' :
  DB.setUserKey d n k = (d', true) ->
  (exists u, In u (DB.users d) /\ DB.user_name u = n /\
             DB.users d' = map (DB.rekey n k) (DB.users d)) \/
  (existsb (DB.hasName n) (DB.users d) = false /\
   DB.users d' = DB.users d ++
     [{| DB.user_id := DB.nextRowid (map DB.user_id (DB.users d));
         DB.user_name := n; DB.user_key := k |}]).
Proof.
  unfold DB.setUserKey.
  destruct (existsb (DB.hasName n) (DB.users d)) eqn:En; cbv iota.
  - destruct (existsb (fun u => DB.hasKey k u && negb (DB.hasName n u)) (DB.users d));
      [discriminate|].
    intros H. injection H as <-. left.
    apply existsb_exists in En as (u & Hu & Eu). apply hasName_spec in Eu. eauto.
  - destruct (existsb (DB.hasKey k) (DB.users d)); [discriminate|].
    intros H. injection H as <-. right. auto.
Qed.

Lemma setUserKey_tables d n k :
  let d' := fst (DB.setUserKey d n k) in
  DB.projects d' = DB.projects d /\ DB.models d' = DB.models d /\
  DB.usage d' = DB.usage d.
Proof.
  unfold DB.setUserKey.
  destruct (existsb (DB.hasName n) (DB.users d));
    [destruct (existsb (fun u => DB.hasKey k u && negb (DB.hasName n u)) (DB.users d))
    |destruct (existsb (DB.hasKey k) (DB.users d))]; simpl; auto.
Qed.

(** X3. The user commands and the credential check fit together: after
    [setUserKey] has gone through, the key is that of the user named, who
    keeps the ID (and so the projects and usage) held before; the key
    the user had before is no credential any more; every other user is
    found as before; the other tables are as they were. *)
Theorem setUserKey_then_findUserByKey d n k d' :
  Schema.holds d ->
  DB.setUserKey d n k = (d', true) ->
  (exists id, DB.findUserByKey d' k = (id, n, true)) /\
  (forall k0 id0, DB.findUserByKey d k0 = (id0, n, true) ->
     DB.findUserByKey d' k = (id0, n, true) /\
     (k0 <> k -> DB.findUserByKey d' k0 = (0, EmptyString, false))) /\
  (forall k1 id1 n1, n1 <> n -> DB.findUserByKey d k1 = (id1, n1, true) ->
     DB.findUserByKey d' k1 = (id1, n1, true)) /\
  DB.projects d' = DB.projects d /\ DB.models d' = DB.models d /\
  DB.usage d' = DB.usage d.
Proof.
  intros H Hs.
  assert (H' : Schema.holds d').
  { pose proof (holds_setUserKey d n k H) as H'. now rewrite Hs in H'. }
  pose proof (setUserKey_tables d n k) as Ht. rewrite Hs in Ht. simpl in Ht.
  assert (Hnew : forall u, In u (DB.users d) -> DB.user_name u = n ->
            In (DB.withKey k u) (DB.users d')).
  { intros u Hu Eu. destruct (setUserKey_row _ _ _ _ Hs) as [(_ & _ & _ & E)|[En _]].
    - rewrite E. apply in_map_iff. exists u. split; [|exact Hu].
      unfold DB.rekey. apply hasName_spec in Eu. now rewrite Eu.
    - apply (existsb_false_In _ _ u En) in Hu. apply hasName_spec in Eu. congruence. }
  assert (Hkeep : forall u, In u (DB.users d) -> DB.user_name u <> n ->
            In u (DB.users d')).
  { intros u Hu Eu. destruct (setUserKey_row _ _ _ _ Hs) as [(_ & _ & _ & E)|[_ E]].
    - rewrite E. apply in_map_iff. exists u. split; [|exact Hu].
      unfold DB.rekey. destruct (DB.hasName n u) eqn:En; [|reflexivity].
      apply hasName_spec in En. contradiction.
    - rewrite E. apply in_app_iff. auto. }
  repeat split; try tauto.
  - destruct (setUserKey_row _ _ _ _ Hs) as [(u & Hu & Eu & E)|[_ E]].
    + exists (DB.user_id u).
      pose proof (findUserByKey_row d' (DB.withKey k u) (Schema.user_keys d' H')
                    (Hnew u Hu Eu)) as F.
      simpl in F. now rewrite Eu in F.
    + eexists.
      refine (findUserByKey_row d'
                {| DB.user_id := _; DB.user_name := n; DB.user_key := k |}
                (Schema.user_keys d' H') _).
      rewrite E. apply in_app_iff. right. left. reflexivity.
  - apply findUserByKey_inv in H0 as (u & Hu & _ & <- & Eu).
    pose proof (findUserByKey_row d' (DB.withKey k u) (Schema.user_keys d' H')
                  (Hnew u Hu Eu)) as F.
    simpl in F. now rewrite Eu in F.
  - intros Hne. apply findUserByKey_inv in H0 as (u & Hu & Ek0 & _ & Eu).
    apply findUserByKey_none.
    destruct (existsb (DB.hasKey k0) (DB.users d')) eqn:E; [|reflexivity]. exfalso.
    apply existsb_exists in E as (v & Hv & Ev). apply hasKey_spec in Ev.
    destruct (setUserKey_row _ _ _ _ Hs) as [(_ & _ & _ & E)|[En _]].
    + rewrite E in Hv. apply in_map_iff in Hv as (w & <- & Hw).
      unfold DB.rekey in Ev. destruct (DB.hasName n w) eqn:Ew; simpl in Ev.
      * congruence.
      * assert (w = u).
        { apply (unique_row DB.user_key (DB.users d)); auto.
          - apply (Schema.user_keys d H).
          - congruence. }
        subst w. apply hasName_spec in Eu. congruence.
    + apply (existsb_false_In _ _ u En) in Hu. apply hasName_spec in Eu. congruence.
  - intros k1 id1 n1 Hne F. apply findUserByKey_inv in F as (u & Hu & <- & <- & <-).
    apply findUserByKey_row; [apply (Schema.user_keys d' H')|].
    apply Hkeep; assumption.
Qed.


(** X4. [setUserKey] is refused exactly when the key is that of a user with
    another name, and then nothing changes. *)
Theorem setUserKey_refused d n k :
  (snd (DB.setUserKey d n k) = false <->
   exists u, In u (DB.users d) /\ DB.user_key u = k /\ DB.user_name u <> n) /\
  (snd (DB.setUserKey d n k) = false -> fst (DB.setUserKey d n k) = d).
Proof.
  unfold DB.setUserKey.
  destruct (existsb (DB.hasName n) (DB.users d)) eqn:En.
  - destruct (existsb (fun u => DB.hasKey k u && negb (DB.hasName n u)) (DB.users d))
      eqn:Ek; simpl.
    + split; [|reflexivity]. split; [intros _|reflexivity].
      apply existsb_exists in Ek as (u & Hu & Eu).
      apply andb_true_iff in Eu as [E1 E2].
      apply hasKey_spec in E1. apply negb_true_iff in E2.
      exists u. repeat split; auto. intros E. apply hasName_spec in E. congruence.
    + split; [|discriminate]. split; [discriminate|].
      intros (u & Hu & E1 & E2).
      apply (existsb_false_In _ _ u Ek) in Hu.
      apply hasKey_spec in E1. rewrite E1 in Hu. simpl in Hu.
      apply negb_false_iff, hasName_spec in Hu. contradiction.
  - destruct (existsb (DB.hasKey k) (DB.users d)) eqn:Ek; simpl.
    + split; [|reflexivity]. split; [intros _|reflexivity].
      apply existsb_exists in Ek as (u & Hu & Eu). apply hasKey_spec in Eu.
      exists u. repeat split; auto. intros E.
      apply (existsb_false_In _ _ u En) in Hu. apply hasName_spec in E. congruence.
    + split; [|discriminate]. split; [discriminate|].
      intros (u & Hu & E1 & _).
      apply (existsb_false_In _ _ u Ek) in Hu. apply hasKey_spec in E1. congruence.
Qed.

Lemma grownFrom_refl d : grownFrom d d.
Proof. repeat split; reflexivity. Qed.

Lemma grownFrom_getProjectID d0 d uid name :
  grownFrom d0 d -> grownFrom d0 (fst (DB.getProjectID d uid name)).
Proof.
  intros (Hu & Hp & Hm & Hg). unfold DB.getProjectID, DB.insertProject.
  destruct (existsb (DB.isProject uid name) (DB.projects d)); [repeat split; auto|].
  destruct (DB.userExists d uid); [|repeat split; auto].
  repeat split; simpl; auto. now apply prefix_app_r.
Qed.

Lemma grownFrom_getModelID d0 d name :
  grownFrom d0 d -> grownFrom d0 (fst (DB.getModelID d name)).
Proof.
  intros (Hu & Hp & Hm & Hg). unfold DB.getModelID, DB.insertModel. simpl.
  destruct (existsb (DB.isModel name) (DB.models d)); [repeat split; auto|].
  repeat split; simpl; auto. now apply prefix_app_r.
Qed.

Lemma grownFrom_saveUsage d0 d m p n :
  grownFrom d0 d -> grownFrom d0 (fst (DB.saveUsage d m p n)).
Proof.
  intros (Hu & Hp & Hm & Hg). unfold DB.saveUsage.
  destruct (DB.modelExists d m && DB.projectExists d p); [|repeat split; auto].
  repeat split; simpl; auto. now apply prefix_app_r.
Qed.

Lemma storage_keeps_schema : keptByStorage Schema.holds.
Proof.
  split; [|split]; intros;
    auto using holds_getProjectID, holds_getModelID, holds_saveUsage.
Qed.

Lemma storage_keeps_grownFrom d0 : keptByStorage (grownFrom d0).
Proof.
  split; [|split]; intros;
    auto using grownFrom_getProjectID, grownFrom_getModelID, grownFrom_saveUsage.
Qed.

(** X5. The schema's constraints are kept by every function of db.go that
    writes: the two lookups that insert, [saveUsage], [setUserKey] and
    [deleteUser], whether they succeed or fail. *)
Theorem schema_kept_by_storage d :
  Schema.holds d ->
  (forall userID name, Schema.holds (fst (DB.getProjectID d userID name))) /\
  (forall name, Schema.holds (fst (DB.getModelID d name))) /\
  (forall m p n, Schema.holds (fst (DB.saveUsage d m p n))) /\
  (forall userName apiKey, Schema.holds (fst (DB.setUserKey d userName apiKey))) /\
  (forall userName, Schema.holds (fst (DB.deleteUser d userName))).
Proof.
  intros H. split; [|split; [|split; [|split]]]; intros;
    auto using holds_getProjectID, holds_getModelID, holds_saveUsage,
      holds_setUserKey, holds_deleteUser.
Qed.

Lemma getModelID_model d name d' res :
  DB.getModelID d name = (d', res) ->
  exists mid, res = Some mid /\
    existsb (DB.isModel name) (DB.models d') = true /\
    DB.projects d' = DB.projects d.
Proof.
  unfold DB.getModelID, DB.insertModel. intros H. injection H as <- <-.
  eexists. split; [reflexivity|].
  destruct (existsb (DB.isModel name) (DB.models d)) eqn:E; simpl.
  - auto.
  - split; [|reflexivity]. rewrite existsb_app. simpl.
    unfold DB.isModel at 2. simpl. rewrite String.eqb_refl.
    now rewrite orb_true_r.
Qed.

Lemma filter_all {A : Type} (P : A -> bool) (l : list A) :
  (forall x, In x l -> P x = true) -> List.filter P l = l.
Proof.
  induction l as [|a l IH]; simpl; intros H; [reflexivity|].
  rewrite (H a) by auto. f_equal. auto.
Qed.

(** X6. [deleteUser] has three outcomes.  It fails, and changes nothing,
    when a project refers to the user named (every user who has been
    served has one).  It reports that nothing was deleted when no user
    has the name.  Otherwise the one user of that name is gone, the
    others stay, and the key of the deleted user is no credential any
    more. *)
Theorem deleteUser_outcomes d n :
  Schema.holds d ->
  match DB.deleteUser d n with
  | (d', None) =>
      d' = d /\
      exists u p, In u (DB.users d) /\ DB.user_name u = n /\
                  In p (DB.projects d) /\ DB.project_user p = DB.user_id u
  | (d', Some false) =>
      d' = d /\ forall u, In u (DB.users d) -> DB.user_name u <> n
  | (d', Some true) =>
      exists u, In u (DB.users d) /\ DB.user_name u = n /\
        (forall v, In v (DB.users d') <-> In v (DB.users d) /\ v <> u) /\
        DB.findUserByKey d' (DB.user_key u) = (0, EmptyString, false) /\
        (forall p, In p (DB.projects d) -> DB.project_user p <> DB.user_id u) /\
        DB.projects d' = DB.projects d /\ DB.models d' = DB.models d /\
        DB.usage d' = DB.usage d
  end.
Proof.
  intros H. unfold DB.deleteUser.
  destruct (existsb (fun p => existsb (fun u => DB.user_id u =? DB.project_user p)
                                (List.filter (DB.hasName n) (DB.users d)))
              (DB.projects d)) eqn:Efk.
  - split; [reflexivity|].
    apply existsb_exists in Efk as (p & Hp & Ep).
    apply existsb_exists in Ep as (u & Hu & Eu).
    apply filter_In in Hu as [Hu En]. apply hasName_spec in En.
    apply Z.eqb_eq in Eu. exists u, p. auto.
  - destruct (List.filter (DB.hasName n) (DB.users d)) as [|u gone] eqn:Eg; simpl.
    + assert (Hno : forall u, In u (DB.users d) -> DB.user_name u <> n).
      { intros u Hu En. apply hasName_spec in En.
        assert (In u (List.filter (DB.hasName n) (DB.users d)))
          by (apply filter_In; auto).
        rewrite Eg in H0. contradiction. }
      split; [|exact Hno].
      rewrite filter_all.
      * destruct d; reflexivity.
      * intros x Hx. apply negb_true_iff.
        destruct (DB.hasName n x) eqn:E; [|reflexivity].
        apply hasName_spec in E. exfalso. exact (Hno x Hx E).
    + assert (Hu : In u (DB.users d) /\ DB.hasName n u = true).
      { apply filter_In. rewrite Eg. left. reflexivity. }
      destruct Hu as [Hu En]. apply hasName_spec in En.
      assert (Hin : forall v, In v (List.filter (fun u => negb (DB.hasName n u))
                                      (DB.users d)) <->
                              In v (DB.users d) /\ v <> u).
      { intros v. rewrite filter_In. split.
        - intros [Hv Ev]. split; [exact Hv|]. intros ->.
          apply negb_true_iff in Ev. apply hasName_spec in En. congruence.
        - intros [Hv Ev]. split; [exact Hv|]. apply negb_true_iff.
          destruct (DB.hasName n v) eqn:E; [|reflexivity]. exfalso.
          apply hasName_spec in E. apply Ev.
          apply (unique_row DB.user_name (DB.users d)); auto.
          + apply (Schema.user_names d H).
          + congruence. }
      exists u. repeat split; auto.
      * now apply Hin.
      * now apply Hin.
      * now apply Hin.
      * apply findUserByKey_none. simpl.
        destruct (existsb (DB.hasKey (DB.user_key u)) _) eqn:E; [|reflexivity].
        exfalso. apply existsb_exists in E as (v & Hv & Ev).
        apply Hin in Hv as [Hv Hne]. apply hasKey_spec in Ev. apply Hne.
        apply (unique_row DB.user_key (DB.users d)); auto.
        apply (Schema.user_keys d H).
      * intros p Hp Ep.
        pose proof (existsb_false_In _ _ p Efk Hp) as Hf. cbv beta in Hf.
        rewrite ?Eg in Hf. simpl in Hf. apply orb_false_iff in Hf as [Hf _].
        apply Z.eqb_neq in Hf. congruence.
Qed.

Opaque DB.findUserByKey DB.getProjectID DB.getModelID DB.saveUsage.

(** ** The request's credential *)

Transparent Hdr.Get Str.TrimPrefix.

Lemma Get_Set_eq k v (h : Header) : Hdr.Get (Hdr.Set_ k v h) k = v.
Proof. unfold Hdr.Get, Hdr.Values, Hdr.Set_. now rewrite lookup_insert_eq. Qed.

Lemma Get_Set_ne k k' v (h : Header) :
  k <> k' -> Hdr.Get (Hdr.Set_ k v h) k' = Hdr.Get h k'.
Proof.
  intros H. unfold Hdr.Get, Hdr.Values, Hdr.Set_. now rewrite lookup_insert_ne.
Qed.

Lemma Set_Set k v w (h : Header) : Hdr.Set_ k v (Hdr.Set_ k w h) = Hdr.Set_ k v h.
Proof. unfold Hdr.Set_. apply insert_insert_eq. Qed.

Lemma TrimPrefix_Bearer k : Str.TrimPrefix ("Bearer " +:+ k) "Bearer " = k.
Proof. destruct k; vm_compute; reflexivity. Qed.

Lemma TrimPrefix_bare k :
  Str.HasPrefix k "Bearer " = false -> Str.TrimPrefix k "Bearer " = k.
Proof. intros H. unfold Str.TrimPrefix. now rewrite H. Qed.

Opaque Hdr.Get Str.TrimPrefix.

(** ** What a call does to the database *)

Section Keeping.

Variable P : DB.t -> Prop.

Lemma keeps_still {A : Type} (m : Handler A) :
  (forall s, db (snd (m s)) = db s) -> keeps P m.
Proof. intros H s Hs. now rewrite H. Qed.

Lemma keeps_ret {A : Type} (a : A) : keeps P (ret a).
Proof. now apply keeps_still. Qed.

Lemma keeps_exit {A : Type} : keeps P (@exit A).
Proof. now apply keeps_still. Qed.

Lemma keeps_bind {A B : Type} (m : Handler A) (k : A -> Handler B) :
  keeps P m -> (forall a, keeps P (k a)) -> keeps P (bind m k).
Proof.
  intros Hm Hk s Hs. unfold bind. specialize (Hm s Hs).
  destruct (m s) as [[a|] s1]; simpl in *; [now apply Hk | exact Hm].
Qed.

Lemma keeps_emit e : keeps P (emit e).
Proof. now apply keeps_still. Qed.

Lemma keeps_setHeader f : keeps P (setHeader f).
Proof. now apply keeps_still. Qed.

Lemma keeps_WriteHeader code : keeps P (WriteHeader code).
Proof.
  apply keeps_still. intros s. unfold WriteHeader.
  destruct (wroteHeader (rw s)); reflexivity.
Qed.

Lemma keeps_Write data : keeps P (Write data).
Proof.
  apply keeps_still. intros s. unfold Write, ensureHeader, bind, WriteHeader.
  destruct (wroteHeader (rw s)); reflexivity.
Qed.

Lemma keeps_Flush : keeps P Flush.
Proof.
  apply keeps_still. intros s. unfold Flush, ensureHeader, bind, WriteHeader.
  destruct (wroteHeader (rw s)); reflexivity.
Qed.

Lemma keeps_http_Error error code : keeps P (http_Error error code).
Proof.
  unfold http_Error.
  apply keeps_bind; [apply keeps_setHeader | intros _].
  apply keeps_bind; [apply keeps_setHeader | intros _].
  apply keeps_bind; [apply keeps_WriteHeader | intros _].
  apply keeps_Write.
Qed.

Lemma keeps_io_Copy body : keeps P (io_Copy body).
Proof.
  unfold io_Copy. apply keeps_bind; [apply keeps_emit|]. intros _.
  destruct body; [apply keeps_ret | apply keeps_Write].
Qed.

Lemma keeps_findUserByKey apiKey : keeps P (findUserByKey apiKey).
Proof. now apply keeps_still. Qed.

Lemma keeps_withConn {A : Type} (m : Handler A) : keeps P m -> keeps P (withConn m).
Proof.
  intros Hm s Hs. unfold withConn, bind. simpl.
  specialize (Hm (emitted EvGetConn s) Hs). unfold emitted, logged in Hm.
  destruct (m _) as [res s1]. exact Hm.
Qed.

Hypothesis storage : keptByStorage P.

Lemma keeps_getProjectID userID name : keeps P (getProjectID userID name).
Proof.
  intros s Hs. unfold getProjectID, bind, emit, setDB, ret. simpl.
  destruct storage as (H & _ & _). specialize (H (db s) userID name Hs).
  destruct (DB.getProjectID (db s) userID name) as [d res]. exact H.
Qed.

Lemma keeps_getModelID name : keeps P (getModelID name).
Proof.
  intros s Hs. unfold getModelID, bind, emit, setDB, ret. simpl.
  destruct storage as (_ & H & _). specialize (H (db s) name Hs).
  destruct (DB.getModelID (db s) name) as [d res]. exact H.
Qed.

Lemma keeps_saveUsage m p n : keeps P (saveUsage m p n).
Proof.
  intros s Hs. unfold saveUsage, bind, emit, setDB, ret. simpl.
  destruct storage as (_ & _ & H). specialize (H (db s) m p n Hs).
  destruct (DB.saveUsage (db s) m p n) as [d res]. exact H.
Qed.

End Keeping.

Create HintDb keeps.

#[local] Hint Resolve keeps_ret keeps_exit keeps_emit keeps_setHeader
  keeps_WriteHeader keeps_Write keeps_Flush keeps_http_Error keeps_io_Copy
  keeps_findUserByKey keeps_getProjectID keeps_getModelID keeps_saveUsage : keeps.

Ltac keeps_step :=
  match goal with
  | |- keeps _ (bind _ _) => apply keeps_bind; [| intros ?]
  | |- keeps _ (withConn _) => apply keeps_withConn
  | |- keeps _ (if ?c then _ else _) => destruct c
  | |- keeps _ (match ?x with _ => _ end) => destruct x
  | |- keeps _ _ => solve [auto with keeps]
  end.

Section KeepingCalls.

Variable P : DB.t -> Prop.
Hypothesis storage : keptByStorage P.

Variable chat_Unmarshal_request : string -> option Chat.completionRequestBody.
Variable prompt_Unmarshal_request : string -> option Prompt.completionRequestBody.
Variable json_Unmarshal_response : string -> option completionResponseBody.
Variable json_Unmarshal_streamed : string -> option Chat.completionResponseStreamedBody.
Variable tokenizer_ForModel : string -> option Codec.
Variable client_Do : Client.

Lemma keeps_tokenizePrompt tk messages n : keeps P (Chat.tokenizePrompt tk messages n).
Proof.
  revert n. induction messages as [|m rest IH]; intros n; simpl.
  - apply keeps_ret.
  - repeat keeps_step.
Qed.

Lemma keeps_relayLoop tk lines msg n :
  keeps P (Chat.relayLoop json_Unmarshal_streamed tk lines msg n).
Proof.
  revert msg n. induction lines as [|line rest IH]; intros msg n; simpl.
  - repeat keeps_step.
  - repeat keeps_step.
Qed.

Lemma keeps_proxySSEResponse resp pid mid crb tk :
  keeps P (Chat.proxySSEResponse json_Unmarshal_streamed resp pid mid crb tk).
Proof.
  unfold Chat.proxySSEResponse.
  apply keeps_bind; [now apply keeps_still|]. intros ok.
  repeat keeps_step.
  - apply keeps_tokenizePrompt.
  - apply keeps_relayLoop.
Qed.

Lemma keeps_proxyPlainResponse resp pid mid :
  keeps P (Chat.proxyPlainResponse json_Unmarshal_response resp pid mid).
Proof. unfold Chat.proxyPlainResponse. repeat keeps_step. Qed.

Lemma keeps_chat r key :
  keeps P (Chat.proxyRequest chat_Unmarshal_request json_Unmarshal_response
             json_Unmarshal_streamed tokenizer_ForModel client_Do r key).
Proof.
  unfold Chat.proxyRequest. repeat keeps_step.
  - apply keeps_proxySSEResponse.
  - apply keeps_proxyPlainResponse.
Qed.

Lemma keeps_prompt r key :
  keeps P (Prompt.proxyRequest prompt_Unmarshal_request json_Unmarshal_response
             tokenizer_ForModel client_Do r key).
Proof. unfold Prompt.proxyRequest. repeat keeps_step. Qed.

End KeepingCalls.

Section CallsAndTheDatabase.

Variable chat_Unmarshal_request : string -> option Chat.completionRequestBody.
Variable prompt_Unmarshal_request : string -> option Prompt.completionRequestBody.
Variable json_Unmarshal_response : string -> option completionResponseBody.
Variable json_Unmarshal_streamed : string -> option Chat.completionResponseStreamedBody.
Variable tokenizer_ForModel : string -> option Codec.
Variable client_Do : Client.

Let chat :=
  Chat.proxyRequest chat_Unmarshal_request json_Unmarshal_response
    json_Unmarshal_streamed tokenizer_ForModel client_Do.
Let prompt :=
  Prompt.proxyRequest prompt_Unmarshal_request json_Unmarshal_response
    tokenizer_ForModel client_Do.

(** X7. Whatever the request, the upstream and the path taken, a call of
    either variant leaves the schema's constraints in force. *)
Theorem calls_keep_schema r key s :
  Schema.holds (db s) ->
  Schema.holds (db (run (chat r key) s)) /\
  Schema.holds (db (run (prompt r key) s)).
Proof.
  intros H. split.
  - exact (keeps_chat _ storage_keeps_schema _ _ _ _ _ r key s H).
  - exact (keeps_prompt _ storage_keeps_schema _ _ _ _ r key s H).
Qed.

(** X8. A call of either variant never touches the users, and never
    removes or changes a project, a model or a usage record: each of
    these tables is, after the call, what it was before followed at most
    by new rows. *)
Theorem calls_only_append r key s :
  grownFrom (db s) (db (run (chat r key) s)) /\
  grownFrom (db s) (db (run (prompt r key) s)).
Proof.
  split.
  - exact (keeps_chat _ (storage_keeps_grownFrom (db s)) _ _ _ _ _ r key s
             (grownFrom_refl (db s))).
  - exact (keeps_prompt _ (storage_keeps_grownFrom (db s)) _ _ _ _ r key s
             (grownFrom_refl (db s))).
Qed.

End CallsAndTheDatabase.

(** ** The shape of a call *)

Lemma upstreamCalls_app a b : upstreamCalls (a ++ b) = (upstreamCalls a + upstreamCalls b)%nat.
Proof.
  induction a as [|e a IH]; simpl; [reflexivity|].
  destruct e; simpl; rewrite IH; reflexivity.
Qed.

Lemma quiet_upstreamCalls t : forallb isQuiet t = true -> upstreamCalls t = 0%nat.
Proof.
  induction t as [|e t IH]; simpl; [reflexivity|].
  intros H. apply andb_true_iff in H as [He Ht].
  destruct e; try discriminate; auto.
Qed.

Lemma quiet_no_conn t :
  forallb isQuiet t = true -> forallb (fun e => negb (isConn e)) t = true.
Proof.
  induction t as [|e t IH]; simpl; [reflexivity|].
  intros H. apply andb_true_iff in H as [He Ht].
  rewrite (IH Ht). destruct e; try discriminate; reflexivity.
Qed.

Lemma relay_saved t : forallb isRelay t = true -> saved t = [].
Proof.
  induction t as [|e t IH]; simpl; [reflexivity|].
  intros H. apply andb_true_iff in H as [He Ht].
  destruct e; try discriminate; auto.
Qed.

Lemma relays_ret {A : Type} (a : A) : relays (ret a).
Proof.
  intros s H. repeat split; auto. exists []. simpl. now rewrite app_nil_r.
Qed.

Lemma relays_exit {A : Type} : relays (@exit A).
Proof.
  intros s H. repeat split; auto. exists []. simpl. now rewrite app_nil_r.
Qed.

Lemma relays_bind {A B : Type} (m : Handler A) (k : A -> Handler B) :
  relays m -> (forall a, relays (k a)) -> relays (bind m k).
Proof.
  intros Hm Hk s H. unfold bind.
  destruct (Hm s H) as (H1 & D1 & t1 & E1 & Q1).
  destruct (m s) as [[a|] s1]; simpl in *.
  - destruct (Hk a s1 H1) as (H2 & D2 & t2 & E2 & Q2).
    split; [exact H2|]. split; [congruence|]. exists (t1 ++ t2).
    rewrite E2, E1, app_assoc, forallb_app, Q1, Q2. auto.
  - split; [exact H1|]. split; [exact D1|]. exists t1. auto.
Qed.

Lemma relays_emit e : isRelay e = true -> relays (emit e).
Proof.
  intros He s H. repeat split; auto. exists [e]. simpl. rewrite He. auto.
Qed.

Lemma relays_Write data : relays (Write data).
Proof.
  intros s H. rewrite Write_late by exact H. repeat split; auto.
  exists [EvBody data]. auto.
Qed.

Lemma relays_Flush : relays Flush.
Proof.
  intros s H. rewrite Flush_late by exact H. repeat split; auto.
  exists [EvFlush]. auto.
Qed.

Lemma relays_http_Error error code : relays (http_Error error code).
Proof.
  intros s H. rewrite http_Error_late by exact H. repeat split; auto.
  exists [EvSuperfluousWriteHeader code; EvBody (error +:+ nl)]. auto.
Qed.

Create HintDb relays.

#[local] Hint Resolve relays_ret relays_exit relays_Write relays_Flush
  relays_http_Error : relays.

Ltac relays_step :=
  match goal with
  | |- relays (bind _ _) => apply relays_bind; [| intros ?]
  | |- relays (emit _) => apply relays_emit; reflexivity
  | |- relays (if ?c then _ else _) => destruct c
  | |- relays (match ?x with _ => _ end) => destruct x
  | |- relays _ => solve [auto with relays]
  end.

Lemma gate_events r out uid model pre rest :
  gateTrace r out uid model = EvGetConn :: pre ++ rest ->
  forallb (fun e => negb (isWire e)) pre = true /\
  forallb (fun e => negb (isConn e)) pre = true /\
  statusLines pre = [] /\ saved pre = [] /\ (upstreamCalls pre <= 1)%nat /\
  forall o, In (EvDo o) pre -> o = out.
Proof.
  unfold gateTrace. intros H. injection H as H.
  assert (H1 : forallb (fun e => negb (isWire e)) (pre ++ rest) = true)
    by now rewrite <- H.
  assert (H2 : forallb (fun e => negb (isConn e)) (pre ++ rest) = true)
    by now rewrite <- H.
  assert (H3 : statusLines (pre ++ rest) = []) by now rewrite <- H.
  assert (H4 : saved (pre ++ rest) = []) by now rewrite <- H.
  assert (H5 : upstreamCalls (pre ++ rest) = 1%nat) by now rewrite <- H.
  assert (H6 : forall o, In (EvDo o) (pre ++ rest) -> o = out).
  { rewrite <- H. simpl. intros o Ho.
    repeat (destruct Ho as [Ho|Ho]; [first [discriminate | now injection Ho]|]).
    contradiction. }
  rewrite forallb_app in H1, H2. rewrite statusLines_app in H3.
  rewrite saved_app in H4. rewrite upstreamCalls_app in H5.
  apply andb_true_iff in H1 as [H1 _]. apply andb_true_iff in H2 as [H2 _].
  apply app_eq_nil in H3 as [H3 _]. apply app_eq_nil in H4 as [H4 _].
  repeat split; auto; [lia|].
  intros o Ho. apply H6, in_app_iff. auto.
Qed.

Lemma gate_Do r o uid model out :
  In (EvDo out) (gateTrace r o uid model) -> out = o.
Proof.
  unfold gateTrace. simpl. intros H.
  repeat (destruct H as [H|H]; [first [discriminate | now injection H]|]).
  contradiction.
Qed.

Lemma shape_answered_once client r out s t :
  callShape client r out s t ->
  exists pre code h post,
    t = pre ++ EvStatus code h :: post /\
    forallb (fun e => negb (isWire e)) pre = true /\
    statusLines post = [].
Proof.
  intros [(code & error & ->)
         |[(uid & model & pre & rest & code & error & Hg & ->)
          |(resp & uid & model & q & _ & -> & Qq & _)]].
  - exists [], code. do 2 eexists. split; [reflexivity|]. auto.
  - destruct (gate_events _ _ _ _ _ _ Hg) as (Hwire & _).
    exists (EvGetConn :: pre), code. do 2 eexists.
    split; [reflexivity|]. simpl. auto.
  - exists (gateTrace r out uid model), (Response.StatusCode resp). do 2 eexists.
    split; [reflexivity|]. split; [reflexivity|].
    rewrite statusLines_app, (quiet_statusLines _ Qq). reflexivity.
Qed.

Lemma shape_connection client r out s t :
  callShape client r out s t ->
  forallb (fun e => negb (isStorage e)) t = true \/
  exists mid, t = EvGetConn :: mid ++ [EvPutConn] /\
              forallb (fun e => negb (isConn e)) mid = true.
Proof.
  intros [(code & error & ->)
         |[(uid & model & pre & rest & code & error & Hg & ->)
          |(resp & uid & model & q & _ & -> & Qq & _)]].
  - left. reflexivity.
  - right. destruct (gate_events _ _ _ _ _ _ Hg) as (_ & Hconn & _).
    exists (pre ++ [EvStatus code (errorHeader (header (rw s)));
                    EvBody (error +:+ nl)]).
    split; [now rewrite <- app_assoc|].
    rewrite forallb_app, Hconn. reflexivity.
  - right.
    exists ([EvFindUserByKey (reqKey r); EvGetProjectID uid (projectLabel r);
             EvReadRequestBody; EvUnmarshalRequest (Request.Body r);
             EvForModel model; EvGetModelID model; EvDo out;
             EvStatus (Response.StatusCode resp)
               (copyHeader (Response.Header resp) (header (rw s)))] ++ q).
    split; [unfold gateTrace; simpl; reflexivity|].
    rewrite forallb_app. simpl. exact (quiet_no_conn _ Qq).
Qed.

Lemma shape_counts client r out s t :
  callShape client r out s t ->
  (upstreamCalls t <= 1)%nat /\
  (length (saved t) <= 1)%nat /\
  (saved t <> [] ->
   exists resp, upstreamResponse client t resp /\
                Response.StatusCode resp = StatusOK).
Proof.
  intros [(code & error & ->)
         |[(uid & model & pre & rest & code & error & Hg & ->)
          |(resp & uid & model & q & Hc & -> & Qq & Hlen & Hcode)]].
  - simpl. repeat split; auto. congruence.
  - destruct (gate_events _ _ _ _ _ _ Hg) as (_ & _ & _ & Hsaved & Hcalls & _).
    simpl. rewrite upstreamCalls_app, saved_app, Hsaved. simpl.
    repeat split; try lia. congruence.
  - rewrite !upstreamCalls_app, !saved_app, (quiet_upstreamCalls _ Qq). simpl.
    rewrite app_nil_r. split; [lia|]. split; [exact Hlen|].
    intros Hs. exists resp. split; [|auto].
    exists out. split; [|exact Hc].
    simpl. do 7 right. left. reflexivity.
Qed.

Lemma shape_Do client r out s t o :
  callShape client r out s t -> In (EvDo o) t -> o = out.
Proof.
  intros [(code & error & ->)
         |[(uid & model & pre & rest & code & error & Hg & ->)
          |(resp & uid & model & q & _ & -> & Qq & _)]].
  - simpl. intuition discriminate.
  - destruct (gate_events _ _ _ _ _ _ Hg) as (_ & _ & _ & _ & _ & HDo).
    simpl. intros [H|H]; [discriminate|].
    apply in_app_iff in H as [H|H]; [now apply HDo|].
    simpl in H. intuition discriminate.
  - rewrite !in_app_iff. intros [H|[H|[H|H]]].
    + exact (gate_Do _ _ _ _ _ H).
    + simpl in H. intuition discriminate.
    + exfalso. exact (quiet_no_Do _ _ Qq H).
    + simpl in H. intuition discriminate.
Qed.

Section Outcomes.

Variable json_Unmarshal_request : string -> option Chat.completionRequestBody.
Variable prompt_Unmarshal_request : string -> option Prompt.completionRequestBody.
Variable json_Unmarshal_response : string -> option completionResponseBody.
Variable json_Unmarshal_streamed : string -> option Chat.completionResponseStreamedBody.
Variable tokenizer_ForModel : string -> option Codec.
Variable client_Do : Client.

Let proxyRequest :=
  Chat.proxyRequest json_Unmarshal_request json_Unmarshal_response
    json_Unmarshal_streamed tokenizer_ForModel client_Do.
Let promptRequest :=
  Prompt.proxyRequest prompt_Unmarshal_request json_Unmarshal_response
    tokenizer_ForModel client_Do.
Let relayLoop := Chat.relayLoop json_Unmarshal_streamed.
Let afterStatus :=
  Chat.afterStatus json_Unmarshal_response json_Unmarshal_streamed.

Lemma relays_tokenizePrompt tk messages n : relays (Chat.tokenizePrompt tk messages n).
Proof.
  revert n. induction messages as [|m rest IH]; intros n; simpl.
  - apply relays_ret.
  - repeat relays_step.
Qed.

Lemma relays_relayLoop tk lines msg n : relays (relayLoop tk lines msg n).
Proof.
  unfold relayLoop. revert msg n.
  induction lines as [|line rest IH]; intros msg n; simpl.
  - repeat relays_step.
  - repeat relays_step.
Qed.

Lemma savesAtMost_relays {A : Type} (m : Handler A) n : relays m -> savesAtMost n m.
Proof.
  intros Hm s H. destruct (Hm s H) as (H1 & _ & t & E & Q).
  split; [exact H1|]. exists t. split; [exact E|].
  rewrite (relay_saved _ Q). simpl. lia.
Qed.

Lemma savesAtMost_bind {A B : Type} (m : Handler A) (k : A -> Handler B) n :
  savesAtMost 0 m -> (forall a, savesAtMost n (k a)) -> savesAtMost n (bind m k).
Proof.
  intros Hm Hk s H. unfold bind.
  destruct (Hm s H) as (H1 & t1 & E1 & Q1).
  destruct (m s) as [[a|] s1]; simpl in *.
  - destruct (Hk a s1 H1) as (H2 & t2 & E2 & Q2).
    split; [exact H2|]. exists (t1 ++ t2).
    rewrite E2, E1, app_assoc, saved_app, length_app. split; [reflexivity | lia].
  - split; [exact H1|]. exists t1. split; [exact E1 | lia].
Qed.

Lemma savesAtMost_saveUsage {B : Type} m p n (k : bool -> Handler B) :
  (forall ok, savesAtMost 0 (k ok)) -> savesAtMost 1 (bind (saveUsage m p n) k).
Proof.
  intros Hk s H. unfold bind, saveUsage, bind, emit, setDB, ret. simpl.
  destruct (DB.saveUsage (db s) m p n) as [d ok]. simpl.
  match goal with |- context [k ok ?st] => destruct (Hk ok st H) as (H2 & t2 & E2 & Q2) end.
  split; [exact H2|]. exists (EvSaveUsage m p n :: t2).
  rewrite E2. simpl. rewrite <- app_assoc. split; [reflexivity | simpl; lia].
Qed.

Lemma savesAtMost_emit e n : saved [e] = [] -> savesAtMost n (emit e).
Proof.
  intros He s H. split; [exact H|]. exists [e]. split; [reflexivity|].
  rewrite He. simpl. lia.
Qed.

Lemma savesAtMost_setHeader f n : savesAtMost n (setHeader f).
Proof.
  intros s H. split; [exact H|]. exists []. simpl. rewrite app_nil_r.
  split; [reflexivity | lia].
Qed.

Lemma savesAtMost_io_Copy body n : savesAtMost n (io_Copy body).
Proof.
  unfold io_Copy. apply savesAtMost_bind; [now apply savesAtMost_emit|].
  intros _. destruct body;
    apply savesAtMost_relays; [apply relays_ret | apply relays_Write].
Qed.

Lemma relays_WriteHeader code : relays (WriteHeader code).
Proof.
  intros s H. rewrite WriteHeader_late by exact H. repeat split; auto.
  exists [EvSuperfluousWriteHeader code]. auto.
Qed.

Lemma relays_fail {A : Type} error code :
  relays (bind (http_Error error code) (fun _ => @exit A)).
Proof. apply relays_bind; [apply relays_http_Error | intros _; apply relays_exit]. Qed.

Lemma savesAtMost_proxySSEResponse resp pid mid crb tk :
  savesAtMost 1 (Chat.proxySSEResponse json_Unmarshal_streamed resp pid mid crb tk).
Proof.
  unfold Chat.proxySSEResponse.
  apply savesAtMost_bind.
  { intros s H. split; [exact H|]. exists []. simpl. rewrite app_nil_r.
    split; [reflexivity | lia]. }
  intros ok. destruct (negb ok).
  { apply savesAtMost_relays, relays_fail. }
  do 3 (apply savesAtMost_bind; [apply savesAtMost_setHeader | intros _]).
  apply savesAtMost_bind; [apply savesAtMost_relays, relays_WriteHeader | intros _].
  apply savesAtMost_bind; [apply savesAtMost_relays, relays_Flush | intros _].
  apply savesAtMost_bind; [apply savesAtMost_relays, relays_tokenizePrompt | intros n].
  apply savesAtMost_bind; [apply savesAtMost_relays, relays_relayLoop | intros n'].
  apply savesAtMost_saveUsage. intros _. apply savesAtMost_relays, relays_ret.
Qed.

Lemma savesAtMost_proxyPlainResponse resp pid mid :
  savesAtMost 1 (Chat.proxyPlainResponse json_Unmarshal_response resp pid mid).
Proof.
  unfold Chat.proxyPlainResponse.
  apply savesAtMost_bind; [now apply savesAtMost_emit | intros _].
  destruct (Response.BodyFails resp).
  { apply savesAtMost_relays, relays_fail. }
  apply savesAtMost_bind; [now apply savesAtMost_emit | intros _].
  destruct (json_Unmarshal_response (Response.Body resp)) as [crespb|].
  2:{ apply savesAtMost_relays, relays_fail. }
  apply savesAtMost_saveUsage. intros _. apply savesAtMost_relays, relays_Write.
Qed.

(** What follows the status line writes at most one usage record, and
    none unless the upstream's status was 200. *)
Lemma savesAtMost_afterStatus resp pid mid crb tk :
  savesAtMost (if Response.StatusCode resp =? StatusOK then 1 else 0)
    (afterStatus resp pid mid crb tk).
Proof.
  unfold afterStatus, Chat.afterStatus.
  destruct (Response.StatusCode resp =? StatusOK); simpl.
  - destruct (Chat.Stream crb);
      [apply savesAtMost_proxySSEResponse | apply savesAtMost_proxyPlainResponse].
  - apply savesAtMost_bind; [apply savesAtMost_io_Copy | intros _].
    apply savesAtMost_relays, relays_exit.
Qed.

(** Every call is of one of three kinds: rejected by a guard, before
    the storage is touched; rejected at one of the gates, between taking
    the connection and giving it back; or answered by the upstream. *)
Lemma proxyRequest_outcome r key s :
  fresh s ->
  let s' := run (proxyRequest r key) s in
  let out := Chat.outboundRequest r key in
  let eh := errorHeader (header (rw s)) in
  (exists code error,
     db s' = db s /\
     trace s' = [EvStatus code eh; EvBody (error +:+ nl)]) \/
  (exists uid model pre rest code error,
     gateTrace r out uid model = EvGetConn :: pre ++ rest /\
     (upstreamCalls pre = 1%nat -> exists err, client_Do out = inr err) /\
     trace s' =
       EvGetConn :: pre ++ [EvStatus code eh; EvBody (error +:+ nl); EvPutConn]) \/
  (exists resp uid pid crb tk mid d2,
     client_Do out = inl resp /\
     s' = putConn (run (afterStatus resp pid mid crb tk)
                     (atStatus r out s resp d2 uid (Chat.Model crb)))).
Proof.
  intros [Hw Ht]. cbv zeta. unfold proxyRequest, Chat.proxyRequest, run.
  destruct (String.eqb (Request.Method r) "POST"); simpl.
  2:{ unfold bind. fail_gate Hw Ht. left. eauto. }
  destruct (String.eqb (Request.RawQuery r) EmptyString); simpl.
  2:{ unfold bind. fail_gate Hw Ht. left. eauto. }
  right.
  unfold withConn, bind, findUserByKey, emit, bind. simpl.
  fold (reqKey r). fold (projectLabel r).
  destruct (DB.findUserByKey (db s) (reqKey r)) as [[uid uname] found] eqn:Hu.
  destruct found; simpl.
  2:{ fail_gate Hw Ht. left.
      exists uid, EmptyString, [EvFindUserByKey (reqKey r)]. do 3 eexists.
      split; [reflexivity|]. split; [discriminate | reflexivity]. }
  unfold getProjectID, bind, emit, setDB, ret. simpl.
  destruct (DB.getProjectID (db s) uid (projectLabel r)) as [d1 [pid|]] eqn:Hp; simpl.
  2:{ fail_gate Hw Ht. left.
      exists uid, EmptyString,
        [EvFindUserByKey (reqKey r); EvGetProjectID uid (projectLabel r)].
      do 3 eexists. split; [reflexivity|]. split; [discriminate | reflexivity]. }
  destruct (Request.BodyFails r) eqn:Hb; simpl.
  { fail_gate Hw Ht. left.
    exists uid, EmptyString,
      [EvFindUserByKey (reqKey r); EvGetProjectID uid (projectLabel r);
       EvReadRequestBody].
    do 3 eexists. split; [reflexivity|]. split; [discriminate | reflexivity]. }
  destruct (json_Unmarshal_request (Request.Body r)) as [crb|] eqn:Hj; simpl.
  2:{ fail_gate Hw Ht. left.
      exists uid, EmptyString,
        [EvFindUserByKey (reqKey r); EvGetProjectID uid (projectLabel r);
         EvReadRequestBody; EvUnmarshalRequest (Request.Body r)].
      do 3 eexists. split; [reflexivity|]. split; [discriminate | reflexivity]. }
  destruct (tokenizer_ForModel (Chat.Model crb)) as [tk|] eqn:Htk; simpl.
  2:{ fail_gate Hw Ht. left.
      exists uid, (Chat.Model crb),
        [EvFindUserByKey (reqKey r); EvGetProjectID uid (projectLabel r);
         EvReadRequestBody; EvUnmarshalRequest (Request.Body r);
         EvForModel (Chat.Model crb)].
      do 3 eexists. split; [reflexivity|]. split; [discriminate | reflexivity]. }
  unfold getModelID, bind, emit, setDB, ret. simpl.
  destruct (DB.getModelID d1 (Chat.Model crb)) as [d2 [mid|]] eqn:Hmid; simpl.
  2:{ fail_gate Hw Ht. left.
      exists uid, (Chat.Model crb),
        [EvFindUserByKey (reqKey r); EvGetProjectID uid (projectLabel r);
         EvReadRequestBody; EvUnmarshalRequest (Request.Body r);
         EvForModel (Chat.Model crb); EvGetModelID (Chat.Model crb)].
      do 3 eexists. split; [reflexivity|]. split; [discriminate | reflexivity]. }
  destruct (client_Do (Chat.outboundRequest r key)) as [resp|err] eqn:Hc; simpl.
  2:{ fail_gate Hw Ht. left.
      exists uid, (Chat.Model crb),
        [EvFindUserByKey (reqKey r); EvGetProjectID uid (projectLabel r);
         EvReadRequestBody; EvUnmarshalRequest (Request.Body r);
         EvForModel (Chat.Model crb); EvGetModelID (Chat.Model crb);
         EvDo (Chat.outboundRequest r key)].
      exists [], StatusBadGateway, ("Failed to read response from OpenAI: " +:+ err).
      split; [reflexivity|]. split; [eauto | reflexivity]. }
  right. exists resp, uid, pid, crb, tk, mid, d2. split; [reflexivity|].
  rewrite WriteHeader_fresh by exact Hw. simpl. rewrite Ht. simpl.
  match goal with
  | |- context [ (let (_, _) := ?f ?st in _) ] =>
      change f with (afterStatus resp pid mid crb tk);
      change st with
        (atStatus r (Chat.outboundRequest r key) s resp d2 uid (Chat.Model crb))
  end.
  unfold putConn, run.
  destruct (afterStatus resp pid mid crb tk _) as [res s4]. reflexivity.
Qed.

Lemma chat_shape r key s :
  fresh s ->
  callShape client_Do r (Chat.outboundRequest r key) s
    (trace (run (proxyRequest r key) s)).
Proof.
  intros Hf.
  destruct (proxyRequest_outcome r key s Hf)
    as [(code & error & _ & E)
       |[(uid & model & pre & rest & code & error & Hg & _ & E)
        |(resp & uid & pid & crb & tk & mid & d2 & Hc & E)]].
  - left. eauto.
  - right. left. exists uid, model, pre, rest, code, error. auto.
  - right. right. rewrite E.
    set (s3 := atStatus r (Chat.outboundRequest r key) s resp d2 uid (Chat.Model crb)).
    destruct (quiet_afterStatus json_Unmarshal_response json_Unmarshal_streamed
                resp pid mid crb tk s3 eq_refl) as (_ & q & Eq & Qq).
    destruct (savesAtMost_afterStatus resp pid mid crb tk s3 eq_refl)
      as (_ & q' & Eq' & Hlen).
    assert (q' = q) as ->.
    { unfold afterStatus in Eq'. rewrite Eq in Eq'. now apply app_inv_head in Eq'. }
    exists resp, uid, (Chat.Model crb), q. split; [exact Hc|].
    split.
    { unfold putConn, run, afterStatus. cbn [trace]. rewrite Eq.
      unfold s3, atStatus. cbn [trace]. now rewrite <- !app_assoc. }
    split; [exact Qq|].
    destruct (Response.StatusCode resp =? StatusOK) eqn:Ecode.
    + split; [exact Hlen|]. intros _. now apply Z.eqb_eq.
    + assert (saved q = []) as ->
        by (destruct (saved q); [reflexivity | simpl in Hlen; lia]).
      simpl. split; [lia | congruence].
Qed.

Lemma prompt_shape r key s :
  fresh s ->
  callShape client_Do r (Prompt.outboundRequest r key) s
    (trace (run (promptRequest r key) s)).
Proof.
  intros [Hw Ht]. unfold promptRequest, Prompt.proxyRequest, run.
  destruct (String.eqb (Request.Method r) "POST"); simpl.
  2:{ unfold bind. fail_gate Hw Ht. left. eauto. }
  destruct (String.eqb (Request.RawQuery r) EmptyString); simpl.
  2:{ unfold bind. fail_gate Hw Ht. left. eauto. }
  right.
  unfold withConn, bind, findUserByKey, emit, bind. simpl.
  fold (reqKey r). fold (projectLabel r).
  destruct (DB.findUserByKey (db s) (reqKey r)) as [[uid uname] found] eqn:Hu.
  destruct found; simpl.
  2:{ fail_gate Hw Ht. left.
      exists uid, EmptyString, [EvFindUserByKey (reqKey r)]. do 3 eexists.
      split; reflexivity. }
  unfold getProjectID, bind, emit, setDB, ret. simpl.
  destruct (DB.getProjectID (db s) uid (projectLabel r)) as [d1 [pid|]] eqn:Hp; simpl.
  2:{ fail_gate Hw Ht. left.
      exists uid, EmptyString,
        [EvFindUserByKey (reqKey r); EvGetProjectID uid (projectLabel r)].
      do 3 eexists. split; reflexivity. }
  destruct (Request.BodyFails r) eqn:Hb; simpl.
  { fail_gate Hw Ht. left.
    exists uid, EmptyString,
      [EvFindUserByKey (reqKey r); EvGetProjectID uid (projectLabel r);
       EvReadRequestBody].
    do 3 eexists. split; reflexivity. }
  destruct (prompt_Unmarshal_request (Request.Body r)) as [crb|] eqn:Hj; simpl.
  2:{ fail_gate Hw Ht. left.
      exists uid, EmptyString,
        [EvFindUserByKey (reqKey r); EvGetProjectID uid (projectLabel r);
         EvReadRequestBody; EvUnmarshalRequest (Request.Body r)].
      do 3 eexists. split; reflexivity. }
  destruct (Prompt.Stream crb); simpl.
  { fail_gate Hw Ht. left.
    exists uid, EmptyString,
      [EvFindUserByKey (reqKey r); EvGetProjectID uid (projectLabel r);
       EvReadRequestBody; EvUnmarshalRequest (Request.Body r)].
    do 3 eexists. split; reflexivity. }
  destruct (tokenizer_ForModel (Prompt.Model crb)) as [tk|] eqn:Htk; simpl.
  2:{ fail_gate Hw Ht. left.
      exists uid, (Prompt.Model crb),
        [EvFindUserByKey (reqKey r); EvGetProjectID uid (projectLabel r);
         EvReadRequestBody; EvUnmarshalRequest (Request.Body r);
         EvForModel (Prompt.Model crb)].
      do 3 eexists. split; reflexivity. }
  unfold getModelID, bind, emit, setDB, ret. simpl.
  destruct (DB.getModelID d1 (Prompt.Model crb)) as [d2 [mid|]] eqn:Hmid; simpl.
  2:{ fail_gate Hw Ht. left.
      exists uid, (Prompt.Model crb),
        [EvFindUserByKey (reqKey r); EvGetProjectID uid (projectLabel r);
         EvReadRequestBody; EvUnmarshalRequest (Request.Body r);
         EvForModel (Prompt.Model crb); EvGetModelID (Prompt.Model crb)].
      do 3 eexists. split; reflexivity. }
  destruct (client_Do (Prompt.outboundRequest r key)) as [resp|err] eqn:Hc; simpl.
  2:{ fail_gate Hw Ht. left.
      exists uid, (Prompt.Model crb),
        [EvFindUserByKey (reqKey r); EvGetProjectID uid (projectLabel r);
         EvReadRequestBody; EvUnmarshalRequest (Request.Body r);
         EvForModel (Prompt.Model crb); EvGetModelID (Prompt.Model crb);
         EvDo (Prompt.outboundRequest r key)].
      exists [], StatusBadGateway, ("Failed to read response from OpenAI: " +:+ err).
      split; reflexivity. }
  right. rewrite WriteHeader_fresh by exact Hw. simpl. rewrite Ht. simpl.
  destruct (Z.eqb_spec (Response.StatusCode resp) StatusOK) as [Ecode|Ecode]; simpl.
  - destruct (Response.BodyFails resp); simpl.
    {       exists resp, uid, (Prompt.Model crb),
        [EvReadAll; EvSuperfluousWriteHeader StatusBadGateway;
         EvBody ("failed to read response" +:+ nl)].
      repeat split; auto; simpl; try lia; congruence. }
    destruct (json_Unmarshal_response (Response.Body resp)) as [crespb|]; simpl.
    2:{         exists resp, uid, (Prompt.Model crb),
          [EvReadAll; EvUnmarshalResponse (Response.Body resp);
           EvSuperfluousWriteHeader StatusBadGateway;
           EvBody ("failed to parse response" +:+ nl)].
        repeat split; auto; simpl; try lia; congruence. }
    unfold saveUsage, bind, emit, setDB, ret. simpl.
    destruct (DB.saveUsage d2 mid pid (TotalTokens crespb)) as [d3 ok]. simpl.
        exists resp, uid, (Prompt.Model crb),
      [EvReadAll; EvUnmarshalResponse (Response.Body resp);
       EvSaveUsage mid pid (TotalTokens crespb); EvBody (Response.Body resp)].
    repeat split; auto; simpl; try lia; congruence.
  - unfold io_Copy, bind, emit. simpl.
    destruct (Response.Body resp) as [|c body]; simpl.
    + exists resp, uid, (Prompt.Model crb), [EvCopy].
      repeat split; auto; simpl; try lia; congruence.
    +       exists resp, uid, (Prompt.Model crb), [EvCopy; EvBody (String c body)].
      repeat split; auto; simpl; try lia; congruence.
Qed.

(** X9. Every call, of either variant, is answered, and answered once:
    whatever the request and whatever happens on the way, exactly one
    status line goes to the client, and nothing goes to the client
    before it. *)
Theorem call_answered_once r key s :
  fresh s ->
  forall t,
    t = trace (run (proxyRequest r key) s) \/
    t = trace (run (promptRequest r key) s) ->
    exists pre code h post,
      t = pre ++ EvStatus code h :: post /\
      forallb (fun e => negb (isWire e)) pre = true /\
      statusLines post = [].
Proof.
  intros Hf t [->| ->].
  - exact (shape_answered_once _ _ _ _ _ (chat_shape r key s Hf)).
  - exact (shape_answered_once _ _ _ _ _ (prompt_shape r key s Hf)).
Qed.

(** X10. The connection is given back on every path, in either variant: a
    call either ends before the storage is touched, or takes the
    connection first, gives it back last, and does neither in between. *)
Theorem connection_always_returned r key s :
  fresh s ->
  forall t,
    t = trace (run (proxyRequest r key) s) \/
    t = trace (run (promptRequest r key) s) ->
    forallb (fun e => negb (isStorage e)) t = true \/
    exists mid, t = EvGetConn :: mid ++ [EvPutConn] /\
                forallb (fun e => negb (isConn e)) mid = true.
Proof.
  intros Hf t [->| ->].
  - exact (shape_connection _ _ _ _ _ (chat_shape r key s Hf)).
  - exact (shape_connection _ _ _ _ _ (prompt_shape r key s Hf)).
Qed.

(** X11. A call of either variant reaches the upstream at most once and
    writes at most one usage record; it writes one only if the upstream
    answered, with status 200. *)
Theorem one_upstream_call_one_record r key s :
  fresh s ->
  forall t,
    t = trace (run (proxyRequest r key) s) \/
    t = trace (run (promptRequest r key) s) ->
    (upstreamCalls t <= 1)%nat /\
    (length (saved t) <= 1)%nat /\
    (saved t <> [] ->
     exists resp, upstreamResponse client_Do t resp /\
                  Response.StatusCode resp = StatusOK).
Proof.
  intros Hf t [->| ->].
  - exact (shape_counts _ _ _ _ _ (chat_shape r key s Hf)).
  - exact (shape_counts _ _ _ _ _ (prompt_shape r key s Hf)).
Qed.

(** ** Rejections, one by one *)

(** X12. A request whose method is not POST is answered 400 with the text
    of the method guard, and that is all the call does. *)
Theorem method_rejected r key s :
  Request.Method r <> "POST" ->
  fresh s ->
  let s' := run (proxyRequest r key) s in
  trace s' = [EvStatus StatusBadRequest (errorHeader (header (rw s)));
              EvBody ("Only POST requests are supported" +:+ nl)] /\
  db s' = db s.
Proof.
  intros Hm [Hw Ht]. cbv zeta. unfold proxyRequest, Chat.proxyRequest, run.
  destruct (String.eqb_spec (Request.Method r) "POST") as [E|_]; [contradiction|].
  simpl. unfold bind. fail_gate Hw Ht. auto.
Qed.

(** X13. A POST without query string whose key is that of no user is
    answered 401; the user lookup is the only storage access, and the
    database is as it was: no project row, no model row. *)
Theorem unknown_key_rejected r key s :
  Request.Method r = "POST" ->
  Request.RawQuery r = EmptyString ->
  fresh s ->
  (forall u, In u (DB.users (db s)) -> DB.user_key u <> reqKey r) ->
  let s' := run (proxyRequest r key) s in
  trace s' = [EvGetConn; EvFindUserByKey (reqKey r);
              EvStatus StatusUnauthorized (errorHeader (header (rw s)));
              EvBody ("Invalid API key" +:+ nl); EvPutConn] /\
  db s' = db s.
Proof.
  intros Hm Hq [Hw Ht] Hno. cbv zeta.
  assert (Hu : DB.findUserByKey (db s) (reqKey r) = (0, EmptyString, false)).
  { apply findUserByKey_none.
    destruct (existsb (DB.hasKey (reqKey r)) (DB.users (db s))) eqn:E; [|reflexivity].
    apply existsb_exists in E as (u & Hu & Eu). apply hasKey_spec in Eu.
    exfalso. exact (Hno u Hu Eu). }
  unfold proxyRequest, Chat.proxyRequest, run.
  rewrite Hm, Hq. rewrite !String.eqb_refl. simpl.
  unfold withConn, bind, findUserByKey, emit, bind. simpl.
  fold (reqKey r). rewrite Hu. simpl.
  fail_gate Hw Ht. auto.
Qed.

(** X14. A request that names a model the tokenizer does not know is
    answered 400 with the name of the model.  The project row is there
    by then, but no model row is created, the upstream is not called and
    no usage is recorded. *)
Theorem unknown_model_rejected r key s uid uname crb :
  Request.Method r = "POST" ->
  Request.RawQuery r = EmptyString ->
  fresh s ->
  DB.findUserByKey (db s) (reqKey r) = (uid, uname, true) ->
  Request.BodyFails r = false ->
  json_Unmarshal_request (Request.Body r) = Some crb ->
  tokenizer_ForModel (Chat.Model crb) = None ->
  let s' := run (proxyRequest r key) s in
  trace s' =
    [EvGetConn; EvFindUserByKey (reqKey r); EvGetProjectID uid (projectLabel r);
     EvReadRequestBody; EvUnmarshalRequest (Request.Body r);
     EvForModel (Chat.Model crb);
     EvStatus StatusBadRequest (errorHeader (header (rw s)));
     EvBody (("failed to find model " +:+ Chat.Model crb) +:+ nl); EvPutConn] /\
  existsb (DB.isProject uid (projectLabel r)) (DB.projects (db s')) = true /\
  DB.models (db s') = DB.models (db s) /\
  DB.usage (db s') = DB.usage (db s).
Proof.
  intros Hm Hq [Hw Ht] Hu Hb Hj Htk. cbv zeta.
  destruct (getProjectID_user (db s) uid (projectLabel r)
              (findUserByKey_found _ _ _ _ Hu)) as (d1 & pid & Hp).
  destruct (getProjectID_spec _ _ _ _ _ Hp) as (_ & Hex & _ & Hmod & Husage & _).
  unfold proxyRequest, Chat.proxyRequest, run.
  rewrite Hm, Hq. rewrite !String.eqb_refl. simpl.
  unfold withConn, bind, findUserByKey, emit, bind. simpl.
  fold (reqKey r). fold (projectLabel r). rewrite Hu. simpl.
  unfold getProjectID, bind, emit, setDB, ret. simpl. rewrite Hp. simpl.
  rewrite Hb. simpl. rewrite Hj. simpl. rewrite Htk. simpl.
  fail_gate Hw Ht. auto.
Qed.

(** X15. When the upstream cannot be reached, the client is answered 502
    with the text of the transport error.  The call has created the rows
    of the project and of the model by then; it records no usage. *)
Theorem upstream_failure_reported r key s uid uname crb tk err :
  Request.Method r = "POST" ->
  Request.RawQuery r = EmptyString ->
  fresh s ->
  DB.findUserByKey (db s) (reqKey r) = (uid, uname, true) ->
  Request.BodyFails r = false ->
  json_Unmarshal_request (Request.Body r) = Some crb ->
  tokenizer_ForModel (Chat.Model crb) = Some tk ->
  client_Do (Chat.outboundRequest r key) = inr err ->
  let s' := run (proxyRequest r key) s in
  trace s' =
    gateTrace r (Chat.outboundRequest r key) uid (Chat.Model crb) ++
    [EvStatus StatusBadGateway (errorHeader (header (rw s)));
     EvBody (("Failed to read response from OpenAI: " +:+ err) +:+ nl); EvPutConn] /\
  existsb (DB.isProject uid (projectLabel r)) (DB.projects (db s')) = true /\
  existsb (DB.isModel (Chat.Model crb)) (DB.models (db s')) = true /\
  DB.usage (db s') = DB.usage (db s).
Proof.
  intros Hm Hq [Hw Ht] Hu Hb Hj Htk Hc. cbv zeta.
  destruct (getProjectID_user (db s) uid (projectLabel r)
              (findUserByKey_found _ _ _ _ Hu)) as (d1 & pid & Hp).
  destruct (getProjectID_spec _ _ _ _ _ Hp) as (_ & Hex & _ & _ & Husage & _).
  destruct (DB.getModelID d1 (Chat.Model crb)) as [d2 mido] eqn:Hmid.
  destruct (getModelID_model _ _ _ _ Hmid) as (mid & -> & Hmodel & Hproj).
  destruct (getModelID_spec _ _ _ _ Hmid) as (_ & _ & _ & Husage2).
  unfold proxyRequest, Chat.proxyRequest, run.
  rewrite Hm, Hq. rewrite !String.eqb_refl. simpl.
  unfold withConn, bind, findUserByKey, emit, bind. simpl.
  fold (reqKey r). fold (projectLabel r). rewrite Hu. simpl.
  unfold getProjectID, bind, emit, setDB, ret. simpl. rewrite Hp. simpl.
  rewrite Hb. simpl. rewrite Hj. simpl. rewrite Htk. simpl.
  unfold getModelID, bind, emit, setDB, ret. simpl. rewrite Hmid. simpl.
  rewrite Hc. simpl.
  fail_gate Hw Ht. repeat split; auto; congruence.
Qed.

(** ** The upstream call *)

(** X16. What the upstream is sent: a POST to the completions URL with the
    client's body and the client's headers, except that the values of
    [Authorization] are replaced by the proxy's own key.  The client's
    credential does not leave the proxy in that header. *)
Theorem upstream_gets_proxy_key r key s out :
  fresh s ->
  In (EvDo out) (trace (run (proxyRequest r key) s)) \/
  In (EvDo out) (trace (run (promptRequest r key) s)) ->
  OutRequest.Method out = "POST" /\
  OutRequest.URL out = "https://api.openai.com/v1/chat/completions" /\
  OutRequest.Body out = Request.Body r /\
  Hdr.Values (OutRequest.Header out) "Authorization" = ["Bearer " +:+ key] /\
  forall k, k <> "Authorization" ->
            Hdr.Values (OutRequest.Header out) k = Hdr.Values (Request.Header r) k.
Proof.
  intros Hf Hin.
  assert (out = Chat.outboundRequest r key) as ->.
  { destruct Hin as [Hin|Hin].
    - exact (shape_Do _ _ _ _ _ _ (chat_shape r key s Hf) Hin).
    - exact (shape_Do _ _ _ _ _ _ (prompt_shape r key s Hf) Hin). }
  unfold Chat.outboundRequest. simpl. repeat split.
  - unfold Hdr.Values, Hdr.Set_. now rewrite lookup_insert_eq.
  - intros k Hk. unfold Hdr.Values, Hdr.Set_. now rewrite lookup_insert_ne.
Qed.

Lemma db_run_withConn {A : Type} (m : Handler A) s :
  db (run (withConn m) s) = db (run m (emitted EvGetConn s)).
Proof.
  unfold run, withConn, bind. simpl. unfold emitted, logged.
  destruct (m _) as [res s1]. reflexivity.
Qed.

Lemma run_bind {A B : Type} (m : Handler A) (k : A -> Handler B) s a s1 :
  m s = (Some a, s1) -> run (bind m k) s = run (k a) s1.
Proof. intros H. unfold run, bind. now rewrite H. Qed.

#[local] Hint Resolve storage_keeps_grownFrom : keeps.

(** X17. A user who has been served cannot be deleted: once a call has
    passed the credential check, the user has a project row, and
    [deleteUser] fails on the foreign key, however the call ended. *)
Theorem served_user_cannot_be_deleted r key s uid uname :
  Request.Method r = "POST" ->
  Request.RawQuery r = EmptyString ->
  DB.findUserByKey (db s) (reqKey r) = (uid, uname, true) ->
  let d' := db (run (proxyRequest r key) s) in
  DB.deleteUser d' uname = (d', None).
Proof.
  intros Hm Hq Hu. cbv zeta.
  destruct (getProjectID_user (db s) uid (projectLabel r)
              (findUserByKey_found _ _ _ _ Hu)) as (d1 & pid & Hp).
  destruct (getProjectID_spec _ _ _ _ _ Hp) as (_ & Hex & Husers & _).
  apply findUserByKey_inv in Hu as Hrow. destruct Hrow as (u & Hin & _ & Hid & Hname).
  assert (Hg : grownFrom d1 (db (run (proxyRequest r key) s))).
  { unfold proxyRequest, Chat.proxyRequest.
    rewrite Hm, Hq. rewrite !String.eqb_refl. cbn [negb].
    rewrite db_run_withConn. cbv zeta.
    fold (reqKey r). fold (projectLabel r).
    erewrite run_bind.
    2:{ unfold findUserByKey, bind, emit. simpl. rewrite Hu. reflexivity. }
    cbv beta iota. cbn [negb].
    erewrite run_bind.
    2:{ unfold getProjectID, bind, emit, setDB, ret. simpl. rewrite Hp. reflexivity. }
    cbv beta iota.
    match goal with
    | |- grownFrom d1 (db (run ?m ?st)) =>
        assert (Hk : keeps (grownFrom d1) m)
    end.
    { repeat keeps_step.
      - apply keeps_proxySSEResponse, storage_keeps_grownFrom.
      - apply keeps_proxyPlainResponse, storage_keeps_grownFrom. }
    apply Hk. simpl. apply grownFrom_refl. }
  destruct Hg as (Hgu & Hgp & _).
  unfold DB.deleteUser.
  set (d' := db (run (proxyRequest r key) s)) in *.
  assert (E : existsb
                (fun p => existsb (fun u => DB.user_id u =? DB.project_user p)
                            (List.filter (DB.hasName uname) (DB.users d')))
                (DB.projects d') = true).
  { apply existsb_exists in Hex as (p & Hp1 & Hp2).
    apply existsb_exists. exists p. split; [exact (prefix_In _ _ _ Hgp Hp1)|].
    apply existsb_exists. exists u. split.
    - apply filter_In. split; [now rewrite Hgu, Husers|]. now apply hasName_spec.
    - unfold DB.isProject in Hp2. apply andb_true_iff in Hp2 as [Hp2 _].
      apply Z.eqb_eq in Hp2. apply Z.eqb_eq. congruence. }
  now rewrite E.
Qed.

(** ** The streaming relay off its main path *)





(** ** The two variants *)


(** X21. The scheme of the credential is optional: a request whose
    [Authorization] header is the bare key is served exactly as the same
    request with [Bearer ] before the key, by either variant. *)
Theorem bearer_scheme_is_optional r k key s :
  Str.HasPrefix k "Bearer " = false ->
  let sent v :=
    {| Request.Method := Request.Method r; Request.RawQuery := Request.RawQuery r;
       Request.Header := Hdr.Set_ "Authorization" v (Request.Header r);
       Request.Body := Request.Body r; Request.BodyFails := Request.BodyFails r |} in
  run (proxyRequest (sent k) key) s = run (proxyRequest (sent ("Bearer " +:+ k)) key) s /\
  run (promptRequest (sent k) key) s = run (promptRequest (sent ("Bearer " +:+ k)) key) s.
Proof.
  intros Hk sent.
  assert (Hne : "Authorization" <> "X-Project") by discriminate.
  split; f_equal.
  - unfold proxyRequest, Chat.proxyRequest, Chat.outboundRequest, sent.
    cbn [Request.Method Request.RawQuery Request.Header Request.Body
         Request.BodyFails].
    rewrite !Get_Set_eq, !(Get_Set_ne _ _ _ _ Hne), !Set_Set.
    now rewrite TrimPrefix_Bearer, (TrimPrefix_bare k Hk).
  - unfold promptRequest, Prompt.proxyRequest, Prompt.outboundRequest, sent.
    cbn [Request.Method Request.RawQuery Request.Header Request.Body
         Request.BodyFails].
    rewrite !Get_Set_eq, !(Get_Set_ne _ _ _ _ Hne), !Set_Set.
    now rewrite TrimPrefix_Bearer, (TrimPrefix_bare k Hk).
Qed.

End Outcomes.

(** ** The user list *)

Lemma insertByName_sorted u rows :
  Sorted (fun a b => String.leb (DB.user_name a) (DB.user_name b) = true) rows ->
  Sorted (fun a b => String.leb (DB.user_name a) (DB.user_name b) = true)
    (DB.insertByName u rows).
Proof.
  induction rows as [|v rest IH]; simpl; intros H.
  - repeat constructor.
  - destruct (String.leb (DB.user_name u) (DB.user_name v)) eqn:E.
    + constructor; [exact H|]. constructor. exact E.
    + apply Sorted_inv in H as [Hs Hh]. constructor; [auto|].
      assert (Hvu : String.leb (DB.user_name v) (DB.user_name u) = true).
      { destruct (String.leb_total (DB.user_name u) (DB.user_name v)); congruence. }
      destruct rest as [|w rest]; simpl.
      * constructor. exact Hvu.
      * destruct (String.leb (DB.user_name u) (DB.user_name w)).
        -- constructor. exact Hvu.
        -- constructor. now inversion Hh.
Qed.

Lemma insertByName_perm u rows : DB.insertByName u rows ≡ₚ u :: rows.
Proof.
  induction rows as [|v rest IH]; simpl; [reflexivity|].
  destruct (String.leb (DB.user_name u) (DB.user_name v)); [reflexivity|].
  rewrite IH. apply perm_swap.
Qed.

Lemma listUsers_rows d :
  Sorted (fun a b => String.leb (DB.name a) (DB.name b) = true) (DB.listUsers d) /\
  DB.listUsers d ≡ₚ
    map (fun u => {| DB.name := DB.user_name u; DB.key := DB.user_key u |}) (DB.users d).
Proof.
  unfold DB.listUsers, DB.orderByName. split.
  - apply (Sorted_fmap _ (fun a b => String.leb (DB.user_name a) (DB.user_name b) = true)).
    + intros x y H. exact H.
    + induction (DB.users d) as [|u rows IH]; simpl; [constructor|].
      now apply insertByName_sorted.
  - apply Permutation_map.
    induction (DB.users d) as [|u rows IH]; simpl; [reflexivity|].
    now rewrite insertByName_perm, IH.
Qed.


(** ** The usage report *)

Lemma resultFunc_snoc acc u r :
  Report.resultFunc (acc ++ [u]) r =
  if String.eqb (Report.month u) (Report.row_month r)
  then acc ++ [Report.addProject (Report.projectUsageOf r) u]
  else acc ++ [u; {| Report.month := Report.row_month r;
                     Report.projects := [Report.projectUsageOf r] |}].
Proof.
  unfold Report.resultFunc. rewrite last_snoc.
  destruct (String.eqb (Report.month u) (Report.row_month r)).
  - rewrite length_app. simpl.
    replace (length acc + 1 - 1)%nat with (length acc + 0)%nat by lia.
    now rewrite alter_app_r.
  - rewrite !length_app. simpl.
    replace (length acc + 1 + 1 - 1)%nat with (length (acc ++ [u]) + 0)%nat
      by (rewrite length_app; simpl; lia).
    rewrite alter_app_r. simpl. now rewrite <- app_assoc.
Qed.

Lemma getUsage_from acc m cur rows :
  fold_left Report.resultFunc rows (acc ++ [usageOfRun (m, cur)]) =
  acc ++ map usageOfRun (monthRunsFrom m cur rows).
Proof.
  revert acc m cur. induction rows as [|r rest IH]; intros acc m cur; simpl.
  - reflexivity.
  - rewrite resultFunc_snoc. simpl.
    destruct (String.eqb m (Report.row_month r)).
    + unfold Report.addProject. simpl.
      rewrite <- (IH acc m (cur ++ [r])). unfold usageOfRun. simpl.
      now rewrite map_app.
    + change (acc ++ [usageOfRun (m, cur);
                      {| Report.month := Report.row_month r;
                         Report.projects := [Report.projectUsageOf r] |}])
        with (acc ++ [usageOfRun (m, cur)] ++ [usageOfRun (Report.row_month r, [r])]).
      rewrite app_assoc, IH, <- app_assoc. reflexivity.
Qed.

Lemma getUsage_runs rows : Report.getUsage rows = map usageOfRun (monthRuns rows).
Proof.
  unfold Report.getUsage. destruct rows as [|r rest]; simpl; [reflexivity|].
  exact (getUsage_from [] (Report.row_month r) [r] rest).
Qed.

Lemma monthRunsFrom_head m cur rows :
  exists rs rest, monthRunsFrom m cur rows = (m, rs) :: rest.
Proof.
  revert cur. induction rows as [|r rows IH]; intros cur; simpl; [eauto|].
  destruct (String.eqb m (Report.row_month r)); eauto.
Qed.

Lemma monthRunsFrom_rows m cur rows :
  concat (map snd (monthRunsFrom m cur rows)) = cur ++ rows.
Proof.
  revert m cur. induction rows as [|r rows IH]; intros m cur; simpl.
  - now rewrite app_nil_r.
  - destruct (String.eqb m (Report.row_month r)); simpl.
    + now rewrite IH, <- app_assoc.
    + now rewrite IH.
Qed.

Lemma monthRunsFrom_good m cur rows :
  goodRun (m, cur) -> Forall goodRun (monthRunsFrom m cur rows).
Proof.
  revert m cur. induction rows as [|r rows IH]; intros m cur Hg; simpl.
  - repeat constructor; apply Hg.
  - destruct (String.eqb_spec m (Report.row_month r)) as [E|E].
    + apply IH. destruct Hg as [_ Hcur]. split; simpl in *.
      * intros H. apply app_eq_nil in H as [_ H]. discriminate.
      * apply Forall_app. split; [exact Hcur|]. repeat constructor. auto.
    + constructor; [exact Hg|]. apply IH. split; simpl.
      * discriminate.
      * repeat constructor.
Qed.

Lemma monthRunsFrom_adjacent m cur rows :
  Sorted (fun a b => fst a <> fst b) (monthRunsFrom m cur rows).
Proof.
  revert m cur. induction rows as [|r rows IH]; intros m cur; simpl.
  - repeat constructor.
  - destruct (String.eqb_spec m (Report.row_month r)) as [E|E]; [apply IH|].
    constructor; [apply IH|].
    destruct (monthRunsFrom_head (Report.row_month r) [r] rows) as (rs & rest & ->).
    constructor. exact E.
Qed.

(** X23. [getUsage] files the rows by month without losing or moving one:
    its result is the rows, in their order, cut into runs of consecutive
    rows of one month; no element is empty and neighbours differ in
    month. *)
Theorem getUsage_files_rows_by_month rows :
  exists runs : list (string * list Report.row),
    Report.getUsage rows = map usageOfRun runs /\
    concat (map snd runs) = rows /\
    Forall goodRun runs /\
    Sorted (fun a b => fst a <> fst b) runs.
Proof.
  exists (monthRuns rows). split; [apply getUsage_runs|].
  destruct rows as [|r rows]; simpl.
  - repeat split; constructor.
  - split; [apply monthRunsFrom_rows|]. split; [|apply monthRunsFrom_adjacent].
    apply monthRunsFrom_good. split; simpl; [discriminate | repeat constructor].
Qed.

Lemma monthRunsFrom_months m cur rows m' :
  In m' (map fst (monthRunsFrom m cur rows)) ->
  m' = m \/ exists r, In r rows /\ Report.row_month r = m'.
Proof.
  revert m cur. induction rows as [|r rows IH]; intros m cur; simpl.
  - intros [H|[]]. auto.
  - destruct (String.eqb m (Report.row_month r)); simpl.
    + intros H. destruct (IH _ _ H) as [E|(x & Hx & E)]; [auto|]. right. eauto.
    + intros [H|H]; [auto|]. right.
      destruct (IH _ _ H) as [E|(x & Hx & E)]; eauto.
Qed.

Lemma monthRunsFrom_NoDup m cur rows :
  StronglySorted
    (fun a b => String.leb (Report.row_month a) (Report.row_month b) = true) rows ->
  Forall (fun r => String.leb m (Report.row_month r) = true) rows ->
  NoDup (map fst (monthRunsFrom m cur rows)).
Proof.
  intros Hs. revert m cur.
  induction Hs as [|r rows Hs IH Hr]; intros m cur Hm; simpl.
  - repeat constructor. intros H. inversion H.
  - apply Forall_cons in Hm as [Hmr Hm].
    destruct (String.eqb_spec m (Report.row_month r)) as [E|E]; [now apply IH|].
    simpl. apply NoDup_cons. split; [|now apply IH].
    intros Hin. apply list_elem_of_In in Hin.
    apply monthRunsFrom_months in Hin as [Hin|(x & Hx & Hin)]; [congruence|].
    apply E. apply String.leb_antisym; [exact Hmr|].
    rewrite Forall_forall in Hr. rewrite <- Hin. apply Hr.
    now apply list_elem_of_In.
Qed.

Lemma filter_month_run m (runs : list (string * list Report.row)) rs :
  NoDup (map fst runs) -> Forall goodRun runs -> In (m, rs) runs ->
  List.filter (fun r => String.eqb (Report.row_month r) m) (concat (map snd runs)) = rs.
Proof.
  induction runs as [|[m1 rs1] runs IH]; simpl; intros Hn Hg Hin; [contradiction|].
  apply NoDup_cons in Hn as [Hn1 Hn2]. apply Forall_cons in Hg as [[_ Hg1] Hg2].
  simpl in Hg1. rewrite List.filter_app.
  destruct Hin as [Hin|Hin].
  - injection Hin as -> ->.
    rewrite filter_all.
    2:{ intros x Hx. rewrite Forall_forall in Hg1. apply String.eqb_eq, Hg1.
        now apply list_elem_of_In. }
    rewrite filter_none; [apply app_nil_r|].
    destruct (existsb _ _) eqn:E; [|reflexivity]. exfalso.
    apply existsb_exists in E as (x & Hx & Ex). apply String.eqb_eq in Ex.
    apply in_concat in Hx as (l & Hl & Hxl).
    apply in_map_iff in Hl as ([m2 rs2] & <- & Hrun).
    rewrite Forall_forall in Hg2.
    destruct (Hg2 (m2, rs2)) as [_ Hall]; [now apply list_elem_of_In|].
    simpl in *. rewrite Forall_forall in Hall.
    assert (m2 = m) by (rewrite <- Ex; symmetry; apply Hall; now apply list_elem_of_In).
    subst m2. apply Hn1, list_elem_of_In, in_map_iff. exists (m, rs2). auto.
  - rewrite filter_none; [simpl; now apply IH|].
    destruct (existsb _ _) eqn:E; [|reflexivity]. exfalso.
    apply existsb_exists in E as (x & Hx & Ex). apply String.eqb_eq in Ex.
    rewrite Forall_forall in Hg1.
    assert (m1 = m) by (rewrite <- Ex; symmetry; apply Hg1; now apply list_elem_of_In).
    subst m1. apply Hn1, list_elem_of_In, in_map_iff. exists (m, rs). auto.
Qed.

(** X24. On rows ordered by month, as the statement of [getUsage] delivers
    them, the result has one element per month, and the element of a
    month holds exactly the rows of that month, in their order. *)
Theorem getUsage_one_element_per_month rows :
  StronglySorted
    (fun a b => String.leb (Report.row_month a) (Report.row_month b) = true) rows ->
  NoDup (map Report.month (Report.getUsage rows)) /\
  forall u, In u (Report.getUsage rows) ->
    Report.projects u =
    map Report.projectUsageOf
      (List.filter (fun r => String.eqb (Report.row_month r) (Report.month u)) rows).
Proof.
  intros Hs. rewrite getUsage_runs.
  assert (Hn : NoDup (map fst (monthRuns rows))).
  { destruct Hs as [|r rows Hs Hr]; simpl; [constructor|].
    now apply monthRunsFrom_NoDup. }
  assert (Hg : Forall goodRun (monthRuns rows)).
  { destruct rows as [|r rows]; simpl; [constructor|].
    apply monthRunsFrom_good. split; simpl; [discriminate | repeat constructor]. }
  assert (Hrows : concat (map snd (monthRuns rows)) = rows).
  { destruct rows as [|r rows]; simpl; [reflexivity | apply monthRunsFrom_rows]. }
  split.
  - rewrite map_map. exact Hn.
  - intros u Hu. apply in_map_iff in Hu as ([m rs] & <- & Hin). simpl.
    rewrite <- Hrows at 1. now rewrite (filter_month_run m _ rs Hn Hg Hin).
Qed.

(** ** The command line *)

Transparent String.eqb.

Section CommandLine.

Variable errorText : string.
Variable getUsageStmt : DB.t -> list Report.row.

Let main := CLI.main errorText getUsageStmt.



Lemma concat_cons x (l : list string) :
  String.concat EmptyString (x :: l) = x +:+ String.concat EmptyString l.
Proof.
  destruct l as [|y l]; simpl.
  - now rewrite append_nil_r.
  - now rewrite append_nil_l.
Qed.

Lemma concat_holds (l : list string) x :
  In x l -> exists pre post, String.concat EmptyString l = pre +:+ x +:+ post.
Proof.
  induction l as [|y l IH]; [intros []|].
  intros [->|H]; rewrite concat_cons.
  - exists EmptyString, (String.concat EmptyString l). now rewrite append_nil_l.
  - destruct (IH H) as (pre & post & ->). exists (y +:+ pre), post.
    now rewrite append_assoc.
Qed.

Lemma setUserKey_lists d n k d' :
  DB.setUserKey d n k = (d', true) ->
  In {| DB.name := n; DB.key := k |} (DB.listUsers d').
Proof.
  intros Hs.
  assert (Hrow : exists u, In u (DB.users d') /\ DB.user_name u = n /\ DB.user_key u = k).
  { destruct (setUserKey_row _ _ _ _ Hs) as [(u & Hu & Eu & E)|[_ E]]; rewrite E.
    - exists (DB.withKey k u). repeat split; auto.
      apply in_map_iff. exists u. split; [|exact Hu].
      unfold DB.rekey. apply hasName_spec in Eu. now rewrite Eu.
    - eexists. split; [apply in_app_iff; right; left; reflexivity|]. auto. }
  destruct Hrow as (u & Hu & <- & <-).
  destruct (listUsers_rows d') as [_ Hperm].
  apply list_elem_of_In. rewrite Hperm. apply list_elem_of_In, in_map_iff. eauto.
Qed.

(** X27. The user commands fit together: after a [set-user-key] that ended
    with status 0, [list-users] prints the line of that user with that
    key. *)
Theorem set_user_key_then_list_users userName apiKey d out err d' :
  main ["set-user-key"; userName; apiKey] d = CLI.Exited 0 out err d' ->
  exists pre post,
    main ["list-users"] d' =
    CLI.Exited 0 (pre +:+ (userName +:+ CLI.tab +:+ apiKey +:+ nl) +:+ post)
      EmptyString d'.
Proof.
  unfold main, CLI.main. simpl. unfold CLI.setUserKeyCmd, CLI.listUsersCmd.
  destruct (DB.setUserKey d userName apiKey) as [d1 ok] eqn:Hs.
  destruct ok; [|discriminate]. intros H. injection H as _ _ <-.
  destruct (concat_holds (map CLI.userLine (DB.listUsers d1))
              (CLI.userLine {| DB.name := userName; DB.key := apiKey |}))
    as (pre & post & E).
  { apply in_map. exact (setUserKey_lists _ _ _ _ Hs). }
  exists pre, post. now rewrite E.
Qed.

End CommandLine.

Opaque String.eqb.

(** ** The lines of the usage report *)









(** ** The message of a block *)

Transparent Str.TrimSpace.

Lemma rev_app_append (s t acc : string) :
  String.rev_app (s +:+ t) acc = String.rev_app t (String.rev_app s acc).
Proof.
  revert acc. induction s as [|c s IH]; intros acc.
  - now rewrite append_nil_l.
  - rewrite append_cons. simpl. apply IH.
Qed.

Lemma TrimRightSpace_nl (y : string) :
  Str.TrimRightSpace (y +:+ nl) = Str.TrimRightSpace y.
Proof.
  unfold Str.TrimRightSpace, String.rev. rewrite rev_app_append. reflexivity.
Qed.

Lemma space2_nl a : Str.space2 a Str.newline = false.
Proof. unfold Str.space2. cbn. now rewrite andb_false_r. Qed.

Lemma space3_nl a b : Str.space3 a b Str.newline = false.
Proof.
  unfold Str.space3. cbn. now rewrite ?andb_false_r, ?orb_false_r.
Qed.

Lemma TrimLeftSpace_cons a r :
  Str.TrimLeftSpace (String a r) =
  if Str.space1 a then Str.TrimLeftSpace r
  else match r with
       | EmptyString => String a r
       | String b r2 =>
           if Str.space2 a b then Str.TrimLeftSpace r2
           else match r2 with
                | EmptyString => String a r
                | String c r3 =>
                    if Str.space3 a b c then Str.TrimLeftSpace r3 else String a r
                end
       end.
Proof. reflexivity. Qed.

Lemma TrimLeftSpace_nl_aux n : forall x,
  (String.length x <= n)%nat ->
  Str.TrimLeftSpace (x +:+ nl) =
  match Str.TrimLeftSpace x with
  | EmptyString => EmptyString
  | t => t +:+ nl
  end.
Proof.
  induction n as [|n IH]; intros x Hn.
  - destruct x; [reflexivity | simpl in Hn; lia].
  - destruct x as [|a r]; [reflexivity|].
    simpl in Hn. rewrite append_cons, !TrimLeftSpace_cons.
    destruct (Str.space1 a); [apply IH; lia|].
    destruct r as [|b r2].
    { rewrite append_nil_l. unfold nl. now rewrite space2_nl. }
    rewrite append_cons. simpl in Hn.
    destruct (Str.space2 a b); [apply IH; lia|].
    destruct r2 as [|c r3].
    { rewrite append_nil_l. unfold nl. now rewrite space3_nl. }
    rewrite append_cons. simpl in Hn.
    destruct (Str.space3 a b c); [apply IH; lia|].
    now rewrite !append_cons.
Qed.

Lemma TrimSpace_nl (x : string) : Str.TrimSpace (x +:+ nl) = Str.TrimSpace x.
Proof.
  unfold Str.TrimSpace.
  rewrite (TrimLeftSpace_nl_aux (String.length x) x (le_n _)).
  destruct (Str.TrimLeftSpace x) as [|c t] eqn:E; [reflexivity|].
  apply TrimRightSpace_nl.
Qed.

Opaque Str.TrimSpace.

Lemma prefix_nl (p b : string) :
  forallb (fun c => negb (Ascii.eqb c Str.newline)) (list_ascii_of_string p) = true ->
  String.prefix p (b +:+ nl) = String.prefix p b /\
  (String.prefix p b = true ->
   Str.skip (String.length p) (b +:+ nl) = Str.skip (String.length p) b +:+ nl).
Proof.
  revert b. induction p as [|c p IH]; intros b Hp.
  - split; [|reflexivity]. destruct (b +:+ nl); destruct b; reflexivity.
  - simpl in Hp. apply andb_true_iff in Hp as [Hc Hp].
    apply negb_true_iff, Ascii.eqb_neq in Hc.
    destruct b as [|a b].
    + rewrite append_nil_l. unfold nl. simpl.
      destruct (ascii_dec c Str.newline); [contradiction|].
      split; [reflexivity | discriminate].
    + rewrite append_cons. simpl.
      destruct (ascii_dec c a); [apply IH; exact Hp|].
      split; [reflexivity | discriminate].
Qed.

Lemma HasPrefix_data_nl (b : string) :
  Str.HasPrefix (b +:+ nl) "data:" = Str.HasPrefix b "data:" /\
  (Str.HasPrefix b "data:" = true -> Str.skip 5 (b +:+ nl) = Str.skip 5 b +:+ nl).
Proof. unfold Str.HasPrefix. now apply (prefix_nl "data:"). Qed.

Lemma addLine_nl msg b : Chat.addLine msg (b +:+ nl) = Chat.addLine msg b.
Proof.
  unfold Chat.addLine. destruct (HasPrefix_data_nl b) as [-> Hskip].
  destruct (Str.HasPrefix b "data:"); [|reflexivity].
  now rewrite Hskip, TrimSpace_nl.
Qed.

Lemma SplitLines_line l rest :
  isLine l = true ->
  exists b, l = b +:+ nl /\ Str.SplitLines (l +:+ rest) = b :: Str.SplitLines rest.
Proof.
  induction l as [|c l IH]; [discriminate|].
  destruct l as [|c' l'].
  - simpl. intros Hc. apply Ascii.eqb_eq in Hc. subst c.
    exists EmptyString. split; [reflexivity|].
    rewrite ?append_cons, ?append_nil_l. reflexivity.
  - intros H. change (isLine (String c (String c' l')))
      with (negb (Ascii.eqb c Str.newline) && isLine (String c' l')) in H.
    apply andb_true_iff in H as [Hc Hl]. apply negb_true_iff in Hc.
    destruct (IH Hl) as (b & Eb & Es).
    exists (String c b). split; [now rewrite append_cons, <- Eb|].
    rewrite append_cons. cbn [Str.SplitLines]. now rewrite Hc, Es.
Qed.

Lemma fold_pieces lines acc :
  Forall (fun l => isLine l = true) lines ->
  fold_left Chat.addLine (Str.SplitLines (concatLines lines)) acc =
  fold_left Chat.addLine lines acc.
Proof.
  intros H. revert acc. induction H as [|l lines Hl _ IH]; intros acc; simpl.
  - reflexivity.
  - destruct (SplitLines_line l (concatLines lines) Hl) as (b & -> & ->).
    simpl. now rewrite IH, addLine_nl.
Qed.

(** X29. [getMessageFromSSE], which nothing calls, and the inner loop of
    the relay agree: on the text of a block, the function gives the
    message the loop assembles from the lines of the block as it reads
    them. *)
Theorem getMessageFromSSE_is_the_loop lines :
  Forall (fun l => isLine l = true) lines ->
  Chat.getMessageFromSSE (concatLines lines) = Chat.assembled lines.
Proof. intros H. exact (fold_pieces lines EmptyString H). Qed.

(** ** The added properties at sample inputs *)

Lemma NoDup_one {A : Type} (x : A) : NoDup [x].
Proof. apply NoDup_cons. split; [apply not_elem_of_nil | apply NoDup_nil_2]. Defined.

Lemma db0_holds : Schema.holds Sample.db0.
Proof.
  split; simpl; try apply NoDup_one; try apply NoDup_nil_2; constructor.
Defined.

Lemma getProjectID_round_trip_witness :
  Schema.holds Sample.db0 /\
  DB.getProjectID Sample.db0 1 "<default>"
  = ({| DB.users := [Sample.alice];
        DB.projects := [{| DB.project_id := 1; DB.project_user := 1;
                           DB.project_name := "<default>" |}];
        DB.models := []; DB.usage := [] |}, Some 1) /\
  DB.getProjectID
    {| DB.users := [Sample.alice];
       DB.projects := [{| DB.project_id := 1; DB.project_user := 1;
                          DB.project_name := "<default>" |}];
       DB.models := []; DB.usage := [] |} 1 "<default>"
  = ({| DB.users := [Sample.alice];
        DB.projects := [{| DB.project_id := 1; DB.project_user := 1;
                           DB.project_name := "<default>" |}];
        DB.models := []; DB.usage := [] |}, Some 1).
Proof.
  assert (H1 : Schema.holds Sample.db0) by exact db0_holds.
  assert (H2 : DB.getProjectID Sample.db0 1 "<default>"
               = ({| DB.users := [Sample.alice];
                     DB.projects := [{| DB.project_id := 1; DB.project_user := 1;
                                        DB.project_name := "<default>" |}];
                     DB.models := []; DB.usage := [] |}, Some 1))
    by (vm_compute; reflexivity).
  split; [exact H1|]. split; [exact H2|].
  exact (proj1 (proj2 (getProjectID_round_trip _ _ _ _ _ H1 H2))).
Defined.

Lemma getModelID_round_trip_witness :
  Schema.holds Sample.db0 /\
  exists d1 mid,
    DB.getModelID Sample.db0 "gpt-x" = (d1, Some mid) /\
    DB.getModelID d1 "gpt-x" = (d1, Some mid).
Proof.
  assert (H1 : Schema.holds Sample.db0) by exact db0_holds.
  split; [exact H1|].
  destruct (getModelID_round_trip Sample.db0 "gpt-x" H1) as (d1 & mid & E1 & _ & E2 & _).
  exists d1, mid. split; [exact E1 | exact E2].
Defined.

Lemma setUserKey_then_findUserByKey_witness :
  Schema.holds Sample.db0 /\
  DB.setUserKey Sample.db0 "alice" "xyz"
  = ({| DB.users := [{| DB.user_id := 1; DB.user_name := "alice";
                        DB.user_key := "xyz" |}];
        DB.projects := []; DB.models := []; DB.usage := [] |}, true) /\
  DB.findUserByKey Sample.db0 "abc" = (1, "alice", true) /\
  DB.findUserByKey
    {| DB.users := [{| DB.user_id := 1; DB.user_name := "alice";
                       DB.user_key := "xyz" |}];
       DB.projects := []; DB.models := []; DB.usage := [] |} "xyz"
  = (1, "alice", true) /\
  DB.findUserByKey
    {| DB.users := [{| DB.user_id := 1; DB.user_name := "alice";
                       DB.user_key := "xyz" |}];
       DB.projects := []; DB.models := []; DB.usage := [] |} "abc"
  = (0, EmptyString, false).
Proof.
  assert (H1 : Schema.holds Sample.db0) by exact db0_holds.
  assert (H2 : DB.setUserKey Sample.db0 "alice" "xyz"
               = ({| DB.users := [{| DB.user_id := 1; DB.user_name := "alice";
                                     DB.user_key := "xyz" |}];
                     DB.projects := []; DB.models := []; DB.usage := [] |}, true))
    by (vm_compute; reflexivity).
  assert (H3 : DB.findUserByKey Sample.db0 "abc" = (1, "alice", true))
    by (vm_compute; reflexivity).
  split; [exact H1|]. split; [exact H2|]. split; [exact H3|].
  destruct (setUserKey_then_findUserByKey _ _ _ _ H1 H2) as (_ & Hold & _).
  destruct (Hold "abc" 1 H3) as [Hnew Hgone].
  split; [exact Hnew | apply Hgone; discriminate].
Defined.

Lemma schema_kept_by_storage_witness :
  Schema.holds Sample.db0 /\
  Schema.holds (fst (DB.setUserKey Sample.db0 "bob" "xyz")) /\
  Schema.holds (fst (DB.deleteUser Sample.db0 "alice")).
Proof.
  assert (H1 : Schema.holds Sample.db0) by exact db0_holds.
  split; [exact H1|].
  destruct (schema_kept_by_storage Sample.db0 H1) as (_ & _ & _ & Hs & Hd).
  split; [exact (Hs "bob" "xyz") | exact (Hd "alice")].
Defined.

Lemma deleteUser_outcomes_witness :
  Schema.holds Sample.db0 /\
  DB.deleteUser Sample.db0 "alice"
  = ({| DB.users := []; DB.projects := []; DB.models := []; DB.usage := [] |},
     Some true) /\
  exists u, In u (DB.users Sample.db0) /\ DB.user_name u = "alice" /\
    DB.findUserByKey
      {| DB.users := []; DB.projects := []; DB.models := []; DB.usage := [] |}
      (DB.user_key u) = (0, EmptyString, false).
Proof.
  assert (H1 : Schema.holds Sample.db0) by exact db0_holds.
  assert (H2 : DB.deleteUser Sample.db0 "alice"
               = ({| DB.users := []; DB.projects := []; DB.models := [];
                     DB.usage := [] |}, Some true))
    by (vm_compute; reflexivity).
  split; [exact H1|]. split; [exact H2|].
  pose proof (deleteUser_outcomes Sample.db0 "alice" H1) as H.
  rewrite H2 in H. destruct H as (u & Hin & Hn & _ & Hk & _).
  exists u. split; [exact Hin|]. split; [exact Hn | exact Hk].
Defined.

Lemma calls_keep_schema_witness :
  Schema.holds (db Sample.s0) /\
  Schema.holds (db (Sample.chat (Sample.respond 200 Sample.usage7)
                      Sample.plainRequest Sample.s0)) /\
  Schema.holds (db (Sample.prompt (Sample.respond 200 Sample.usage7)
                      Sample.plainRequest Sample.s0)).
Proof.
  assert (H : Schema.holds (db Sample.s0)) by exact db0_holds.
  split; [exact H|].
  exact (calls_keep_schema
           Chat.unmarshalRequestBody Prompt.unmarshalRequestBody
           unmarshalResponseBody Chat.unmarshalStreamedBody Sample.ForModel
           (Sample.respond 200 Sample.usage7)
           Sample.plainRequest "sk-upstream" Sample.s0 H).
Defined.

Lemma call_answered_once_witness :
  fresh Sample.s0 /\
  exists pre code h post,
    trace (Sample.chat (Sample.respond 200 Sample.sseBody)
             Sample.streamRequest Sample.s0)
    = pre ++ EvStatus code h :: post /\
    forallb (fun e => negb (isWire e)) pre = true /\
    statusLines post = [].
Proof.
  assert (H : fresh Sample.s0) by (split; reflexivity).
  split; [exact H|].
  exact (call_answered_once
           Chat.unmarshalRequestBody Prompt.unmarshalRequestBody
           unmarshalResponseBody Chat.unmarshalStreamedBody Sample.ForModel
           (Sample.respond 200 Sample.sseBody)
           Sample.streamRequest "sk-upstream" Sample.s0 H _ (or_introl eq_refl)).
Defined.

Lemma connection_always_returned_witness :
  fresh Sample.s0 /\
  (forallb (fun e => negb (isStorage e))
     (trace (Sample.prompt (Sample.respond 200 Sample.usage7)
               Sample.promptRequest Sample.s0)) = true \/
   exists mid,
     trace (Sample.prompt (Sample.respond 200 Sample.usage7)
              Sample.promptRequest Sample.s0)
     = EvGetConn :: mid ++ [EvPutConn] /\
     forallb (fun e => negb (isConn e)) mid = true).
Proof.
  assert (H : fresh Sample.s0) by (split; reflexivity).
  split; [exact H|].
  exact (connection_always_returned
           Chat.unmarshalRequestBody Prompt.unmarshalRequestBody
           unmarshalResponseBody Chat.unmarshalStreamedBody Sample.ForModel
           (Sample.respond 200 Sample.usage7)
           Sample.promptRequest "sk-upstream" Sample.s0 H _ (or_intror eq_refl)).
Defined.

Lemma one_upstream_call_one_record_witness :
  fresh Sample.s0 /\
  (upstreamCalls (trace (Sample.chat (Sample.respond 200 Sample.usage7)
                           Sample.plainRequest Sample.s0)) <= 1)%nat /\
  (length (saved (trace (Sample.chat (Sample.respond 200 Sample.usage7)
                           Sample.plainRequest Sample.s0))) <= 1)%nat.
Proof.
  assert (H : fresh Sample.s0) by (split; reflexivity).
  split; [exact H|].
  destruct (one_upstream_call_one_record
              Chat.unmarshalRequestBody Prompt.unmarshalRequestBody
              unmarshalResponseBody Chat.unmarshalStreamedBody Sample.ForModel
              (Sample.respond 200 Sample.usage7)
              Sample.plainRequest "sk-upstream" Sample.s0 H _ (or_introl eq_refl))
    as (H1 & H2 & _).
  split; [exact H1 | exact H2].
Defined.

Lemma method_rejected_witness :
  Request.Method (Sample.request "GET" "" "") <> "POST" /\
  fresh Sample.s0 /\
  trace (Sample.chat (Sample.respond 200 Sample.usage7)
           (Sample.request "GET" "" "") Sample.s0)
  = [EvStatus StatusBadRequest (errorHeader ∅);
     EvBody ("Only POST requests are supported" +:+ nl)] /\
  db (Sample.chat (Sample.respond 200 Sample.usage7)
        (Sample.request "GET" "" "") Sample.s0) = Sample.db0.
Proof.
  assert (H1 : Request.Method (Sample.request "GET" "" "") <> "POST") by discriminate.
  assert (H2 : fresh Sample.s0) by (split; reflexivity).
  split; [exact H1|]. split; [exact H2|].
  exact (method_rejected
           Chat.unmarshalRequestBody unmarshalResponseBody
           Chat.unmarshalStreamedBody Sample.ForModel
           (Sample.respond 200 Sample.usage7)
           (Sample.request "GET" "" "") "sk-upstream" Sample.s0 H1 H2).
Defined.

Lemma unknown_key_rejected_witness :
  fresh Sample.s0 /\
  (forall u, In u (DB.users (db Sample.s0)) ->
             DB.user_key u <> reqKey Sample.strangerRequest) /\
  trace (Sample.chat (Sample.respond 200 Sample.usage7)
           Sample.strangerRequest Sample.s0)
  = [EvGetConn; EvFindUserByKey "nobody";
     EvStatus StatusUnauthorized (errorHeader ∅);
     EvBody ("Invalid API key" +:+ nl); EvPutConn] /\
  db (Sample.chat (Sample.respond 200 Sample.usage7)
        Sample.strangerRequest Sample.s0) = Sample.db0.
Proof.
  assert (H1 : fresh Sample.s0) by (split; reflexivity).
  assert (H2 : forall u, In u (DB.users (db Sample.s0)) ->
                         DB.user_key u <> reqKey Sample.strangerRequest).
  { intros u [<-|[]]. vm_compute. discriminate. }
  split; [exact H1|]. split; [exact H2|].
  exact (unknown_key_rejected
           Chat.unmarshalRequestBody unmarshalResponseBody
           Chat.unmarshalStreamedBody Sample.ForModel
           (Sample.respond 200 Sample.usage7)
           Sample.strangerRequest "sk-upstream" Sample.s0 eq_refl eq_refl H1 H2).
Defined.

Lemma unknown_model_rejected_witness :
  fresh Sample.s0 /\
  DB.findUserByKey (db Sample.s0) (reqKey Sample.otherModelRequest)
  = (1, "alice", true) /\
  Chat.unmarshalRequestBody (Request.Body Sample.otherModelRequest)
  = Some {| Chat.Model := "gpt-y"; Chat.Messages := [];
            Chat.Suffix := EmptyString; Chat.Stream := false |} /\
  Sample.ForModel "gpt-y" = None /\
  clientBody (trace (Sample.chat (Sample.respond 200 Sample.usage7)
                       Sample.otherModelRequest Sample.s0))
  = "failed to find model gpt-y" +:+ nl /\
  DB.models (db (Sample.chat (Sample.respond 200 Sample.usage7)
                   Sample.otherModelRequest Sample.s0)) = [].
Proof.
  assert (H1 : fresh Sample.s0) by (split; reflexivity).
  assert (H2 : DB.findUserByKey (db Sample.s0) (reqKey Sample.otherModelRequest)
               = (1, "alice", true)) by (vm_compute; reflexivity).
  assert (H3 : Chat.unmarshalRequestBody (Request.Body Sample.otherModelRequest)
               = Some {| Chat.Model := "gpt-y"; Chat.Messages := [];
                         Chat.Suffix := EmptyString; Chat.Stream := false |})
    by (vm_compute; reflexivity).
  assert (H4 : Sample.ForModel "gpt-y" = None) by (vm_compute; reflexivity).
  split; [exact H1|]. split; [exact H2|]. split; [exact H3|]. split; [exact H4|].
  destruct (unknown_model_rejected
              Chat.unmarshalRequestBody unmarshalResponseBody
              Chat.unmarshalStreamedBody Sample.ForModel
              (Sample.respond 200 Sample.usage7)
              Sample.otherModelRequest "sk-upstream" Sample.s0 1 "alice" _
              eq_refl eq_refl H1 H2 eq_refl H3 H4)
    as (Ht & _ & Hm & _).
  split; [|exact Hm].
  exact (f_equal clientBody Ht).
Defined.

Lemma upstream_failure_reported_witness :
  fresh Sample.s0 /\
  Sample.unreachable (Chat.outboundRequest Sample.plainRequest "sk-upstream")
  = inr "connection refused" /\
  existsb (DB.isModel "gpt-x")
    (DB.models (db (Sample.chat Sample.unreachable Sample.plainRequest Sample.s0)))
  = true /\
  DB.usage (db (Sample.chat Sample.unreachable Sample.plainRequest Sample.s0)) = [].
Proof.
  assert (H1 : fresh Sample.s0) by (split; reflexivity).
  assert (H2 : DB.findUserByKey (db Sample.s0) (reqKey Sample.plainRequest)
               = (1, "alice", true)) by (vm_compute; reflexivity).
  assert (H3 : Chat.unmarshalRequestBody (Request.Body Sample.plainRequest)
               = Some {| Chat.Model := "gpt-x";
                         Chat.Messages := [{| Chat.Content := "hi" |}];
                         Chat.Suffix := EmptyString; Chat.Stream := false |})
    by (vm_compute; reflexivity).
  assert (H4 : Sample.ForModel "gpt-x" = Some Sample.bytesCodec)
    by (vm_compute; reflexivity).
  split; [exact H1|]. split; [reflexivity|].
  destruct (upstream_failure_reported
              Chat.unmarshalRequestBody unmarshalResponseBody
              Chat.unmarshalStreamedBody Sample.ForModel Sample.unreachable
              Sample.plainRequest "sk-upstream" Sample.s0 1 "alice" _
              Sample.bytesCodec "connection refused"
              eq_refl eq_refl H1 H2 eq_refl H3 H4 eq_refl)
    as (_ & _ & Hm & Hu).
  split; [exact Hm | exact Hu].
Defined.

Lemma upstream_gets_proxy_key_witness :
  fresh Sample.s0 /\
  In (EvDo (Chat.outboundRequest Sample.plainRequest "sk-upstream"))
     (trace (Sample.chat (Sample.respond 200 Sample.usage7)
               Sample.plainRequest Sample.s0)) /\
  Hdr.Values (Request.Header Sample.plainRequest) "Authorization" = ["Bearer abc"] /\
  Hdr.Values
    (OutRequest.Header (Chat.outboundRequest Sample.plainRequest "sk-upstream"))
    "Authorization" = ["Bearer " +:+ "sk-upstream"].
Proof.
  assert (H1 : fresh Sample.s0) by (split; reflexivity).
  assert (H2 : In (EvDo (Chat.outboundRequest Sample.plainRequest "sk-upstream"))
                 (trace (Sample.chat (Sample.respond 200 Sample.usage7)
                           Sample.plainRequest Sample.s0)))
    by (vm_compute; do 7 right; left; reflexivity).
  split; [exact H1|]. split; [exact H2|]. split; [vm_compute; reflexivity|].
  destruct (upstream_gets_proxy_key
              Chat.unmarshalRequestBody Prompt.unmarshalRequestBody
              unmarshalResponseBody Chat.unmarshalStreamedBody Sample.ForModel
              (Sample.respond 200 Sample.usage7)
              Sample.plainRequest "sk-upstream" Sample.s0 _ H1 (or_introl H2))
    as (_ & _ & _ & Ha & _).
  exact Ha.
Defined.

Lemma served_user_cannot_be_deleted_witness :
  DB.findUserByKey (db Sample.s0) (reqKey Sample.badBodyRequest) = (1, "alice", true) /\
  DB.deleteUser Sample.db0 "alice"
  = ({| DB.users := []; DB.projects := []; DB.models := []; DB.usage := [] |},
     Some true) /\
  snd (DB.deleteUser
         (db (Sample.chat (Sample.respond 200 Sample.usage7)
                Sample.badBodyRequest Sample.s0)) "alice") = None.
Proof.
  assert (H : DB.findUserByKey (db Sample.s0) (reqKey Sample.badBodyRequest)
              = (1, "alice", true)) by (vm_compute; reflexivity).
  split; [exact H|]. split; [vm_compute; reflexivity|].
  exact (f_equal snd
           (served_user_cannot_be_deleted
              Chat.unmarshalRequestBody unmarshalResponseBody
              Chat.unmarshalStreamedBody Sample.ForModel
              (Sample.respond 200 Sample.usage7)
              Sample.badBodyRequest "sk-upstream" Sample.s0 1 "alice"
              eq_refl eq_refl H)).
Defined.




Lemma bearer_scheme_is_optional_witness :
  Str.HasPrefix "abc" "Bearer " = false /\
  Sample.chat (Sample.respond 200 Sample.usage7) (Sample.withCredential "abc")
    Sample.s0
  = Sample.chat (Sample.respond 200 Sample.usage7)
      (Sample.withCredential ("Bearer " +:+ "abc")) Sample.s0.
Proof.
  assert (H : Str.HasPrefix "abc" "Bearer " = false) by (vm_compute; reflexivity).
  split; [exact H|].
  exact (proj1 (bearer_scheme_is_optional
                  Chat.unmarshalRequestBody Prompt.unmarshalRequestBody
                  unmarshalResponseBody Chat.unmarshalStreamedBody Sample.ForModel
                  (Sample.respond 200 Sample.usage7)
                  Sample.plainRequest "abc" "sk-upstream" Sample.s0 H)).
Defined.

Lemma getUsage_one_element_per_month_witness :
  StronglySorted
    (fun a b => String.leb (Report.row_month a) (Report.row_month b) = true)
    Sample.rows /\
  NoDup (map Report.month (Report.getUsage Sample.rows)).
Proof.
  assert (H : StronglySorted
                (fun a b => String.leb (Report.row_month a) (Report.row_month b) = true)
                Sample.rows)
    by (repeat constructor).
  split; [exact H|].
  exact (proj1 (getUsage_one_element_per_month Sample.rows H)).
Defined.


Lemma set_user_key_then_list_users_witness :
  Sample.main ["set-user-key"; "bob"; "xyz"] Sample.db0
  = CLI.Exited 0 ("User " +:+ "bob" +:+ " is created/updated" +:+ nl) EmptyString
      {| DB.users := [Sample.alice;
                      {| DB.user_id := 2; DB.user_name := "bob";
                         DB.user_key := "xyz" |}];
         DB.projects := []; DB.models := []; DB.usage := [] |} /\
  exists pre post,
    Sample.main ["list-users"]
      {| DB.users := [Sample.alice;
                      {| DB.user_id := 2; DB.user_name := "bob";
                         DB.user_key := "xyz" |}];
         DB.projects := []; DB.models := []; DB.usage := [] |}
    = CLI.Exited 0 (pre +:+ ("bob" +:+ CLI.tab +:+ "xyz" +:+ nl) +:+ post)
        EmptyString
        {| DB.users := [Sample.alice;
                        {| DB.user_id := 2; DB.user_name := "bob";
                           DB.user_key := "xyz" |}];
           DB.projects := []; DB.models := []; DB.usage := [] |}.
Proof.
  assert (H : Sample.main ["set-user-key"; "bob"; "xyz"] Sample.db0
              = CLI.Exited 0 ("User " +:+ "bob" +:+ " is created/updated" +:+ nl)
                  EmptyString
                  {| DB.users := [Sample.alice;
                                  {| DB.user_id := 2; DB.user_name := "bob";
                                     DB.user_key := "xyz" |}];
                     DB.projects := []; DB.models := []; DB.usage := [] |})
    by (vm_compute; reflexivity).
  split; [exact H|].
  exact (set_user_key_then_list_users _ _ _ _ _ _ _ _ H).
Defined.


Lemma getMessageFromSSE_is_the_loop_witness :
  Forall (fun l => isLine l = true)
    ["event: delta" +:+ nl; "data: [DONE]" +:+ nl] /\
  Chat.getMessageFromSSE (concatLines ["event: delta" +:+ nl; "data: [DONE]" +:+ nl])
  = Chat.assembled ["event: delta" +:+ nl; "data: [DONE]" +:+ nl].
Proof.
  assert (H : Forall (fun l => isLine l = true)
                ["event: delta" +:+ nl; "data: [DONE]" +:+ nl])
    by (repeat constructor).
  split; [exact H|].
  exact (getMessageFromSSE_is_the_loop _ H).
Defined.
